(** * Order / seat / selection workflow of the [orders] Django app

    Shallow embedding of [orders/views.py], [orders/forms.py],
    [orders/decorators.py] and the seat / selection part of
    [orders/models.py].

    Python strings are lists of Unicode code points ([list Z]).  The
    Unicode character database facts used by [str.isdigit], [int] and
    [str.strip] are a record [ucd]; general theorems quantify over every
    database that agrees with Unicode on the ASCII digits, and concrete
    evaluations use [ucd0], a fragment of the real database. *)

From Stdlib Require Import ZArith List Lia.
From Stdlib Require Strings.String Strings.Ascii.
Import (notations) Stdlib.Strings.String.
From stdpp Require Import base gmap sets list sorting.

Open Scope Z_scope.

(* ------------------------------------------------------------------ *)
(** ** Python strings *)

Abbreviation pystr := (list Z).

(** ASCII literal to code points (for writing concrete inputs). *)
Fixpoint s2z (s : String.string) : pystr :=
  match s with
  | String.EmptyString => []
  | String.String c r => Z.of_nat (Ascii.nat_of_ascii c) :: s2z r
  end.
Arguments s2z s%_string_scope.

(** The facts of the Unicode character database used by the code:
    the decimal value of a character (Numeric_Type=Decimal, accepted by
    [int]) and whether it is a digit (Numeric_Type Decimal or Digit,
    accepted by [str.isdigit]). *)
Record ucd := mkUcd {
  ucd_decimal : Z -> option Z;
  ucd_isdigit : Z -> bool
}.

(** What every database satisfies: the ASCII digits are decimal with their
    value, a decimal character is a digit with a value in 0..9, and the
    minus sign is not a digit. *)
Definition ucd_wf (u : ucd) : Prop :=
  (forall d, 0 <= d <= 9 -> ucd_decimal u (48 + d) = Some d) /\
  (forall c d, ucd_decimal u c = Some d -> 0 <= d <= 9 /\ ucd_isdigit u c = true) /\
  ucd_isdigit u 45 = false.

Definition in_range (lo hi c : Z) : bool := (lo <=? c) && (c <=? hi).

(** A fragment of the Unicode database: ASCII, Arabic-Indic and fullwidth
    decimal digits; superscript and subscript digits are digits but not
    decimal. *)
Definition ucd0 : ucd := {|
  ucd_decimal := fun c =>
    if in_range 48 57 c then Some (c - 48)
    else if in_range 1632 1641 c then Some (c - 1632)
    else if in_range 65296 65305 c then Some (c - 65296)
    else None;
  ucd_isdigit := fun c =>
    in_range 48 57 c || in_range 1632 1641 c || in_range 65296 65305 c
    || (c =? 178) || (c =? 179) || (c =? 185) || (c =? 8304)
    || in_range 8308 8313 c || in_range 8320 8329 c
|}.

(** [str.isspace] for one character (the complete Python table). *)
Definition py_isspace (c : Z) : bool :=
  in_range 9 13 c || in_range 28 32 c || (c =? 133) || (c =? 160)
  || (c =? 5760) || in_range 8192 8202 c || (c =? 8232) || (c =? 8233)
  || (c =? 8239) || (c =? 8287) || (c =? 12288).

Fixpoint lstrip (s : pystr) : pystr :=
  match s with
  | c :: r => if py_isspace c then lstrip r else s
  | [] => []
  end.

(** [str.strip()] *)
Definition py_strip (s : pystr) : pystr := rev (lstrip (rev (lstrip s))).

(** [str.isdigit()] *)
Definition py_isdigit (u : ucd) (s : pystr) : bool :=
  match s with
  | [] => false
  | _ => forallb (ucd_isdigit u) s
  end.

(** Truthiness of a string ([if s:]). *)
Definition py_truthy (s : pystr) : bool :=
  match s with [] => false | _ => true end.

(** Digits of [int()] in base 10, with single underscores between digits. *)
Fixpoint parse_digits (u : ucd) (acc : Z) (prev_us : bool) (s : pystr)
  : option Z :=
  match s with
  | [] => if prev_us then None else Some acc
  | c :: r =>
      if c =? 95 then (if prev_us then None else parse_digits u acc true r)
      else match ucd_decimal u c with
           | Some d => parse_digits u (10 * acc + d) false r
           | None => None
           end
  end.

Definition parse_unsigned (u : ucd) (s : pystr) : option Z :=
  match s with
  | [] => None
  | c :: _ => if c =? 95 then None else parse_digits u 0 false s
  end.

(** [int(s)] for a string [s]; [None] is [ValueError]. *)
Definition py_int (u : ucd) (s : pystr) : option Z :=
  let t := py_strip s in
  match t with
  | c :: r =>
      if c =? 45 then option_map Z.opp (parse_unsigned u r)
      else if c =? 43 then parse_unsigned u r
      else parse_unsigned u t
  | [] => None
  end.

(** [str(n)] for a non-negative integer: the digits of [n] in front of
    [acc], with [fuel] bounding the number of divisions. *)
Fixpoint digits_acc (fuel : nat) (n : Z) (acc : pystr) : pystr :=
  match fuel with
  | O => acc
  | S f =>
      let acc' := (48 + n mod 10) :: acc in
      if n / 10 =? 0 then acc' else digits_acc f (n / 10) acc'
  end.

(** [str(n)] for an integer. *)
Definition py_str (n : Z) : pystr :=
  if n <? 0 then 45 :: digits_acc (S (Z.to_nat (Z.log2 (- n)))) (- n) []
  else digits_acc (S (Z.to_nat (Z.log2 n))) n [].

(* ------------------------------------------------------------------ *)
(** ** Models ([orders/models.py]) *)

Record table := mkTable {
  tbl_room : Z;
  tbl_number : Z;
  tbl_party : option Z
}.

Record order := mkOrder {
  ord_table : Z;
  ord_party : option Z;
  opened_by_staff : option Z;
  printed : bool
}.

(** [Seat]; [unique_together = ("order", "label")], [label] is a
    [CharField(max_length=10)]. *)
Record seat := mkSeat {
  seat_order : Z;
  label : pystr;
  assigned_to : option Z
}.

(** [SeatSelection]; no uniqueness constraint on [(seat, item)]. *)
Record seat_selection := mkSel {
  sel_seat : Z;
  sel_item : Z;
  notes : pystr;
  modifiers : gset Z;
  temperatures : gset Z
}.

(** Audit entries written by the views ([StaffLog.action]). *)
Inductive log_action :=
  | LogStarted (order_id : Z) (nseats : nat)
  | LogClosed (order_id : Z)
  | LogMoved (selection_id target_seat : Z).

(** The database.  Primary keys come from one counter [db_next_id];
    [db_items] maps each [MenuItem] to its [name].  [db_label_max] is
    [Some 10] on a backend that enforces [max_length] (PostgreSQL) and
    [None] on one that does not (SQLite); the other [CharField] limits
    ([SeatSelection.notes], [StaffLog.action]) are enforced exactly when
    it is [Some]. *)
Record db := mkDb {
  db_tables : gmap Z table;
  db_staff : gset Z;
  db_items : gmap Z pystr;
  db_modifiers : gset Z;
  db_temperatures : gset Z;
  db_orders : gmap Z order;
  db_seats : gmap Z seat;
  db_selections : gmap Z seat_selection;
  db_log : list (Z * log_action);
  db_next_id : Z;
  db_label_max : option nat
}.

Definition set_orders (m : gmap Z order) (s : db) : db :=
  mkDb (db_tables s) (db_staff s) (db_items s) (db_modifiers s)
       (db_temperatures s) m (db_seats s) (db_selections s) (db_log s)
       (db_next_id s) (db_label_max s).

Definition set_seats (m : gmap Z seat) (s : db) : db :=
  mkDb (db_tables s) (db_staff s) (db_items s) (db_modifiers s)
       (db_temperatures s) (db_orders s) m (db_selections s) (db_log s)
       (db_next_id s) (db_label_max s).

Definition set_selections (m : gmap Z seat_selection) (s : db) : db :=
  mkDb (db_tables s) (db_staff s) (db_items s) (db_modifiers s)
       (db_temperatures s) (db_orders s) (db_seats s) m (db_log s)
       (db_next_id s) (db_label_max s).

Definition set_log (l : list (Z * log_action)) (s : db) : db :=
  mkDb (db_tables s) (db_staff s) (db_items s) (db_modifiers s)
       (db_temperatures s) (db_orders s) (db_seats s) (db_selections s) l
       (db_next_id s) (db_label_max s).

Definition set_next_id (n : Z) (s : db) : db :=
  mkDb (db_tables s) (db_staff s) (db_items s) (db_modifiers s)
       (db_temperatures s) (db_orders s) (db_seats s) (db_selections s)
       (db_log s) n (db_label_max s).

(* ------------------------------------------------------------------ *)
(** ** Requests: exceptions, state and responses *)

Inductive exc :=
  | Http404 | NameError | ValueError | DoesNotExist
  | MultipleObjectsReturned | IntegrityError | DataError.

(** A view runs against the database and may raise; writes made before
    an exception stay (autocommit) unless undone by [atomic]. *)
Definition M (A : Type) : Type := db -> (exc + A) * db.

Definition ret {A} (a : A) : M A := fun s => (inr a, s).

Definition bind {A B} (m : M A) (k : A -> M B) : M B :=
  fun s => match m s with
           | (inl e, s') => (inl e, s')
           | (inr a, s') => k a s'
           end.

Definition throw {A} (e : exc) : M A := fun s => (inl e, s).

Definition gets {A} (f : db -> A) : M A := fun s => (inr (f s), s).

Definition modify (f : db -> db) : M unit := fun s => (inr tt, f s).

Notation "'let!' x ':=' m 'in' k" := (bind m (fun x => k))
  (at level 200, x name, m at level 100, k at level 200).

(** [with transaction.atomic():] -- an exception restores the state. *)
Definition atomic {A} (m : M A) : M A :=
  fun s => match m s with
           | (inl e, _) => (inl e, s)
           | r => r
           end.

(** The value of [request.session.get("staff_id")]. *)
Abbreviation session := (option Z).

(** [if request.session.get("staff_id"):] *)
Definition truthy_id (sess : session) : bool :=
  match sess with Some n => negb (n =? 0) | None => false end.

Inductive page :=
  | PLogin
  | PTableDetail (table_id : Z) (my_range : option (Z * Z))
  | PTableActiveSeat (table_id seat_id : Z)
  | PTableNewSeat (table_id seat_id : Z)
  | PStartOrder (table_id : Z)
  | PRoomTables (room_id : Z).

Inductive message :=
  | MsgPleaseLogin | MsgStaffLost | MsgInvalidSeatRange | MsgNoOrder
  | MsgInvalidRange | MsgSeatsExist (overlap : list Z)
  | MsgOrderStarted (nseats : nat) | MsgSeatsAdded (nseats : nat)
  | MsgOrderClosed | MsgSeatAdded (lbl : pystr) | MsgSeatRemoved
  | MsgSelectionUpdated | MsgSelectionRemoved.

Inductive resp :=
  | Redirect (p : page) (m : message)
  | Json (ok : bool)
  | NotFound
  | ServerError (e : exc).

(** What Django sends for a view: [Http404] becomes a 404 response, any
    other exception a server error. *)
Definition run_view (v : M resp) (s : db) : resp * db :=
  match v s with
  | (inl Http404, s') => (NotFound, s')
  | (inl e, s') => (ServerError e, s')
  | (inr r, s') => (r, s')
  end.

(** [staff_required] ([orders/decorators.py]). *)
Definition staff_required (view : session -> M resp) : session -> M resp :=
  fun sess => if truthy_id sess then view sess
              else ret (Redirect PLogin MsgPleaseLogin).

(* ------------------------------------------------------------------ *)
(** ** ORM operations *)

(** [get_object_or_404(Model, pk=k)]; a missing key ([None]) matches
    nothing. *)
Definition get_or_404 {A} (f : db -> gmap Z A) (k : option Z) : M (Z * A) :=
  fun s => match k with
           | Some k' => match f s !! k' with
                        | Some a => (inr (k', a), s)
                        | None => (inl Http404, s)
                        end
           | None => (inl Http404, s)
           end.

Definition fresh_id : M Z :=
  fun s => (inr (db_next_id s), set_next_id (db_next_id s + 1) s).

(** [Order.objects.filter(table=table, printed=False).first()]: the
    newest open order of the table (ordering [-opened_at]; ids grow with
    [opened_at]). *)
Definition first_open_order (s : db) (tid : Z) : option (Z * order) :=
  fold_right
    (fun (kv : Z * order) acc =>
       if (ord_table kv.2 =? tid) && negb (printed kv.2) then
         match acc with
         | Some (k', _) => if k' <? kv.1 then Some kv else acc
         | None => Some kv
         end
       else acc)
    None (map_to_list (db_orders s)).

(** [a <= b] on Python strings (code point order). *)
Fixpoint str_leb (a b : pystr) : bool :=
  match a, b with
  | [], _ => true
  | _ :: _, [] => false
  | x :: a', y :: b' => (x <? y) || ((x =? y) && str_leb a' b')
  end.

(** Insertion of a seat into a list sorted by label. *)
Fixpoint insert_by_label (x : Z * seat) (l : list (Z * seat)) : list (Z * seat) :=
  match l with
  | [] => [x]
  | y :: r => if str_leb (label y.2) (label x.2) then y :: insert_by_label x r else x :: l
  end.

(** [order.seats.all()], sorted by [Seat.Meta.ordering = ["order", "label"]]. *)
Definition order_seats (s : db) (oid : Z) : list (Z * seat) :=
  fold_right insert_by_label []
    (filter (fun kv : Z * seat => seat_order kv.2 = oid) (map_to_list (db_seats s))).

(** [order.seats.values_list("label", flat=True)] *)
Definition order_labels (s : db) (oid : Z) : list pystr :=
  map (fun kv : Z * seat => label kv.2) (order_seats s oid).

(** Does a value of [x] fit a [CharField(max_length=n)] on the backend? *)
Definition fits_max (s : db) (n : nat) (x : pystr) : bool :=
  match db_label_max s with
  | Some _ => Nat.leb (length x) n
  | None => true
  end.

Definition label_fits (s : db) (st : seat) : bool :=
  match db_label_max s with
  | Some m => Nat.leb (length (label st)) m
  | None => true
  end.

Definition same_slot (a b : seat) : bool :=
  (seat_order a =? seat_order b) && bool_decide (label a = label b).

(** Would inserting [st] violate [unique_together (order, label)]? *)
Definition seat_conflicts (s : db) (st : seat) : bool :=
  existsb (fun kv : Z * seat => same_slot kv.2 st) (map_to_list (db_seats s)).

Fixpoint batch_dup (ss : list seat) : bool :=
  match ss with
  | [] => false
  | x :: r => existsb (same_slot x) r || batch_dup r
  end.

Fixpoint insert_seats (next : Z) (ss : list seat) (m : gmap Z seat)
  : gmap Z seat * Z :=
  match ss with
  | [] => (m, next)
  | x :: r => insert_seats (next + 1) r (<[next := x]> m)
  end.

(** [Seat.objects.bulk_create(ss)]: one INSERT statement, all or nothing. *)
Definition bulk_create (ss : list seat) : M unit :=
  fun s =>
    if negb (forallb (label_fits s) ss) then (inl DataError, s)
    else if existsb (seat_conflicts s) ss || batch_dup ss then (inl IntegrityError, s)
    else let '(m, n) := insert_seats (db_next_id s) ss (db_seats s) in
         (inr tt, set_next_id n (set_seats m s)).

(** [Seat.objects.create(...)] *)
Definition seat_create (st : seat) : M Z :=
  fun s =>
    if negb (label_fits s st) then (inl DataError, s)
    else if seat_conflicts s st then (inl IntegrityError, s)
    else (inr (db_next_id s),
          set_next_id (db_next_id s + 1) (set_seats (<[db_next_id s := st]> (db_seats s)) s)).

Definition order_create (o : order) : M Z :=
  fun s => (inr (db_next_id s),
            set_next_id (db_next_id s + 1) (set_orders (<[db_next_id s := o]> (db_orders s)) s)).

(** [StaffLog.objects.create(staff_id=staff_id, action=...)]: the foreign
    key to [StaffMember] is checked, a stale [staff_id] raises
    [IntegrityError].  The length of the action text is checked by the
    caller where it can exceed [max_length=120]: the texts of
    [start_order] and [close_order] are made of a fixed part and integer
    columns only (at most 100 characters for 64-bit values). *)
Definition staff_log (staff_id : Z) (a : log_action) : M unit :=
  fun s => if bool_decide (staff_id ∈ db_staff s)
           then (inr tt, set_log (db_log s ++ [(staff_id, a)]) s)
           else (inl IntegrityError, s).

(** A related object ([order.table], [selection.item], ...): a missing
    row raises [DoesNotExist]. *)
Definition get_related {A} (f : db -> gmap Z A) (k : Z) : M A :=
  fun s => match f s !! k with
           | Some a => (inr a, s)
           | None => (inl DoesNotExist, s)
           end.

(** [seat.delete()]: cascades to the seat's selections. *)
Definition delete_seat (sid : Z) : M unit :=
  modify (fun s =>
    set_selections (filter (fun kv : Z * seat_selection => sel_seat kv.2 <> sid) (db_selections s))
      (set_seats (delete sid (db_seats s)) s)).

(** [order.delete()]: cascades to its seats and their selections. *)
Definition delete_order (oid : Z) : M unit :=
  modify (fun s =>
    let gone := filter (fun kv : Z * seat => seat_order kv.2 = oid) (db_seats s) in
    set_selections (filter (fun kv : Z * seat_selection => gone !! sel_seat kv.2 = None)
                      (db_selections s))
      (set_seats (filter (fun kv : Z * seat => seat_order kv.2 <> oid) (db_seats s))
         (set_orders (delete oid (db_orders s)) s))).

(* ------------------------------------------------------------------ *)
(** ** Seat ranges *)

(** [range(a, b + 1)] *)
Definition zrange (a b : Z) : list Z :=
  map (fun k => a + Z.of_nat k) (seq 0 (Z.to_nat (b - a + 1))).

(** [[Seat(order=order, label=str(i), assigned_to=staff) for i in is]] *)
Definition seats_for (oid : Z) (staff : option Z) (is : list Z) : list seat :=
  map (fun i => mkSeat oid (py_str i) staff) is.

(* ------------------------------------------------------------------ *)
(** ** [StartOrderForm] ([orders/forms.py]) *)

(** A posted [IntegerField] after [to_python]: left empty, an integer, or
    text that does not convert. *)
Inductive field_input := FieldEmpty | FieldInt (n : Z) | FieldBad.

Record start_order_form := mkStartOrderForm {
  f_seat_count : field_input;
  f_my_seat_start : field_input;
  f_my_seat_end : field_input
}.

(** [IntegerField(min_value=1, required=False)] *)
Definition int_field_clean (f : field_input) : option (option Z) :=
  match f with
  | FieldEmpty => Some None
  | FieldInt n => if 1 <=? n then Some (Some n) else None
  | FieldBad => None
  end.

(** [form.is_valid()] and [form.cleaned_data]: [None] when any field or
    [StartOrderForm.clean] raises a [ValidationError]. *)
Definition start_order_form_clean (f : start_order_form)
  : option (option Z * option Z * option Z) :=
  match int_field_clean (f_seat_count f), int_field_clean (f_my_seat_start f),
        int_field_clean (f_my_seat_end f) with
  | Some count, Some start, Some end_ =>
      if xorb (bool_decide (start <> None)) (bool_decide (end_ <> None)) then None
      else match start, end_ with
           | Some a, Some b =>
               if b <? a then None
               else match count with
                    | Some c => if c <? b then None else Some (count, start, end_)
                    | None => Some (count, start, end_)
                    end
           | _, _ => Some (count, start, end_)
           end
  | _, _, _ => None
  end.

(* ------------------------------------------------------------------ *)
(** ** Views ([orders/views.py]) *)

Section Views.

Variable u : ucd.

(** [request.POST] of [start_order]: [my_start], [my_end], [seat_count]. *)
Record start_post := mkStartPost {
  sp_my_start : option pystr;
  sp_my_end : option pystr;
  sp_seat_count : option pystr
}.

(** [int(x)] raising [ValueError]. *)
Definition py_int_m (x : pystr) : M Z :=
  match py_int u x with Some n => ret n | None => throw ValueError end.

(** The body of [start_order], below its [@staff_required]. *)
Definition start_order_view (tid : Z) (post : start_post) (sess : session) : M resp :=
  let! tt_ := get_or_404 db_tables (Some tid) in
  let '(_, tbl) := tt_ in
  match sess with
  | Some staff_id =>
    if negb (truthy_id sess) then ret (Redirect PLogin MsgStaffLost) else
    let! staff_ok := gets (fun s => bool_decide (staff_id ∈ db_staff s)) in
    if negb staff_ok then throw DoesNotExist else
    let! seat_count :=
      match sp_seat_count post with
      | Some c => py_int_m c
      | None => ret 12
      end in
    let range :=
      match sp_my_start post, sp_my_end post with
      | Some a, Some b =>
          match py_int u a, py_int u b with
          | Some a', Some b' => inr (Some (a', b'))
          | _, _ => inl tt
          end
      | _, _ => inr None
      end in
    match range with
    | inl _ => ret (Redirect (PTableDetail tid None) MsgInvalidSeatRange)
    | inr rng =>
      let! created :=
        atomic (
          let! oid := order_create (mkOrder tid (tbl_party tbl) (Some staff_id) false) in
          let seats_to_create :=
            match rng with
            | Some (a, b) => seats_for oid None (zrange a b)
            | None => seats_for oid None (zrange 1 seat_count)
            end in
          let! _ := bulk_create seats_to_create in
          ret (oid, length seats_to_create)) in
      let '(oid, n) := created in
      let! _ := staff_log staff_id (LogStarted oid n) in
      ret (Redirect (PTableDetail tid None) (MsgOrderStarted n))
    end
  | None => ret (Redirect PLogin MsgStaffLost)
  end.

(** [@staff_required def start_order(request, table_id)] *)
Definition start_order (tid : Z) (post : start_post) : session -> M resp :=
  staff_required (start_order_view tid post).

(** The global [existing_numeric_labels] looked up by [join_order]. *)
Abbreviation label_helper := (option (Z -> M (list Z))).

(** [join_order] with the binding of [existing_numeric_labels] as a
    parameter; [None] makes the call raise [NameError]. *)
Definition join_order_with (enl : label_helper) (tid : Z) (form : start_order_form)
  (sess : session) : M resp :=
  let call oid := match enl with Some h => h oid | None => throw NameError end in
  let! tt_ := get_or_404 db_tables (Some tid) in
  let! open_ := gets (fun s => first_open_order s tid) in
  match open_ with
  | None => ret (Redirect (PStartOrder tid) MsgNoOrder)
  | Some (oid, _) =>
    match start_order_form_clean form with
    | None => ret (Redirect (PTableDetail tid None) MsgInvalidRange)
    | Some (count, my_start, my_end) =>
      let seat_count := match count with Some c => c | None => 12 end in
      let! staff_member :=
        (if truthy_id sess then
           let! ok := gets (fun s => bool_decide (default 0 sess ∈ db_staff s)) in
           if ok then ret sess else throw DoesNotExist
         else ret None) in
      match my_start, my_end with
      | Some a, Some b =>
        let! occupied := call oid in
        let requested := zrange a b in
        (* [sorted(occupied & set(requested))]: [requested] is increasing *)
        let overlap := filter (fun i => i ∈ occupied) requested in
        match overlap with
        | _ :: _ => ret (Redirect (PTableDetail tid (Some (a, b))) (MsgSeatsExist overlap))
        | [] =>
          let seats_to_create := seats_for oid staff_member requested in
          let! _ := bulk_create seats_to_create in
          ret (Redirect (PTableDetail tid (Some (a, b)))
                 (MsgSeatsAdded (length seats_to_create)))
        end
      | _, _ =>
        let! existing := call oid in
        (* [int(s.label)] of [label = str(i)] is [i] (lemma [py_int_py_str]) *)
        let seats_to_create :=
          seats_for oid staff_member (filter (fun i => i ∉ existing) (zrange 1 seat_count)) in
        let! _ := bulk_create seats_to_create in
        ret (Redirect (PTableDetail tid None) (MsgSeatsAdded (length seats_to_create)))
      end
    end
  end.

(** [join_order] as shipped: [existing_numeric_labels] is neither defined
    nor imported in [orders/views.py]. *)
Definition join_order : Z -> start_order_form -> session -> M resp :=
  join_order_with None.

(** [close_order] (no [@staff_required]). *)
Definition close_order (order_id : Z) (sess : session) : M resp :=
  let! oo := get_or_404 db_orders (Some order_id) in
  let '(oid, o) := oo in
  (* [order.table] (for the log text and [order.table.room.id]);
     [Order.table] is [PROTECT] *)
  let! tbl := get_related db_tables (ord_table o) in
  let! _ := (match sess with
             | Some sid => if truthy_id sess then staff_log sid (LogClosed oid) else ret tt
             | None => ret tt
             end) in
  let! _ := delete_order oid in
  ret (Redirect (PRoomTables (tbl_room tbl)) MsgOrderClosed).

(** [[int(lbl) for lbl in existing_labels if lbl.isdigit()]] *)
Fixpoint numeric_labels (ls : list pystr) : M (list Z) :=
  match ls with
  | [] => ret []
  | l :: r =>
      if py_isdigit u l then
        let! n := py_int_m l in
        let! ns := numeric_labels r in
        ret (n :: ns)
      else numeric_labels r
  end.

(** Modelled from the spec: the helper [existing_numeric_labels] that
    [join_order] calls but [orders/views.py] never binds ("computes
    currently occupied numeric seat labels"), written with the same
    comprehension as [add_seat]. *)
Definition existing_numeric_labels_spec (oid : Z) : M (list Z) :=
  let! ls := gets (fun s => order_labels s oid) in
  numeric_labels ls.

(** [max(xs, default=0)] *)
Definition max_default (xs : list Z) : Z :=
  match xs with [] => 0 | x :: r => fold_left Z.max r x end.

(** [add_seat] (no [@staff_required]). *)
Definition add_seat (order_id : Z) (sess : session) : M resp :=
  let! oo := get_or_404 db_orders (Some order_id) in
  let '(oid, o) := oo in
  let! existing_labels := gets (fun s => order_labels s oid) in
  let! nums := numeric_labels existing_labels in
  let auto_label := py_str (max_default nums + 1) in
  let! sid := seat_create (mkSeat oid auto_label None) in
  ret (Redirect (PTableNewSeat (ord_table o) sid) (MsgSeatAdded auto_label)).

(** [remove_seat] (no [@staff_required]). *)
Definition remove_seat (seat_id : Z) (sess : session) : M resp :=
  let! ss := get_or_404 db_seats (Some seat_id) in
  let! oo := get_or_404 db_orders (Some (seat_order ss.2)) in
  let! _ := delete_seat ss.1 in
  ret (Redirect (PTableDetail (ord_table oo.2) None) MsgSeatRemoved).

(** [SeatSelection.objects.get_or_create(seat=seat, item=item,
    defaults={"notes": notes})]: the selection and [created]; the
    INSERT of a new selection checks [notes] against [max_length=200]. *)
Definition get_or_create_selection (sid iid : Z) (nts : pystr)
  : M ((Z * seat_selection) * bool) :=
  let! found := gets (fun s =>
    filter (fun kv : Z * seat_selection => sel_seat kv.2 = sid /\ sel_item kv.2 = iid)
      (map_to_list (db_selections s))) in
  match found with
  | [] =>
      let! fits := gets (fun s => fits_max s 200 nts) in
      if negb fits then throw DataError else
      let! k := fresh_id in
      let sel := mkSel sid iid nts ∅ ∅ in
      let! _ := modify (fun s => set_selections (<[k := sel]> (db_selections s)) s) in
      ret ((k, sel), true)
  | [kv] => ret (kv, false)
  | _ => throw MultipleObjectsReturned
  end.

(** [selection.save()]: an UPDATE, checking [notes] against
    [max_length=200]. *)
Definition save_selection (k : Z) (sel : seat_selection) : M unit :=
  fun s => if fits_max s 200 (notes sel)
           then (inr tt, set_selections (<[k := sel]> (db_selections s)) s)
           else (inl DataError, s).

(** [selection.modifiers.add] of the [Modifier.objects.filter(pk__in=ids)] *)
Definition add_modifiers (k : Z) (ids : list Z) : M unit :=
  modify (fun s =>
    let mods := list_to_set (filter (fun i => i ∈ db_modifiers s) ids) in
    set_selections (alter (fun sel => mkSel (sel_seat sel) (sel_item sel) (notes sel)
                                        (modifiers sel ∪ mods) (temperatures sel)) k
                      (db_selections s)) s).

(** [selection.temperatures.add] of the [Temperature.objects.filter(pk__in=ids)] *)
Definition add_temperatures (k : Z) (ids : list Z) : M unit :=
  modify (fun s =>
    let temps := list_to_set (filter (fun i => i ∈ db_temperatures s) ids) in
    set_selections (alter (fun sel => mkSel (sel_seat sel) (sel_item sel) (notes sel)
                                        (modifiers sel) (temperatures sel ∪ temps)) k
                      (db_selections s)) s).

(** [request.POST] of [add_selection]. *)
Record selection_post := mkSelectionPost {
  ap_seat_id : option Z;
  ap_item_id : option Z;
  ap_notes : pystr;
  ap_modifier_ids : list Z;
  ap_temperature_ids : list Z
}.

(** [add_selection] (no [@staff_required]). *)
Definition add_selection (post : selection_post) (sess : session) : M resp :=
  let nts := py_strip (ap_notes post) in
  let! ss := get_or_404 db_seats (ap_seat_id post) in
  let! item_ok := gets (fun s => match ap_item_id post with
                                 | Some i => bool_decide (i ∈ dom (db_items s))
                                 | None => false
                                 end) in
  if negb item_ok then throw Http404 else
  let! got := get_or_create_selection ss.1 (default 0 (ap_item_id post)) nts in
  let '((k, sel), created) := got in
  let! _ := (if negb created && py_truthy nts then
               save_selection k (mkSel (sel_seat sel) (sel_item sel)
                                   (py_strip (notes sel ++ [10] ++ nts))
                                   (modifiers sel) (temperatures sel))
             else ret tt) in
  let! _ := (match ap_modifier_ids post with
             | [] => ret tt
             | ids => add_modifiers k ids
             end) in
  let! _ := (match ap_temperature_ids post with
             | [] => ret tt
             | ids => add_temperatures k ids
             end) in
  let! oo := get_or_404 db_orders (Some (seat_order ss.2)) in
  ret (Redirect (PTableActiveSeat (ord_table oo.2) ss.1) MsgSelectionUpdated).

(** [remove_selection] (no [@staff_required]). *)
Definition remove_selection (selection_id : Z) (sess : session) : M resp :=
  let! sl := get_or_404 db_selections (Some selection_id) in
  let! ss := get_or_404 db_seats (Some (sel_seat sl.2)) in
  let! oo := get_or_404 db_orders (Some (seat_order ss.2)) in
  let! _ := modify (fun s => set_selections (delete sl.1 (db_selections s)) s) in
  ret (Redirect (PTableDetail (ord_table oo.2) None) MsgSelectionRemoved).

(** The [StaffLog.action] text written by [move_selection]:
    [f"moved selection #{selection.pk} (item {selection.item.name}) "
     f"to seat #{target_seat.label} on table {target_seat.order.table.number}"]. *)
Definition move_log_text (sk : Z) (name lbl : pystr) (number : Z) : pystr :=
  s2z "moved selection #" ++ py_str sk ++ s2z " (item " ++ name ++
  s2z ") to seat #" ++ lbl ++ s2z " on table " ++ py_str number.

(** [move_selection] (no [@staff_required]); a missing or empty POST
    field is [None]. *)
Definition move_selection (sel_id target_seat_id : option Z) (sess : session)
  : M resp :=
  match sel_id, target_seat_id with
  | Some sk, Some tk =>
    let! sl := get_or_404 db_selections (Some sk) in
    let! ts := get_or_404 db_seats (Some tk) in
    let sel := sl.2 in
    let! _ := save_selection sl.1 (mkSel ts.1 (sel_item sel) (notes sel)
                                     (modifiers sel) (temperatures sel)) in
    let! _ := (match sess with
               | Some staff_id =>
                   if truthy_id sess then
                     let! name := get_related db_items (sel_item sel) in
                     let! o := get_related db_orders (seat_order ts.2) in
                     let! tbl := get_related db_tables (ord_table o) in
                     let txt := move_log_text sl.1 name (label ts.2) (tbl_number tbl) in
                     let! fits := gets (fun s => fits_max s 120 txt) in
                     if negb fits then throw DataError else
                     staff_log staff_id (LogMoved sl.1 ts.1)
                   else ret tt
               | None => ret tt
               end) in
    ret (Json true)
  | _, _ => ret (Json false)
  end.

(* ------------------------------------------------------------------ *)
(** ** Seat visibility ([_build_table_context]) *)

(** The [?my_start=&my_end=] query parameters after parsing and the
    sanity swap; [inl] is an exception. *)
Definition query_range (my_start my_end : option pystr) : exc + option (Z * Z) :=
  match my_start, my_end with
  | Some a, Some b =>
      if py_truthy a && py_truthy b && py_isdigit u a && py_isdigit u b then
        match py_int u a with
        | None => inl ValueError
        | Some a' =>
            match py_int u b with
            | None => inl ValueError
            | Some b' => if b' <? a' then inr (Some (b', a')) else inr (Some (a', b'))
            end
        end
      else inr None
  | _, _ => inr None
  end.

(** [s.label.isdigit() and my_start <= int(s.label) <= my_end] *)
Definition in_slice (lo hi : Z) (st : seat) : exc + bool :=
  if py_isdigit u (label st) then
    match py_int u (label st) with
    | Some n => inr ((lo <=? n) && (n <=? hi))
    | None => inl ValueError
    end
  else inr false.

Fixpoint filter_exc {A} (p : A -> exc + bool) (l : list A) : exc + list A :=
  match l with
  | [] => inr []
  | x :: r =>
      match p x with
      | inl e => inl e
      | inr b => match filter_exc p r with
                 | inl e => inl e
                 | inr r' => inr (if b then x :: r' else r')
                 end
      end
  end.

(** [_seat_sort_key] *)
Inductive seat_key := KeyNum (n : Z) | KeyText (t : pystr).

Definition seat_sort_key (st : seat) : exc + seat_key :=
  if py_isdigit u (label st) then
    match py_int u (label st) with
    | Some n => inr (KeyNum n)
    | None => inl ValueError
    end
  else inr (KeyText (label st)).

Definition key_leb (a b : seat_key) : bool :=
  match a, b with
  | KeyNum x, KeyNum y => x <=? y
  | KeyNum _, KeyText _ => true
  | KeyText _, KeyNum _ => false
  | KeyText x, KeyText y => str_leb x y
  end.

(** Stable insertion by key (Python's [list.sort] is stable). *)
Fixpoint insert_by_key {A} (k : seat_key) (x : A) (l : list (seat_key * A))
  : list (seat_key * A) :=
  match l with
  | [] => [(k, x)]
  | (k', y) :: r => if key_leb k' k then (k', y) :: insert_by_key k x r
                    else (k, x) :: l
  end.

Fixpoint keyed {A} (key : A -> exc + seat_key) (l : list A)
  : exc + list (seat_key * A) :=
  match l with
  | [] => inr []
  | x :: r => match key x with
              | inl e => inl e
              | inr k => match keyed key r with
                         | inl e => inl e
                         | inr r' => inr ((k, x) :: r')
                         end
              end
  end.

(** [visible_seats.sort(key=_seat_sort_key)] *)
Definition sort_seats (l : list (Z * seat)) : exc + list (Z * seat) :=
  match keyed (fun kv : Z * seat => seat_sort_key kv.2) l with
  | inl e => inl e
  | inr ks => inr (map snd (fold_left (fun acc kx => insert_by_key kx.1 kx.2 acc) ks []))
  end.

(** The ["seats"] entry of [_build_table_context]. *)
Definition visible_seats (s : db) (tid : Z) (my_start my_end : option pystr)
  : exc + list (Z * seat) :=
  match query_range my_start my_end with
  | inl e => inl e
  | inr rng =>
      match first_open_order s tid with
      | None => inr []
      | Some (oid, _) =>
          let all_seats := order_seats s oid in
          let vis := match rng with
                     | Some (lo, hi) => filter_exc (fun kv : Z * seat => in_slice lo hi kv.2) all_seats
                     | None => inr all_seats
                     end in
          match vis with
          | inl e => inl e
          | inr v => sort_seats v
          end
      end
  end.

End Views.

(* ------------------------------------------------------------------ *)
(** ** Sample data *)

Definition res_list {A} (r : exc + list A) : list A :=
  match r with inr l => l | inl _ => [] end.


(** Table 1 (room 1, number 5), staff member 7, items 100 ("Soup") and 101 ("Wine"),
    modifiers 200..202, temperatures 300 and 301. *)
Definition db_sample : db :=
  mkDb {[1 := mkTable 1 5 None]} {[7]} {[100 := s2z "Soup"; 101 := s2z "Wine"]} {[200; 201; 202]}
       {[300; 301]} ∅ ∅ ∅ [] 1000 None.

(** [db_sample] with open order 1000 on table 1 holding seats labelled
    [lbls] (ids from 1001). *)
Definition db_order_with (lbls : list pystr) : db :=
  let ins := insert_seats 1001 (map (fun l => mkSeat 1000 l None) lbls) ∅ in
  mkDb {[1 := mkTable 1 5 None]} {[7]} {[100 := s2z "Soup"; 101 := s2z "Wine"]} {[200; 201; 202]}
       {[300; 301]} {[1000 := mkOrder 1 None (Some 7) false]} ins.1 ∅ []
       ins.2 None.

(** Seat 1001 ("1") of [db_order_with ["1"; "2"]] holding selection 5. *)
Definition sel_sample : seat_selection :=
  mkSel 1001 100 (s2z "rare") {[200]} {[300]}.

Definition db_selection_sample : db :=
  set_selections {[5 := sel_sample]} (db_order_with [s2z "1"; s2z "2"]).

(** The order / seat / selection part of the database. *)
Definition core (s : db) : gmap Z order * gmap Z seat * gmap Z seat_selection :=
  (db_orders s, db_seats s, db_selections s).

(** The selections of seat [sid] with item [iid], as [get_or_create]
    queries them. *)
Definition sel_matches (s : db) (sid iid : Z) : list (Z * seat_selection) :=
  filter (fun kv : Z * seat_selection => sel_seat kv.2 = sid /\ sel_item kv.2 = iid)
    (map_to_list (db_selections s)).

Definition sel_post (sid iid : Z) (nraw : pystr) (mods temps : list Z) : selection_post :=
  mkSelectionPost (Some sid) (Some iid) nraw mods temps.

(** One selection of item 100 on each of seats 1001 and 1002. *)
Definition db_two_selections : db :=
  set_selections {[5 := sel_sample; 6 := mkSel 1002 100 [] ∅ ∅]}
    (db_order_with [s2z "1"; s2z "2"]).

(** Two selections of item 100 on seat 1001: selection 6 moved by staff
    member 7 from seat 1002 onto seat 1001, next to selection 5. *)
Definition db_duplicate_sample : db :=
  snd (move_selection (Some 6) (Some 1001) (Some 7) db_two_selections).

(** On a backend enforcing [max_length] (PostgreSQL): selection 5 of item
    100 on seat 1001 with notes of 200 characters. *)
Definition db_long_notes_sample : db :=
  let d := set_selections {[5 := mkSel 1001 100 (repeat 97 200%nat) ∅ ∅]}
             (db_order_with [s2z "1"]) in
  mkDb (db_tables d) (db_staff d) (db_items d) (db_modifiers d) (db_temperatures d)
       (db_orders d) (db_seats d) (db_selections d) (db_log d) (db_next_id d) (Some 10%nat).

(* ------------------------------------------------------------------ *)
(** ** Predicates on computations and databases *)

Definition ascii_digit (c : Z) : Prop := 48 <= c <= 57.

(** A view that never redirects to the login page. *)
Definition never_login (v : M resp) : Prop :=
  forall s msg, fst (v s) <> inr (Redirect PLogin msg).

(** A computation that writes nothing. *)
Definition read_only {A} (m : M A) : Prop := forall s, snd (m s) = s.

(** A computation that leaves the database unchanged when it raises. *)
Definition rolls_back {A} (m : M A) : Prop :=
  forall s e, fst (m s) = inl e -> snd (m s) = s.

(** [rolls_back] from the databases satisfying [P]. *)
Definition rolls_back_in {A} (P : db -> Prop) (m : M A) : Prop :=
  forall s e, P s -> fst (m s) = inl e -> snd (m s) = s.

(** A computation that leaves the staff table alone. *)
Definition keeps_staff {A} (m : M A) : Prop :=
  forall s, db_staff (snd (m s)) = db_staff s.

(** Every key in use is below the next id (ids come from a sequence). *)
Definition ids_fresh (s : db) : Prop :=
  (forall k o, db_orders s !! k = Some o -> k < db_next_id s) /\
  (forall k st, db_seats s !! k = Some st -> k < db_next_id s /\ seat_order st < db_next_id s).

(** [unique_together = ("order", "label")] on a seat table. *)
Definition slots_unique (m : gmap Z seat) : Prop :=
  forall k1 k2 st1 st2, m !! k1 = Some st1 -> m !! k2 = Some st2 ->
    same_slot st1 st2 = true -> k1 = k2.

(** The labels of the seats of each order are pairwise distinct. *)
Definition labels_unique (s : db) : Prop := forall oid, NoDup (order_labels s oid).

(** A computation that keeps [(order, label)] unique. *)
Definition keeps {A} (m : M A) : Prop :=
  forall s, slots_unique (db_seats s) -> slots_unique (db_seats (snd (m s))).

(** [db_sample] on a backend enforcing [max_length=10] on [Seat.label]. *)
Definition db_label10_sample : db :=
  mkDb {[1 := mkTable 1 5 None]} {[7]} {[100 := s2z "Soup"; 101 := s2z "Wine"]} {[200; 201; 202]}
       {[300; 301]} ∅ ∅ ∅ [] 1000 (Some 10%nat).

(* ------------------------------------------------------------------ *)
(** ** [table_detail] ([_build_table_context]) *)

(** [int(v) if v and v.isdigit() else None] for the [?new_seat=] and
    [?active_seat=] parameters; [inl] is the exception of [int]. *)
Definition id_param (u : ucd) (v : option pystr) : exc + option Z :=
  match v with
  | Some x =>
      if py_truthy x && py_isdigit u x then
        match py_int u x with
        | Some n => inr (Some n)
        | None => inl ValueError
        end
      else inr None
  | None => inr None
  end.

(** [request.GET] of [table_detail]. *)
Record table_query := mkTableQuery {
  q_new_seat : option pystr;
  q_active_seat : option pystr;
  q_my_start : option pystr;
  q_my_end : option pystr
}.

(** The dictionary returned by [_build_table_context], without the
    [menu_items] and [modifiers] query sets. *)
Record table_context := mkTableContext {
  ctx_party : option Z;
  ctx_order : option (Z * order);
  ctx_seats : list (Z * seat);
  ctx_new_seat : option Z;
  ctx_active_seat : option Z;
  ctx_range : option (Z * Z)
}.

(** [_build_table_context(request, table, party)]: all reads, evaluated
    in the order of the source. *)
Definition build_table_context (u : ucd) (s : db) (tid : Z) (tbl : table)
  (q : table_query) : exc + table_context :=
  let ord := first_open_order s tid in
  match id_param u (q_new_seat q) with
  | inl e => inl e
  | inr new_seat =>
    match id_param u (q_active_seat q) with
    | inl e => inl e
    | inr active_seat =>
      match query_range u (q_my_start q) (q_my_end q) with
      | inl e => inl e
      | inr rng =>
        match visible_seats u s tid (q_my_start q) (q_my_end q) with
        | inl e => inl e
        | inr seats => inr (mkTableContext (tbl_party tbl) ord seats new_seat active_seat rng)
        end
      end
    end
  end.

(** [table_detail] (no [@staff_required]); the rendering is left out. *)
Definition table_detail (u : ucd) (tid : Z) (q : table_query) : M table_context :=
  let! tt_ := get_or_404 db_tables (Some tid) in
  let! ctx := gets (fun s => build_table_context u s tid tt_.2 q) in
  match ctx with
  | inl e => throw e
  | inr c => ret c
  end.

(** The [table_detail] request a redirect of the views leads to: the
    query strings [?my_start={a}&my_end={b}], [?active_seat={seat.id}]
    and [?new_seat={new_seat.id}]. *)
Definition follow (p : page) : option (Z * table_query) :=
  match p with
  | PTableDetail tid None => Some (tid, mkTableQuery None None None None)
  | PTableDetail tid (Some (a, b)) =>
      Some (tid, mkTableQuery None None (Some (py_str a)) (Some (py_str b)))
  | PTableActiveSeat tid sid => Some (tid, mkTableQuery None (Some (py_str sid)) None None)
  | PTableNewSeat tid sid => Some (tid, mkTableQuery (Some (py_str sid)) None None None)
  | _ => None
  end.

(** [_seat_sort_key(a) <= _seat_sort_key(b)] *)
Definition seat_le (u : ucd) (a b : seat) : Prop :=
  match seat_sort_key u a, seat_sort_key u b with
  | inr ka, inr kb => key_leb ka kb = true
  | _, _ => False
  end.

(* ------------------------------------------------------------------ *)
(** ** [SeatFormSet] ([orders/forms.py]) *)

(** A form of the formset: marked for deletion, and
    [form.cleaned_data.get("label")] ([[]] when absent). *)
Record seat_form := mkSeatForm {
  sf_delete : bool;
  sf_label : pystr
}.

(** The loop of [BaseSeatFormSet.clean] that follows [super().clean()];
    [false] is the [ValidationError] on a repeated label. *)
Fixpoint seat_labels_loop (can_delete : bool) (labels : list pystr)
  (forms : list seat_form) : bool :=
  match forms with
  | [] => true
  | f :: r =>
      if can_delete && sf_delete f then seat_labels_loop can_delete labels r
      else if py_truthy (sf_label f) then
        if bool_decide (sf_label f ∈ labels) then false
        else seat_labels_loop can_delete (labels ++ [sf_label f]) r
      else seat_labels_loop can_delete labels r
  end.

Definition seat_formset_clean (can_delete : bool) (forms : list seat_form) : bool :=
  seat_labels_loop can_delete [] forms.

(* ------------------------------------------------------------------ *)
(** ** Staff login ([staff_login], [StaffMember.set_code] / [check_code]) *)

Section Login.

(** Django's password hashers: [make_password] and [check_password]. *)
Context {hash : Type}.
Variable make_password : pystr -> hash.
Variable check_password : pystr -> hash -> bool.

Record staff_member := mkStaffMember {
  staff_name : pystr;
  code_hash : hash
}.

(** [StaffMember.set_code] (the [save] is the caller's update). *)
Definition set_code (m : staff_member) (raw_code : pystr) : staff_member :=
  mkStaffMember (staff_name m) (make_password (py_strip raw_code)).

(** [StaffMember.check_code] *)
Definition check_code (m : staff_member) (raw_code : pystr) : bool :=
  check_password (py_strip raw_code) (code_hash m).

(** The [for member in StaffMember.objects.all()] loop with its [break]. *)
Fixpoint first_member (code : pystr) (members : list (Z * staff_member))
  : option (Z * staff_member) :=
  match members with
  | [] => None
  | (k, m) :: r => if check_code m code then Some (k, m) else first_member code r
  end.

Inductive login_request := LoginGet | LoginPost (code : option pystr).

(** Redirect to the room dashboard with a welcome, redirect back to the
    login page with an error, or the rendered form. *)
Inductive login_resp := LoginWelcome (name : pystr) | LoginInvalid | LoginForm.

(** [staff_login]: the response and [request.session["staff_id"]]. *)
Definition staff_login (members : list (Z * staff_member)) (req : login_request)
  (sess : session) : login_resp * session :=
  match req with
  | LoginPost code =>
      let code := py_strip (default [] code) in
      match first_member code members with
      | Some (k, m) => (LoginWelcome (staff_name m), Some k)
      | None => (LoginInvalid, sess)
      end
  | LoginGet => (LoginForm, sess)
  end.

End Login.

(* ------------------------------------------------------------------ *)
(** ** Foreign keys *)

(** Every selection's seat, every seat's order and every order's table
    exists ([SeatSelection.seat] and [Seat.order] are [CASCADE],
    [Order.table] is [PROTECT]). *)
Definition refs_ok (s : db) : Prop :=
  (forall k sel, db_selections s !! k = Some sel -> is_Some (db_seats s !! sel_seat sel)) /\
  (forall k st, db_seats s !! k = Some st -> is_Some (db_orders s !! seat_order st)) /\
  (forall k o, db_orders s !! k = Some o -> is_Some (db_tables s !! ord_table o)).

Definition refs_okb (s : db) : bool :=
  forallb (fun kv : Z * seat_selection => bool_decide (is_Some (db_seats s !! sel_seat kv.2)))
    (map_to_list (db_selections s)) &&
  forallb (fun kv : Z * seat => bool_decide (is_Some (db_orders s !! seat_order kv.2)))
    (map_to_list (db_seats s)) &&
  forallb (fun kv : Z * order => bool_decide (is_Some (db_tables s !! ord_table kv.2)))
    (map_to_list (db_orders s)).

(** What holds after running [m] from [s]: [Q] of the result and the
    final state, or [E] of the state an exception leaves behind. *)
Definition wp {A} (E : db -> Prop) (m : M A) (Q : A -> db -> Prop) (s : db) : Prop :=
  match m s with
  | (inl _, s') => E s'
  | (inr a, s') => Q a s'
  end.

(* ================================================================== *)
(** * Properties *)

Lemma insert_by_label_perm x l : insert_by_label x l ≡ₚ x :: l.
Proof.
  induction l as [|y r IH]; cbn; [reflexivity|].
  destruct (str_leb _ _); [|reflexivity].
  rewrite IH. apply perm_swap.
Qed.

Lemma order_seats_perm s oid :
  order_seats s oid ≡ₚ
  filter (fun kv : Z * seat => seat_order kv.2 = oid) (map_to_list (db_seats s)).
Proof.
  unfold order_seats.
  induction (filter _ (map_to_list (db_seats s))) as [|x l IH]; cbn; [reflexivity|].
  rewrite insert_by_label_perm, IH. reflexivity.
Qed.

Example py_str_ex : py_str 1205 = s2z "1205" /\ py_str (-7) = s2z "-7"
                    /\ py_str 0 = s2z "0".
Proof. repeat split; reflexivity. Qed.

Example py_int_ex : py_int ucd0 (s2z " 1_0 ") = Some 10
                    /\ py_int ucd0 (s2z "1__0") = None
                    /\ py_int ucd0 [178] = None
                    /\ py_isdigit ucd0 [178] = true.
Proof. repeat split; reflexivity. Qed.

(** ** [str] and [int] on decimal numerals *)

Lemma ucd0_wf : ucd_wf ucd0.
Proof.
  split; [|split; [|reflexivity]].
  - intros d Hd. simpl. unfold in_range.
    replace (48 <=? 48 + d) with true by (symmetry; apply Z.leb_le; lia).
    replace (48 + d <=? 57) with true by (symmetry; apply Z.leb_le; lia).
    f_equal; lia.
  - intros c d. simpl. unfold in_range.
    destruct (48 <=? c) eqn:E1, (c <=? 57) eqn:E2; simpl;
      try (intros [= <-]; apply Z.leb_le in E1, E2; split; [lia|reflexivity]);
    destruct (1632 <=? c) eqn:E3, (c <=? 1641) eqn:E4; simpl;
      try (intros [= <-]; apply Z.leb_le in E3, E4; split; [lia|];
           rewrite ?orb_true_r; reflexivity);
    destruct (65296 <=? c) eqn:E5, (c <=? 65305) eqn:E6; simpl;
      try (intros [= <-]; apply Z.leb_le in E5, E6; split; [lia|];
           rewrite ?orb_true_r; reflexivity);
    discriminate.
Qed.

Lemma ascii_digit_not_space c : ascii_digit c -> py_isspace c = false.
Proof.
  unfold ascii_digit; intros Hc.
  assert (c = 48 \/ c = 49 \/ c = 50 \/ c = 51 \/ c = 52 \/ c = 53 \/
          c = 54 \/ c = 55 \/ c = 56 \/ c = 57) as Hc' by lia.
  repeat destruct Hc' as [-> | Hc']; try reflexivity; subst; reflexivity.
Qed.

Lemma lstrip_id s : Forall (fun c => py_isspace c = false) s -> lstrip s = s.
Proof. destruct s as [|c r]; [done|]. intros Hs. inversion Hs; subst. simpl. by rewrite H1. Qed.

Lemma py_strip_id s : Forall (fun c => py_isspace c = false) s -> py_strip s = s.
Proof.
  intros Hs. unfold py_strip. rewrite (lstrip_id s Hs).
  rewrite lstrip_id; [apply rev_involutive|]. by apply Forall_rev.
Qed.

Lemma digits_acc_ascii f n acc :
  0 <= n -> Forall ascii_digit acc -> Forall ascii_digit (digits_acc f n acc).
Proof.
  revert n acc; induction f as [|f IH]; intros n acc Hn Hacc; simpl; [done|].
  assert (0 <= n mod 10 < 10) by (apply Z.mod_pos_bound; lia).
  destruct (n / 10 =? 0).
  - constructor; [unfold ascii_digit; lia | done].
  - apply IH; [apply Z.div_pos; lia | constructor; [unfold ascii_digit; lia | done]].
Qed.

Lemma digits_acc_nonempty f n acc : acc <> [] -> digits_acc f n acc <> [].
Proof.
  revert n acc; induction f as [|f IH]; intros n acc Hacc; simpl; [done|].
  destruct (n / 10 =? 0); [done|]. by apply IH.
Qed.

Lemma parse_digits_acc u f n acc :
  ucd_wf u -> 0 <= n < 2 ^ Z.of_nat f ->
  parse_digits u 0 false (digits_acc f n acc) = parse_digits u n false acc.
Proof.
  intros [Hdec _]. revert n acc; induction f as [|f IH]; intros n acc Hn.
  - simpl in Hn. simpl. replace n with 0 by lia. reflexivity.
  - assert (0 <= n mod 10 < 10) by (apply Z.mod_pos_bound; lia).
    pose proof (Z.div_mod n 10 ltac:(lia)) as Hdm.
    simpl. destruct (n / 10 =? 0) eqn:Eq.
    + apply Z.eqb_eq in Eq. simpl.
      replace (48 + n mod 10 =? 95) with false by (symmetry; apply Z.eqb_neq; lia).
      rewrite Hdec by lia. f_equal. lia.
    + rewrite IH.
      * simpl.
        replace (48 + n mod 10 =? 95) with false by (symmetry; apply Z.eqb_neq; lia).
        rewrite Hdec by lia. f_equal. lia.
      * split; [apply Z.div_pos; lia|].
        rewrite Nat2Z.inj_succ, Z.pow_succ_r in Hn by lia.
        apply Z.div_lt_upper_bound; lia.
Qed.

Lemma log2_fuel n : 0 <= n -> n < 2 ^ Z.of_nat (S (Z.to_nat (Z.log2 n))).
Proof.
  intros Hn. rewrite Nat2Z.inj_succ, Z2Nat.id by apply Z.log2_nonneg.
  destruct (Z.eq_dec n 0) as [->|Hn0]; [reflexivity|].
  apply Z.log2_spec; lia.
Qed.

Lemma digits_acc_S_nonempty f n acc : digits_acc (S f) n acc <> [].
Proof. simpl. destruct (n / 10 =? 0); [done|]. by apply digits_acc_nonempty. Qed.

Lemma py_str_nonneg_shape n :
  0 <= n -> exists c r, py_str n = c :: r /\ Forall ascii_digit (c :: r).
Proof.
  intros Hn. unfold py_str.
  replace (n <? 0) with false by (symmetry; apply Z.ltb_ge; lia).
  pose proof (digits_acc_S_nonempty (Z.to_nat (Z.log2 n)) n []).
  pose proof (digits_acc_ascii (S (Z.to_nat (Z.log2 n))) n [] Hn ltac:(done)).
  destruct (digits_acc _ n []) as [|c r]; [done|]. eauto.
Qed.

Lemma py_int_digits u n :
  ucd_wf u -> 0 <= n ->
  parse_unsigned u (digits_acc (S (Z.to_nat (Z.log2 n))) n []) = Some n.
Proof.
  intros Hu Hn.
  pose proof (digits_acc_S_nonempty (Z.to_nat (Z.log2 n)) n []).
  pose proof (digits_acc_ascii (S (Z.to_nat (Z.log2 n))) n [] Hn ltac:(done)) as Ha.
  pose proof (parse_digits_acc u (S (Z.to_nat (Z.log2 n))) n [] Hu
                (conj Hn (log2_fuel n Hn))) as Hp.
  destruct (digits_acc _ n []) as [|c r]; [done|].
  inversion Ha; subst. unfold ascii_digit in *. unfold parse_unsigned.
  replace (c =? 95) with false by (symmetry; apply Z.eqb_neq; lia).
  rewrite Hp. reflexivity.
Qed.

(** [int(str(n)) = n]. *)
Lemma py_int_py_str u n : ucd_wf u -> py_int u (py_str n) = Some n.
Proof.
  intros Hu. unfold py_int, py_str. destruct (n <? 0) eqn:Hneg.
  - apply Z.ltb_lt in Hneg.
    pose proof (digits_acc_S_nonempty (Z.to_nat (Z.log2 (- n))) (- n) []).
    pose proof (digits_acc_ascii (S (Z.to_nat (Z.log2 (- n)))) (- n) [] ltac:(lia)
                  ltac:(done)) as Ha.
    pose proof (py_int_digits u (- n) Hu ltac:(lia)) as Hp.
    rewrite py_strip_id.
    + cbn [Z.eqb Pos.eqb]. rewrite Hp. simpl. f_equal; lia.
    + constructor; [reflexivity|].
      eapply Forall_impl; [exact Ha|]. apply ascii_digit_not_space.
  - apply Z.ltb_ge in Hneg.
    pose proof (py_int_digits u n Hu Hneg) as Hp.
    pose proof (digits_acc_ascii (S (Z.to_nat (Z.log2 n))) n [] Hneg ltac:(done)) as Ha.
    rewrite py_strip_id.
    + destruct (digits_acc _ n []) as [|c r] eqn:E; [done|].
      inversion Ha; subst. unfold ascii_digit in *.
      replace (c =? 45) with false by (symmetry; apply Z.eqb_neq; lia).
      replace (c =? 43) with false by (symmetry; apply Z.eqb_neq; lia).
      exact Hp.
    + eapply Forall_impl; [exact Ha|]. apply ascii_digit_not_space.
Qed.

Lemma py_str_inj a b : py_str a = py_str b -> a = b.
Proof.
  intros H. pose proof (py_int_py_str ucd0 a ucd0_wf) as Ha.
  rewrite H, py_int_py_str in Ha by exact ucd0_wf. congruence.
Qed.

(** A non-negative [str(n)] is a digit string. *)
Lemma py_isdigit_py_str u n : ucd_wf u -> 0 <= n -> py_isdigit u (py_str n) = true.
Proof.
  intros [Hdec [Hdig _]] Hn. destruct (py_str_nonneg_shape n Hn) as (c & r & -> & Ha).
  unfold py_isdigit. apply forallb_forall. intros x Hx.
  apply list_elem_of_In in Hx. rewrite Forall_forall in Ha.
  specialize (Ha x Hx). unfold ascii_digit in Ha.
  replace x with (48 + (x - 48)) by lia.
  apply (Hdig _ (x - 48)), Hdec. lia.
Qed.

(* ------------------------------------------------------------------ *)
(** ** Seat visibility filter *)

Lemma query_range_sym u a b :
  query_range u (Some a) (Some b) = query_range u (Some b) (Some a).
Proof.
  unfold query_range.
  destruct (py_truthy a), (py_truthy b), (py_isdigit u a), (py_isdigit u b);
    simpl; try reflexivity.
  destruct (py_int u a) as [x|], (py_int u b) as [y|]; try reflexivity.
  destruct (Z.ltb_spec y x), (Z.ltb_spec x y); try reflexivity; try lia.
  replace y with x by lia. reflexivity.
Qed.

(** C10: the seat visibility filter of [_build_table_context] is
    symmetric in its two range endpoints: the query parameters
    ([my_start], [my_end]) = (a, b) show the same seats, in the same
    order, as (b, a); a reversed range is swapped, not treated as empty. *)
Theorem visible_seats_symmetric (u : ucd) (s : db) (tid : Z) (a b : pystr) :
  visible_seats u s tid (Some a) (Some b) = visible_seats u s tid (Some b) (Some a).
Proof. unfold visible_seats. by rewrite query_range_sym. Qed.

Example visible_seats_reversed :
  map (fun kv : Z * seat => label kv.2)
      (res_list (visible_seats ucd0
         (db_order_with [s2z "3"; s2z "A"; s2z "1"; s2z "6"; s2z "5"; s2z "2"]) 1
         (Some (s2z "5")) (Some (s2z "2"))))
  = [s2z "2"; s2z "3"; s2z "5"].
Proof. vm_compute. reflexivity. Qed.

Example visible_seats_all_sorted :
  map (fun kv : Z * seat => label kv.2)
      (res_list (visible_seats ucd0
         (db_order_with [s2z "10"; s2z "2"; s2z "A"; s2z "1"]) 1 None None))
  = [s2z "1"; s2z "2"; s2z "10"; s2z "A"].
Proof. vm_compute. reflexivity. Qed.

(* ------------------------------------------------------------------ *)
(** ** Moving a selection *)

(** C9: for an existing selection [sk] (its stored notes fitting
    [max_length=200], as every stored value does on a backend enforcing
    it) and an existing target seat [tk], [move_selection] saves selection [sk]
    with only its owning seat changed: same key, item, notes, modifiers
    and temperatures; every other selection, every seat and every order
    is unchanged.  The answer is [{"status": "ok"}], unless a staff
    session is present and writing its audit entry (after the save)
    raises. *)
Theorem move_selection_only_reseats (sess : session) (s : db) (sk tk : Z)
  (sel : seat_selection) (ts : seat) :
  db_selections s !! sk = Some sel ->
  db_seats s !! tk = Some ts ->
  fits_max s 200 (notes sel) = true ->
  let '(r, s') := move_selection (Some sk) (Some tk) sess s in
  (r = inr (Json true) \/ (truthy_id sess = true /\ exists e, r = inl e)) /\
  db_selections s' =
    <[sk := mkSel tk (sel_item sel) (notes sel) (modifiers sel) (temperatures sel)]>
      (db_selections s) /\
  db_seats s' = db_seats s /\ db_orders s' = db_orders s.
Proof.
  intros Hsel Hts Hfit. unfold move_selection, bind, get_or_404, save_selection.
  rewrite Hsel. simpl. rewrite Hts. simpl. rewrite Hfit.
  destruct sess as [sid|]; [|simpl; auto].
  destruct (truthy_id (Some sid)) eqn:Htr; [|simpl; auto].
  unfold get_related, gets, throw, staff_log. simpl.
  repeat (match goal with
         | |- context [match ?m !! ?k with _ => _ end] => destruct (m !! k)
         | |- context [if negb ?b then _ else _] => destruct b
         | |- context [if bool_decide ?P then _ else _] => destruct (bool_decide P)
         end; simpl);
  (split; [first [left; reflexivity | right; split; [reflexivity | eexists; reflexivity]]
          | repeat split]).
Qed.

Lemma move_selection_only_reseats_witness :
  db_selections db_selection_sample !! 5 = Some sel_sample /\
  db_seats db_selection_sample !! 1002 = Some (mkSeat 1000 (s2z "2") None) /\
  fits_max db_selection_sample 200 (notes sel_sample) = true /\
  let '(r, s') := move_selection (Some 5) (Some 1002) (Some 7) db_selection_sample in
  (r = inr (Json true) \/ (truthy_id (Some 7) = true /\ exists e, r = inl e)) /\
  db_selections s' =
    <[5 := mkSel 1002 (sel_item sel_sample) (notes sel_sample) (modifiers sel_sample)
             (temperatures sel_sample)]> (db_selections db_selection_sample) /\
  db_seats s' = db_seats db_selection_sample /\
  db_orders s' = db_orders db_selection_sample.
Proof.
  assert (H1 : db_selections db_selection_sample !! 5 = Some sel_sample)
    by (vm_compute; reflexivity).
  assert (H2 : db_seats db_selection_sample !! 1002 = Some (mkSeat 1000 (s2z "2") None))
    by (vm_compute; reflexivity).
  assert (H3 : fits_max db_selection_sample 200 (notes sel_sample) = true)
    by (vm_compute; reflexivity).
  exact (conj H1 (conj H2 (conj H3 (move_selection_only_reseats (Some 7) db_selection_sample
                             5 1002 sel_sample _ H1 H2 H3)))).
Defined.

(** On PostgreSQL, an item name of 80 characters makes the audit text
    longer than [max_length=120]: the move is saved, then the
    [StaffLog] INSERT raises [DataError]. *)
Example move_selection_long_item_name :
  let d := db_selection_sample in
  let d' := mkDb (db_tables d) (db_staff d) {[100 := repeat 120 80%nat]} (db_modifiers d)
              (db_temperatures d) (db_orders d) (db_seats d) (db_selections d) (db_log d)
              (db_next_id d) (Some 10%nat) in
  let '(r, s') := move_selection (Some 5) (Some 1002) (Some 7) d' in
  r = inl DataError /\ db_selections s' !! 5 = Some (mkSel 1002 100 (s2z "rare") {[200]} {[300]}) /\
  db_log s' = [].
Proof. vm_compute. repeat split. Qed.

(** A [staff_id] naming no [StaffMember]: the move is saved, then the
    [StaffLog] INSERT raises [IntegrityError]. *)
Example move_selection_stale_staff :
  let '(r, s') := move_selection (Some 5) (Some 1002) (Some 8) db_selection_sample in
  r = inl IntegrityError /\
  db_selections s' !! 5 = Some (mkSel 1002 100 (s2z "rare") {[200]} {[300]}).
Proof. vm_compute. split; reflexivity. Qed.

(* ------------------------------------------------------------------ *)
(** ** Joining an order *)

(** The shipped [join_order] never changes the database: every path
    either returns early or reaches the unbound [existing_numeric_labels]
    (or an unknown staff id) before writing. *)
Lemma join_order_no_write (tid : Z) (form : start_order_form) (sess : session) (s : db) :
  snd (join_order tid form sess s) = s.
Proof.
  unfold join_order, join_order_with, bind, get_or_404, gets.
  destruct (db_tables s !! tid); [|reflexivity]. simpl.
  destruct (first_open_order s tid) as [[oid o]|]; [|reflexivity]. simpl.
  destruct (start_order_form_clean form) as [[[c st] en]|]; [|reflexivity]. simpl.
  destruct (truthy_id sess); simpl.
  - destruct (bool_decide (default 0 sess ∈ db_staff s)); simpl; [|reflexivity].
    destruct st, en; reflexivity.
  - destruct st, en; reflexivity.
Qed.

(** C1 (the code diverges): on an order holding seats "1".."4", a
    [join_order] request for the range [3, 6] does not report the
    conflict {3, 4}: [existing_numeric_labels] is unbound in
    [orders/views.py], the call raises [NameError] (a server error) and
    nothing is written.  The same happens for a range with no overlap. *)
Theorem join_order_range_name_error :
  run_view (join_order 1 (mkStartOrderForm FieldEmpty (FieldInt 3) (FieldInt 6)) (Some 7))
    (db_order_with [s2z "1"; s2z "2"; s2z "3"; s2z "4"])
  = (ServerError NameError, db_order_with [s2z "1"; s2z "2"; s2z "3"; s2z "4"]) /\
  run_view (join_order 1 (mkStartOrderForm FieldEmpty (FieldInt 5) (FieldInt 6)) (Some 7))
    (db_order_with [s2z "1"; s2z "2"; s2z "3"; s2z "4"])
  = (ServerError NameError, db_order_with [s2z "1"; s2z "2"; s2z "3"; s2z "4"]).
Proof. split; vm_compute; reflexivity. Qed.

(** With the helper bound as the spec describes it, the same request
    reports exactly the overlap {3, 4} and writes nothing, and a range
    with no overlap creates seats "5" and "6". *)
Example join_order_with_helper_overlap :
  run_view (join_order_with (Some (existing_numeric_labels_spec ucd0)) 1
              (mkStartOrderForm FieldEmpty (FieldInt 3) (FieldInt 6)) (Some 7))
    (db_order_with [s2z "1"; s2z "2"; s2z "3"; s2z "4"])
  = (Redirect (PTableDetail 1 (Some (3, 6))) (MsgSeatsExist [3; 4]),
     db_order_with [s2z "1"; s2z "2"; s2z "3"; s2z "4"]).
Proof. vm_compute. reflexivity. Qed.

Example join_order_with_helper_fresh :
  let r := run_view (join_order_with (Some (existing_numeric_labels_spec ucd0)) 1
              (mkStartOrderForm FieldEmpty (FieldInt 5) (FieldInt 6)) (Some 7))
             (db_order_with [s2z "1"; s2z "2"; s2z "3"; s2z "4"]) in
  r.1 = Redirect (PTableDetail 1 (Some (5, 6))) (MsgSeatsAdded 2) /\
  map (fun kv : Z * seat => (label kv.2, assigned_to kv.2))
      (filter (fun kv : Z * seat => kv.1 >= 1005) (map_to_list (db_seats r.2)))
  ≡ₚ [(s2z "5", Some 7); (s2z "6", Some 7)].
Proof. vm_compute. split; [reflexivity|]. first [reflexivity | apply Permutation_swap]. Qed.

(* ------------------------------------------------------------------ *)
(** ** Seat-range validation *)

(** [join_order] applies [StartOrderForm]: an invalid form is answered
    with a message and writes nothing (whatever [existing_numeric_labels]
    is bound to). *)
Lemma join_order_invalid_form (enl : option (Z -> M (list Z))) (tid : Z) (form : start_order_form)
  (sess : session) (s : db) (t : table) (oo : Z * order) :
  db_tables s !! tid = Some t ->
  first_open_order s tid = Some oo ->
  start_order_form_clean form = None ->
  join_order_with enl tid form sess s
  = (inr (Redirect (PTableDetail tid None) MsgInvalidRange), s).
Proof.
  intros Ht Ho Hf. destruct oo as [oid o].
  unfold join_order_with, bind, get_or_404, gets. rewrite Ht. simpl.
  rewrite Ho. simpl. rewrite Hf. reflexivity.
Qed.

Example start_order_form_rejects :
  start_order_form_clean (mkStartOrderForm FieldEmpty (FieldInt 5) (FieldInt 3)) = None /\
  start_order_form_clean (mkStartOrderForm FieldEmpty (FieldInt 5) FieldEmpty) = None /\
  start_order_form_clean (mkStartOrderForm (FieldInt 4) (FieldInt 1) (FieldInt 8)) = None.
Proof. repeat split; reflexivity. Qed.

(** C6 (the code diverges): [start_order] does not apply
    [StartOrderForm] (which [table_detail] renders as its form and whose
    [clean] states the rules); it reads [my_start] / [my_end] itself.
    A reversed range (5, 3) opens an Order with zero seats, a lone
    [my_start] falls back to 12 seats, and a range (1, 8) with
    [seat_count] 4 creates 8 seats: each request changes the state. *)
Theorem start_order_accepts_bad_ranges :
  (let '(r, s') := run_view (start_order ucd0 1
                     (mkStartPost (Some (s2z "5")) (Some (s2z "3")) None) (Some 7)) db_sample in
   r = Redirect (PTableDetail 1 None) (MsgOrderStarted 0) /\
   db_orders s' = {[1000 := mkOrder 1 None (Some 7) false]}) /\
  (let '(r, s') := run_view (start_order ucd0 1
                     (mkStartPost (Some (s2z "5")) None None) (Some 7)) db_sample in
   r = Redirect (PTableDetail 1 None) (MsgOrderStarted 12) /\
   db_orders s' = {[1000 := mkOrder 1 None (Some 7) false]}) /\
  (let '(r, s') := run_view (start_order ucd0 1
                     (mkStartPost (Some (s2z "1")) (Some (s2z "8")) (Some (s2z "4"))) (Some 7))
                     db_sample in
   r = Redirect (PTableDetail 1 None) (MsgOrderStarted 8) /\
   db_orders s' = {[1000 := mkOrder 1 None (Some 7) false]}).
Proof. repeat split; vm_compute; reflexivity. Qed.

(* ------------------------------------------------------------------ *)
(** ** Adding a seat *)

Example add_seat_after_1_3_5 :
  let '(r, s') := run_view (add_seat ucd0 1000 None)
                    (db_order_with [s2z "1"; s2z "3"; s2z "5"]) in
  r = Redirect (PTableNewSeat 1 1004) (MsgSeatAdded (s2z "6")) /\
  db_seats s' !! 1004 = Some (mkSeat 1000 (s2z "6") None).
Proof. vm_compute. split; reflexivity. Qed.

Example add_seat_ignores_text_labels :
  (run_view (add_seat ucd0 1000 None) (db_order_with [s2z "A"; s2z "2"])).1
  = Redirect (PTableNewSeat 1 1003) (MsgSeatAdded (s2z "3")).
Proof. vm_compute. reflexivity. Qed.

(** C7 (the code diverges): [add_seat] keeps the labels for which
    [str.isdigit()] holds and passes them to [int()].  A label such as
    "²" (U+00B2, a digit that is not decimal) passes [isdigit] but
    [int("²")] raises [ValueError]: on an order with seats "1" and "²"
    [add_seat] fails with a server error and creates no seat, instead of
    ignoring the non-numeric label and creating seat "2". *)
Theorem add_seat_superscript_label_crashes :
  run_view (add_seat ucd0 1000 None) (db_order_with [s2z "1"; [178]])
  = (ServerError ValueError, db_order_with [s2z "1"; [178]]).
Proof. vm_compute. reflexivity. Qed.

(* ------------------------------------------------------------------ *)
(** ** The [staff_required] guard *)

Lemma start_order_gated (u : ucd) (tid : Z) (post : start_post) (sess : session) (s : db) :
  truthy_id sess = false ->
  start_order u tid post sess s = (inr (Redirect PLogin MsgPleaseLogin), s).
Proof. intros H. unfold start_order, staff_required. by rewrite H. Qed.

Lemma close_order_session_free (oid : Z) (sess : session) (s : db) :
  (truthy_id sess = true -> default 0 sess ∈ db_staff s) ->
  core (snd (close_order oid sess s)) = core (snd (close_order oid None s)).
Proof.
  intros Hstaff.
  unfold close_order, bind, get_or_404, get_related, staff_log, delete_order, modify, ret.
  destruct (db_orders s !! oid) as [o|] eqn:Ho; cbn; [|reflexivity].
  destruct (db_tables s !! ord_table o); cbn; [|reflexivity].
  destruct sess as [z|]; [destruct (truthy_id (Some z)) eqn:Ht|]; cbn; try reflexivity.
  rewrite bool_decide_eq_true_2 by exact (Hstaff eq_refl). reflexivity.
Qed.

(** A truthy [staff_id] naming no [StaffMember] (one deleted since the
    login) makes [close_order] raise [IntegrityError] on the audit entry,
    before [order.delete()]. *)
Lemma close_order_stale_staff (oid sid : Z) (s : db) (o : order) (t : table) :
  db_orders s !! oid = Some o -> db_tables s !! ord_table o = Some t ->
  truthy_id (Some sid) = true -> sid ∉ db_staff s ->
  close_order oid (Some sid) s = (inl IntegrityError, s).
Proof.
  intros Ho Ht Htr Hn.
  unfold close_order, bind, get_or_404, get_related, staff_log.
  rewrite Ho; cbn. rewrite Ht; cbn. cbn in Htr; rewrite Htr; cbn.
  rewrite bool_decide_eq_false_2 by exact Hn. reflexivity.
Qed.

Lemma move_selection_session_free (a b : option Z) (sess : session) (s : db) :
  core (snd (move_selection a b sess s)) = core (snd (move_selection a b None s)).
Proof.
  unfold move_selection, bind, get_or_404, save_selection, get_related, gets, throw,
    staff_log, ret.
  destruct a as [sk|], b as [tk|]; try reflexivity.
  destruct (db_selections s !! sk) as [sel|]; cbn; [|reflexivity].
  destruct (db_seats s !! tk); cbn; [|reflexivity].
  destruct (fits_max s 200 (notes sel)); cbn; [|reflexivity].
  destruct sess as [z|]; [destruct (truthy_id (Some z))|]; cbn; try reflexivity.
  repeat (match goal with
          | |- context [match ?m !! ?k with _ => _ end] => destruct (m !! k)
          | |- context [if negb ?b then _ else _] => destruct b
          | |- context [if bool_decide ?P then _ else _] => destruct (bool_decide P)
          end; cbn); reflexivity.
Qed.

Lemma join_order_session_free (tid : Z) (form : start_order_form) (sess : session) (s : db) :
  core (snd (join_order tid form sess s)) = core (snd (join_order tid form None s)).
Proof. by rewrite !join_order_no_write. Qed.

Lemma never_login_bind {A} (m : M A) (k : A -> M resp) :
  (forall a, never_login (k a)) -> never_login (bind m k).
Proof.
  intros Hk s msg. unfold bind. destruct (m s) as [[e|a] s'] eqn:E; simpl; [discriminate|].
  apply Hk.
Qed.

Lemma never_login_ret (r : resp) :
  (forall msg, r <> Redirect PLogin msg) -> never_login (ret r).
Proof. intros Hr s msg. simpl. intros [= H]. by apply (Hr msg). Qed.

Lemma never_login_throw (e : exc) : never_login (throw e).
Proof. intros s msg. discriminate. Qed.

Ltac no_login :=
  repeat (cbv zeta;
    match goal with
    | |- never_login (bind _ _) => apply never_login_bind; intros ?
    | |- never_login (ret _) => apply never_login_ret; intros ?; discriminate
    | |- never_login (throw _) => apply never_login_throw
    | |- never_login (match ?x with _ => _ end) => destruct x
    | |- never_login (if ?b then _ else _) => destruct b
    end).

Lemma join_order_never_login (tid : Z) (form : start_order_form) (sess : session) :
  never_login (join_order tid form sess).
Proof. unfold join_order, join_order_with. no_login. Qed.

Lemma close_order_never_login (oid : Z) (sess : session) : never_login (close_order oid sess).
Proof. unfold close_order. no_login. Qed.

Lemma add_seat_never_login (u : ucd) (oid : Z) (sess : session) :
  never_login (add_seat u oid sess).
Proof. unfold add_seat. no_login. Qed.

Lemma remove_seat_never_login (sid : Z) (sess : session) : never_login (remove_seat sid sess).
Proof. unfold remove_seat. no_login. Qed.

Lemma add_selection_never_login (post : selection_post) (sess : session) :
  never_login (add_selection post sess).
Proof. unfold add_selection. no_login. Qed.

Lemma remove_selection_never_login (k : Z) (sess : session) :
  never_login (remove_selection k sess).
Proof. unfold remove_selection. no_login. Qed.

Lemma move_selection_never_login (a b : option Z) (sess : session) :
  never_login (move_selection a b sess).
Proof. unfold move_selection. no_login. Qed.

(** C2 (counterexample): [close_order] has no [@staff_required]; a
    request with no staff session deletes the order and its seats and is
    redirected to the room view, not to the login page. *)
Lemma close_order_without_session :
  let '(r, s') := run_view (close_order 1000 None) (db_order_with [s2z "1"; s2z "2"]) in
  r = Redirect (PRoomTables 1) MsgOrderClosed /\ db_orders s' = ∅ /\ db_seats s' = ∅.
Proof. vm_compute. repeat split. Qed.

(** C2 (amended): of the write views only [start_order] is wrapped by
    [staff_required]; without a truthy [staff_id] it redirects to the
    login page and changes nothing.  [join_order], [close_order],
    [add_seat], [remove_seat], [add_selection], [remove_selection] and
    [move_selection] never redirect to the login page.  What they do to
    orders, seats and selections is the same with or without a staff
    session, provided a truthy [staff_id] names an existing
    [StaffMember]; with a stale one, [close_order] raises
    [IntegrityError] on its audit entry before deleting and changes
    nothing. *)
Theorem only_start_order_is_staff_gated :
  (forall (u : ucd) (tid : Z) (post : start_post) (sess : session) (s : db),
     truthy_id sess = false ->
     start_order u tid post sess s = (inr (Redirect PLogin MsgPleaseLogin), s)) /\
  (forall tid form sess, never_login (join_order tid form sess)) /\
  (forall oid sess, never_login (close_order oid sess)) /\
  (forall u oid sess, never_login (add_seat u oid sess)) /\
  (forall sid sess, never_login (remove_seat sid sess)) /\
  (forall post sess, never_login (add_selection post sess)) /\
  (forall k sess, never_login (remove_selection k sess)) /\
  (forall a b sess, never_login (move_selection a b sess)) /\
  (forall tid form sess s,
     core (snd (join_order tid form sess s)) = core (snd (join_order tid form None s))) /\
  (forall oid sess s,
     (truthy_id sess = true -> default 0 sess ∈ db_staff s) ->
     core (snd (close_order oid sess s)) = core (snd (close_order oid None s))) /\
  (forall oid sid s o t,
     db_orders s !! oid = Some o -> db_tables s !! ord_table o = Some t ->
     truthy_id (Some sid) = true -> sid ∉ db_staff s ->
     close_order oid (Some sid) s = (inl IntegrityError, s)) /\
  (forall u oid sess s,
     core (snd (add_seat u oid sess s)) = core (snd (add_seat u oid None s))) /\
  (forall sid sess s,
     core (snd (remove_seat sid sess s)) = core (snd (remove_seat sid None s))) /\
  (forall post sess s,
     core (snd (add_selection post sess s)) = core (snd (add_selection post None s))) /\
  (forall k sess s,
     core (snd (remove_selection k sess s)) = core (snd (remove_selection k None s))) /\
  (forall a b sess s,
     core (snd (move_selection a b sess s)) = core (snd (move_selection a b None s))).
Proof.
  split; [exact start_order_gated|].
  split; [exact join_order_never_login|].
  split; [exact close_order_never_login|].
  split; [exact add_seat_never_login|].
  split; [exact remove_seat_never_login|].
  split; [exact add_selection_never_login|].
  split; [exact remove_selection_never_login|].
  split; [exact move_selection_never_login|].
  split; [exact join_order_session_free|].
  split; [exact close_order_session_free|].
  split; [exact close_order_stale_staff|].
  split; [reflexivity|].
  split; [reflexivity|].
  split; [reflexivity|].
  split; [reflexivity|].
  exact move_selection_session_free.
Qed.

Lemma only_start_order_is_staff_gated_witness :
  truthy_id None = false /\
  start_order ucd0 1 (mkStartPost None None None) None db_sample
  = (inr (Redirect PLogin MsgPleaseLogin), db_sample).
Proof.
  assert (H : truthy_id None = false) by reflexivity.
  exact (conj H (proj1 only_start_order_is_staff_gated ucd0 1
                   (mkStartPost None None None) None db_sample H)).
Defined.

(* ------------------------------------------------------------------ *)
(** ** Adding a selection *)

Lemma add_selection_existing (sid iid : Z) (nraw : pystr) (mods temps : list Z)
  (sess : session) (s : db) (st : seat) (o : order) (k : Z) (sel : seat_selection) :
  db_seats s !! sid = Some st ->
  iid ∈ dom (db_items s) ->
  db_orders s !! seat_order st = Some o ->
  sel_matches s sid iid = [(k, sel)] ->
  let nts := py_strip nraw in
  (py_truthy nts = true -> fits_max s 200 (py_strip (notes sel ++ [10] ++ nts)) = true) ->
  let '(r, s') := add_selection (sel_post sid iid nraw mods temps) sess s in
  r = inr (Redirect (PTableActiveSeat (ord_table o) sid) MsgSelectionUpdated) /\
  db_selections s' !! k =
    Some (mkSel (sel_seat sel) (sel_item sel)
            (if py_truthy nts then py_strip (notes sel ++ [10] ++ nts) else notes sel)
            (modifiers sel ∪ list_to_set (filter (fun i => i ∈ db_modifiers s) mods))
            (temperatures sel ∪ list_to_set (filter (fun i => i ∈ db_temperatures s) temps))) /\
  (forall k', k' <> k -> db_selections s' !! k' = db_selections s !! k').
Proof.
  intros Hseat Hitem Hord Hm nts Hfit. subst nts. unfold sel_matches in Hm.
  assert (Hsel : db_selections s !! k = Some sel).
  { apply elem_of_map_to_list.
    assert (Hin : (k, sel) ∈ [(k, sel)]) by set_solver.
    rewrite <- Hm in Hin. apply list_elem_of_filter in Hin. tauto. }
  cbv zeta. unfold add_selection, sel_post, bind, get_or_404, gets, get_or_create_selection, ret.
  cbn -[py_strip]. rewrite Hseat. cbn -[py_strip]. rewrite (bool_decide_eq_true_2 _ Hitem). cbn -[py_strip].
  rewrite Hm. cbn -[py_strip].
  destruct (py_truthy (py_strip nraw)) eqn:Ht;
  [pose proof (Hfit eq_refl) as Hf; cbn [app] in Hf|];
  destruct mods as [|m0 mods]; destruct temps as [|t0 temps];
  unfold save_selection, add_modifiers, add_temperatures, modify; cbn -[py_strip fits_max];
  rewrite ?Hf; cbn -[py_strip]; rewrite Hord; cbn; (split; [reflexivity|]);
  (split; [simplify_map_eq; rewrite ?union_empty_r_L; try reflexivity
          | intros k' Hk'; simplify_map_eq; reflexivity]).
  all: destruct sel; reflexivity.
Qed.

Lemma add_selection_fresh (sid iid : Z) (nraw : pystr) (mods temps : list Z)
  (sess : session) (s : db) (st : seat) (o : order) :
  db_seats s !! sid = Some st ->
  iid ∈ dom (db_items s) ->
  db_orders s !! seat_order st = Some o ->
  sel_matches s sid iid = [] ->
  fits_max s 200 (py_strip nraw) = true ->
  let '(r, s') := add_selection (sel_post sid iid nraw mods temps) sess s in
  r = inr (Redirect (PTableActiveSeat (ord_table o) sid) MsgSelectionUpdated) /\
  db_selections s' !! db_next_id s =
    Some (mkSel sid iid (py_strip nraw)
            (∅ ∪ list_to_set (filter (fun i => i ∈ db_modifiers s) mods))
            (∅ ∪ list_to_set (filter (fun i => i ∈ db_temperatures s) temps))) /\
  (forall k', k' <> db_next_id s -> db_selections s' !! k' = db_selections s !! k').
Proof.
  intros Hseat Hitem Hord Hm Hfit. unfold sel_matches in Hm.
  unfold add_selection, sel_post, bind, get_or_404, gets, get_or_create_selection, ret,
    fresh_id.
  cbn -[py_strip]. rewrite Hseat. cbn -[py_strip].
  rewrite (bool_decide_eq_true_2 _ Hitem). cbn -[py_strip].
  rewrite Hm. cbn -[py_strip fits_max]. rewrite Hfit. cbn -[py_strip].
  destruct mods as [|m0 mods]; destruct temps as [|t0 temps];
  unfold add_modifiers, add_temperatures, modify; cbn -[py_strip];
  rewrite Hord; cbn -[py_strip]; (split; [reflexivity|]);
  (split; [simplify_map_eq; rewrite ?union_empty_r_L; reflexivity
          | intros k' Hk'; simplify_map_eq; reflexivity]).
Qed.

Lemma add_selection_ambiguous (sid iid : Z) (nraw : pystr) (mods temps : list Z)
  (sess : session) (s : db) (st : seat) kv1 kv2 rest :
  db_seats s !! sid = Some st ->
  iid ∈ dom (db_items s) ->
  sel_matches s sid iid = kv1 :: kv2 :: rest ->
  add_selection (sel_post sid iid nraw mods temps) sess s = (inl MultipleObjectsReturned, s).
Proof.
  intros Hseat Hitem Hm. unfold sel_matches in Hm.
  unfold add_selection, sel_post, bind, get_or_404, gets, get_or_create_selection, ret.
  cbn -[py_strip]. rewrite Hseat. cbn -[py_strip].
  rewrite (bool_decide_eq_true_2 _ Hitem). cbn -[py_strip].
  rewrite Hm. reflexivity.
Qed.

(** C8 (code bug): [add_selection] does not always get-or-create one
    selection for [(seat, item)]: [SeatSelection] has no uniqueness
    constraint on that pair.  From a database with one selection of item
    100 on each of seats 1001 and 1002, [move_selection] by staff member 7
    puts both on seat 1001; [get_or_create] then raises
    [MultipleObjectsReturned] (a server error) and the notes "b" and
    modifier 201 are added nowhere.  On PostgreSQL, appending to notes
    already 200 characters long raises [DataError] ([max_length=200])
    and nothing is written either. *)
Theorem add_selection_duplicate_pair_fails :
  sel_matches db_two_selections 1001 100 = [(5, sel_sample)] /\
  sel_matches db_two_selections 1002 100 = [(6, mkSel 1002 100 [] ∅ ∅)] /\
  fst (move_selection (Some 6) (Some 1001) (Some 7) db_two_selections) = inr (Json true) /\
  length (sel_matches db_duplicate_sample 1001 100) = 2%nat /\
  run_view (add_selection (sel_post 1001 100 (s2z "b") [201] []) (Some 7)) db_duplicate_sample
  = (ServerError MultipleObjectsReturned, db_duplicate_sample) /\
  run_view (add_selection (sel_post 1001 100 (s2z "b") [201] []) (Some 7)) db_long_notes_sample
  = (ServerError DataError, db_long_notes_sample).
Proof. repeat split; vm_compute; reflexivity. Qed.

(* ------------------------------------------------------------------ *)
(** ** Atomicity of [start_order] *)

Lemma read_only_rolls_back {A} (m : M A) : read_only m -> rolls_back m.
Proof. intros H s e _. apply H. Qed.

Lemma ret_read_only {A} (a : A) : read_only (ret a).
Proof. intro; reflexivity. Qed.

Lemma throw_read_only {A} e : read_only (A:=A) (throw e).
Proof. intro; reflexivity. Qed.

Lemma gets_read_only {A} (f : db -> A) : read_only (gets f).
Proof. intro; reflexivity. Qed.

Lemma get_or_404_read_only {A} (f : db -> gmap Z A) k : read_only (get_or_404 f k).
Proof. intro s. unfold get_or_404. destruct k; [destruct (f s !! _)|]; reflexivity. Qed.

Lemma bind_read_only_rolls_back {A B} (m : M A) (k : A -> M B) :
  read_only m -> (forall a, rolls_back (k a)) -> rolls_back (bind m k).
Proof.
  intros Hm Hk s e. unfold bind. specialize (Hm s).
  destruct (m s) as [[e'|a] s'] eqn:E; cbn in *; subst; [auto|]. apply Hk.
Qed.

Lemma read_only_rolls_back_in {A} P (m : M A) : read_only m -> rolls_back_in P m.
Proof. intros H s e _ _. apply H. Qed.

Lemma bind_read_only_rolls_back_in {A B} P (m : M A) (k : A -> M B) :
  read_only m -> (forall a, rolls_back_in P (k a)) -> rolls_back_in P (bind m k).
Proof.
  intros Hm Hk s e HP. unfold bind. specialize (Hm s).
  destruct (m s) as [[e'|a] s'] eqn:E; cbn in *; subst; [auto|]. by apply Hk.
Qed.

(** [StaffMember.objects.get(pk=staff_id)] guarding the rest: the rest
    runs only when the staff member exists. *)
Lemma staff_guard_rolls_back {B} (sid : Z) (e0 : exc) (k : M B) :
  rolls_back_in (fun s => sid ∈ db_staff s) k ->
  rolls_back (bind (gets (fun s => bool_decide (sid ∈ db_staff s)))
                (fun ok => if negb ok then throw e0 else k)).
Proof.
  intros Hk s e. unfold bind, gets, throw. cbn.
  destruct (bool_decide (sid ∈ db_staff s)) eqn:Hb; cbn; [|auto].
  apply Hk. by apply bool_decide_eq_true_1 in Hb.
Qed.

Lemma keeps_staff_bind {A B} (m : M A) (k : A -> M B) :
  keeps_staff m -> (forall a, keeps_staff (k a)) -> keeps_staff (bind m k).
Proof.
  intros Hm Hk s. unfold bind. specialize (Hm s).
  destruct (m s) as [[e|a] s'] eqn:E; cbn in *; [auto|]. by rewrite Hk.
Qed.

Lemma keeps_staff_ret {A} (a : A) : keeps_staff (ret a).
Proof. intro; reflexivity. Qed.

Lemma keeps_staff_order_create o : keeps_staff (order_create o).
Proof. intro; reflexivity. Qed.

Lemma keeps_staff_bulk_create ss : keeps_staff (bulk_create ss).
Proof.
  intro s. unfold bulk_create.
  destruct (negb _); [reflexivity|]. destruct (_ || _); [reflexivity|].
  destruct (insert_seats _ _ _); reflexivity.
Qed.

(** A transaction keeping the staff table, followed by steps that do
    not raise while staff member [sid] exists (an audit entry of [sid]
    and a response). *)
Lemma atomic_log_rolls_back {A B} (sid : Z) (m : M A) (k : A -> M B) :
  keeps_staff m ->
  (forall a s', sid ∈ db_staff s' -> forall e, fst (k a s') <> inl e) ->
  rolls_back_in (fun s => sid ∈ db_staff s) (bind (atomic m) k).
Proof.
  intros Hm Hk s e Hs. unfold bind, atomic. specialize (Hm s).
  destruct (m s) as [[e'|a] s'] eqn:E; cbn in *; [auto|].
  intro H. exfalso. refine (Hk a s' _ e H). by rewrite Hm.
Qed.

(** C4: [start_order] is atomic.  Whenever it ends in an exception (in
    particular when [Seat.objects.bulk_create] of the initial seats
    fails inside [transaction.atomic]), the database is the one it
    started from: the [Order] created in the same transaction is rolled
    back with the seats. *)
Theorem start_order_failure_rolls_back (u : ucd) (tid : Z) (post : start_post)
  (sess : session) (s : db) (e : exc) :
  fst (start_order u tid post sess s) = inl e -> snd (start_order u tid post sess s) = s.
Proof.
  revert s e. unfold start_order, staff_required.
  destruct (truthy_id sess) eqn:T; [|apply read_only_rolls_back, ret_read_only].
  unfold start_order_view.
  apply bind_read_only_rolls_back; [apply get_or_404_read_only|intros [_ tbl]].
  destruct sess as [sid|]; [|apply read_only_rolls_back, ret_read_only].
  rewrite T; cbn.
  apply staff_guard_rolls_back.
  apply bind_read_only_rolls_back_in.
  { destruct (sp_seat_count post); [unfold py_int_m; destruct (py_int u _)|];
      auto using ret_read_only, throw_read_only. }
  intros cnt.
  destruct (sp_my_start post) as [a|], (sp_my_end post) as [b|];
    try destruct (py_int u a); try destruct (py_int u b);
    first [ apply read_only_rolls_back_in, ret_read_only
          | apply atomic_log_rolls_back;
            [ apply keeps_staff_bind; [apply keeps_staff_order_create|intros oid];
              apply keeps_staff_bind; [apply keeps_staff_bulk_create|intros ?];
              apply keeps_staff_ret
            | intros [oid n] s' Hs' e'; unfold bind, staff_log, ret; cbn;
              rewrite bool_decide_eq_true_2 by exact Hs'; discriminate ] ].
Qed.

(** On a backend with [max_length=10], the range 10000000000..10000000000
    makes [bulk_create] raise [DataError] after the order was created;
    nothing is left behind. *)
Lemma start_order_failure_rolls_back_witness :
  fst (start_order ucd0 1 (mkStartPost (Some (s2z "10000000000")) (Some (s2z "10000000000")) None)
         (Some 7) db_label10_sample) = inl DataError /\
  snd (start_order ucd0 1 (mkStartPost (Some (s2z "10000000000")) (Some (s2z "10000000000")) None)
         (Some 7) db_label10_sample) = db_label10_sample.
Proof.
  assert (H : fst (start_order ucd0 1 (mkStartPost (Some (s2z "10000000000"))
                     (Some (s2z "10000000000")) None) (Some 7) db_label10_sample) = inl DataError)
    by (vm_compute; reflexivity).
  exact (conj H (start_order_failure_rolls_back ucd0 1 _ (Some 7) db_label10_sample DataError H)).
Defined.

(* ------------------------------------------------------------------ *)
(** ** Seats created by [start_order] *)

Lemma insert_seats_old next ss m k v :
  (forall j, next <= j -> m !! j = None) -> m !! k = Some v ->
  (insert_seats next ss m).1 !! k = Some v.
Proof.
  revert next m. induction ss as [|x r IH]; intros next m Hf Hk; cbn; [exact Hk|].
  apply IH.
  - intros j Hj. rewrite lookup_insert_ne by lia. apply Hf. lia.
  - rewrite lookup_insert_ne; [exact Hk|]. intros ->. rewrite Hf in Hk by lia. discriminate.
Qed.

Lemma insert_seats_new next ss m k v :
  (insert_seats next ss m).1 !! k = Some v -> m !! k = Some v \/ In v ss.
Proof.
  revert next m. induction ss as [|x r IH]; intros next m Hk; cbn in *; [auto|].
  destruct (IH _ _ Hk) as [H|H]; [|auto].
  destruct (decide (k = next)) as [->|Hne].
  - rewrite lookup_insert_eq in H. right; left; congruence.
  - rewrite lookup_insert_ne in H by congruence. auto.
Qed.

Lemma insert_seats_filter (P : seat -> Prop) `{!forall x, Decision (P x)} next ss m :
  (forall j, next <= j -> m !! j = None) ->
  map snd (filter (fun kv : Z * seat => P kv.2) (map_to_list (insert_seats next ss m).1))
  ≡ₚ filter P ss ++ map snd (filter (fun kv : Z * seat => P kv.2) (map_to_list m)).
Proof.
  revert next m. induction ss as [|x r IH]; intros next m Hf; cbn; [reflexivity|].
  rewrite IH.
  2:{ intros j Hj. rewrite lookup_insert_ne by lia. apply Hf. lia. }
  rewrite map_to_list_insert by (apply Hf; lia).
  rewrite filter_cons. cbn.
  destruct (decide (P x)); cbn; [|reflexivity].
  rewrite <- Permutation_middle. reflexivity.
Qed.

Lemma filter_seats_for_all oid staff is :
  filter (fun st : seat => seat_order st = oid) (seats_for oid staff is) = seats_for oid staff is.
Proof.
  induction is as [|i r IH]; cbn; [reflexivity|].
  rewrite decide_True by reflexivity. f_equal. exact IH.
Qed.

Lemma filter_none {A} (P : A -> Prop) `{!forall x, Decision (P x)} l :
  (forall x, In x l -> ~ P x) -> filter P l = [].
Proof.
  induction l as [|x r IH]; intros Hl; [reflexivity|].
  rewrite filter_cons, decide_False by (apply Hl; left; reflexivity).
  apply IH. intros y Hy. apply Hl. right. exact Hy.
Qed.

Lemma zrange_NoDup a b : NoDup (zrange a b).
Proof.
  unfold zrange. apply NoDup_fmap_2; [intros x y ?; lia|]. apply NoDup_seq.
Qed.

Lemma batch_dup_seats_for oid staff is :
  NoDup is -> batch_dup (seats_for oid staff is) = false.
Proof.
  induction 1 as [|i r Hi Hr IH]; [reflexivity|].
  change (seats_for oid staff (i :: r))
    with (mkSeat oid (py_str i) staff :: seats_for oid staff r).
  cbn [batch_dup]. rewrite IH, orb_false_r. apply not_true_is_false. intros Hex.
  apply existsb_exists in Hex as (st & Hst & Hs).
  unfold seats_for in Hst. apply in_map_iff in Hst as (j & <- & Hj).
  unfold same_slot in Hs. cbn in Hs. apply andb_true_iff in Hs as [_ Hs].
  apply bool_decide_eq_true in Hs. apply py_str_inj in Hs. subst j.
  apply Hi. apply list_elem_of_In. exact Hj.
Qed.

Lemma bulk_create_ok (ss : list seat) s :
  forallb (label_fits s) ss = true -> existsb (seat_conflicts s) ss = false ->
  batch_dup ss = false ->
  bulk_create ss s = (inr tt, set_next_id (insert_seats (db_next_id s) ss (db_seats s)).2
                               (set_seats (insert_seats (db_next_id s) ss (db_seats s)).1 s)).
Proof.
  intros H1 H2 H3. unfold bulk_create. rewrite H1, H2, H3. cbn.
  destruct (insert_seats _ _ _); reflexivity.
Qed.

Lemma no_conflicts_fresh s oid staff is :
  (forall k st, db_seats s !! k = Some st -> seat_order st < oid) ->
  existsb (seat_conflicts s) (seats_for oid staff is) = false.
Proof.
  intros Hf. apply not_true_is_false. intros Hex.
  apply existsb_exists in Hex as (st & Hst & Hc).
  apply existsb_exists in Hc as ([k st'] & Hin & Hs).
  apply list_elem_of_In, elem_of_map_to_list in Hin.
  unfold seats_for in Hst. apply in_map_iff in Hst as (i & <- & _).
  unfold same_slot in Hs. cbn in Hs. apply andb_true_iff in Hs as [Ho _].
  apply Z.eqb_eq in Ho. specialize (Hf _ _ Hin). lia.
Qed.

Lemma truthy_some sid : sid <> 0 -> truthy_id (Some sid) = true.
Proof. intros H. unfold truthy_id. apply Z.eqb_neq in H. rewrite H. reflexivity. Qed.

(** [start_order] on a request whose numbers parse, run to its end. *)
Lemma start_order_run u tid post sid s tbl cnt rng :
  sid <> 0 -> db_tables s !! tid = Some tbl -> sid ∈ db_staff s ->
  match sp_seat_count post with Some c => py_int u c = Some cnt | None => cnt = 12 end ->
  match sp_my_start post, sp_my_end post with
  | Some a, Some b => exists a' b', py_int u a = Some a' /\ py_int u b = Some b' /\ rng = Some (a', b')
  | _, _ => rng = None
  end ->
  ids_fresh s ->
  let N := db_next_id s in
  let ss := match rng with
            | Some (a, b) => seats_for N None (zrange a b)
            | None => seats_for N None (zrange 1 cnt)
            end in
  forallb (label_fits s) ss = true ->
  start_order u tid post (Some sid) s =
  (inr (Redirect (PTableDetail tid None) (MsgOrderStarted (length ss))),
   set_log (db_log s ++ [(sid, LogStarted N (length ss))])
     (set_next_id (insert_seats (N + 1) ss (db_seats s)).2
       (set_seats (insert_seats (N + 1) ss (db_seats s)).1
         (set_next_id (N + 1)
            (set_orders (<[N := mkOrder tid (tbl_party tbl) (Some sid) false]> (db_orders s)) s))))).
Proof.
  intros Hsid Htbl Hstaff Hcnt Hrng [Hfo Hfs] N ss Hfit.
  unfold start_order, staff_required.
  rewrite (truthy_some sid Hsid).
  unfold start_order_view, bind, get_or_404, gets. rewrite Htbl. cbn - [atomic py_int_m].
  rewrite (proj2 (Z.eqb_neq _ _) Hsid). cbn -[atomic py_int_m].
  rewrite bool_decide_eq_true_2 by exact Hstaff. cbn -[atomic py_int_m].
  assert (Hc : match sp_seat_count post with Some c => py_int_m u c | None => ret 12 end s
               = (inr cnt, s)).
  { destruct (sp_seat_count post); [unfold py_int_m; rewrite Hcnt|subst cnt]; reflexivity. }
  rewrite Hc. clear Hc Hcnt.
  assert (Hr : match sp_my_start post with
               | Some a0 => match sp_my_end post with
                            | Some b => match py_int u a0 with
                                        | Some a' => match py_int u b with
                                                     | Some b' => inr (Some (a', b'))
                                                     | None => inl ()
                                                     end
                                        | None => inl ()
                                        end
                            | None => inr None
                            end
               | None => inr None
               end = inr rng).
  { destruct (sp_my_start post), (sp_my_end post); try (subst rng; reflexivity).
    destruct Hrng as (a' & b' & -> & -> & ->). reflexivity. }
  rewrite Hr. clear Hr Hrng.
  unfold atomic. cbn -[bulk_create].
  subst N ss.
  rewrite bulk_create_ok.
  - unfold staff_log. cbn. rewrite bool_decide_eq_true_2 by exact Hstaff. reflexivity.
  - exact Hfit.
  - destruct rng as [[a b]|]; apply no_conflicts_fresh; intros k st Hk; apply (Hfs k st Hk).
  - destruct rng as [[a b]|]; apply batch_dup_seats_for, zrange_NoDup.
Qed.

(** C3: on table [tid] with staff member [sid] logged in (ids fresh, the
    labels fitting the column), [start_order] with no explicit range and
    [seat_count = str(n)] (default 12), or with [my_start = str(a)] and
    [my_end = str(b)], creates one order [oid] (the next id) and exactly
    the seats [seats_for oid None is]: labels [str(i)] for [i] in
    [range(1, n+1)], resp. [range(a, b+1)], none assigned to staff.  The
    older seats are untouched and no other seat is created. *)
Theorem start_order_creates_requested_seats (u : ucd) (tid sid : Z) (post : start_post)
  (s : db) (tbl : table) (is : list Z) :
  ucd_wf u -> sid <> 0 -> db_tables s !! tid = Some tbl -> sid ∈ db_staff s -> ids_fresh s ->
  ((sp_my_start post = None \/ sp_my_end post = None) /\
     ((sp_seat_count post = None /\ is = zrange 1 12) \/
      (exists n, sp_seat_count post = Some (py_str n) /\ is = zrange 1 n))) \/
  (exists a b, sp_my_start post = Some (py_str a) /\ sp_my_end post = Some (py_str b) /\
     is = zrange a b /\
     (sp_seat_count post = None \/ exists n, sp_seat_count post = Some (py_str n))) ->
  forallb (label_fits s) (seats_for (db_next_id s) None is) = true ->
  let oid := db_next_id s in
  let '(r, s') := start_order u tid post (Some sid) s in
  r = inr (Redirect (PTableDetail tid None) (MsgOrderStarted (length is))) /\
  db_orders s' = <[oid := mkOrder tid (tbl_party tbl) (Some sid) false]> (db_orders s) /\
  map snd (order_seats s' oid) ≡ₚ seats_for oid None is /\
  (forall k st, db_seats s !! k = Some st -> db_seats s' !! k = Some st) /\
  (forall k st, db_seats s' !! k = Some st -> db_seats s !! k = Some st \/ seat_order st = oid).
Proof.
  intros Hu Hsid Htbl Hstaff Hfr Hreq Hfit oid.
  assert (Hrun : exists cnt rng,
    match sp_seat_count post with Some c => py_int u c = Some cnt | None => cnt = 12 end /\
    match sp_my_start post, sp_my_end post with
    | Some a, Some b => exists a' b', py_int u a = Some a' /\ py_int u b = Some b' /\ rng = Some (a', b')
    | _, _ => rng = None
    end /\
    seats_for oid None is = match rng with
                            | Some (a, b) => seats_for oid None (zrange a b)
                            | None => seats_for oid None (zrange 1 cnt)
                            end).
  { destruct Hreq as [[Hnr [[Hc ->] | (n & Hc & ->)]] | (a & b & Ha & Hb & -> & Hc)].
    - exists 12, None. rewrite Hc. split; [reflexivity|].
      split; [destruct Hnr as [-> | ->]; [|destruct (sp_my_start post)]; reflexivity|reflexivity].
    - exists n, None. rewrite Hc. split; [apply py_int_py_str, Hu|].
      split; [destruct Hnr as [-> | ->]; [|destruct (sp_my_start post)]; reflexivity|reflexivity].
    - assert (Hcnt : exists cnt, match sp_seat_count post with
                                 | Some c => py_int u c = Some cnt | None => cnt = 12 end).
      { destruct Hc as [-> | (n & ->)]; [exists 12; reflexivity|exists n; apply py_int_py_str, Hu]. }
      destruct Hcnt as [cnt Hcnt]. exists cnt, (Some (a, b)).
      split; [exact Hcnt|]. rewrite Ha, Hb. split; [|reflexivity].
      exists a, b. rewrite !py_int_py_str by exact Hu. auto. }
  destruct Hrun as (cnt & rng & Hcnt & Hrng & Hss).
  pose proof Hfr as [Hfo Hfs].
  rewrite (start_order_run u tid post sid s tbl cnt rng Hsid Htbl Hstaff Hcnt Hrng Hfr)
    by (cbv zeta; fold oid; rewrite <- Hss; exact Hfit).
  cbv zeta. fold oid. rewrite <- Hss.
  assert (Hnew : forall j, oid + 1 <= j -> db_seats s !! j = None).
  { intros j Hj. destruct (db_seats s !! j) as [st|] eqn:E; [|reflexivity].
    apply Hfs in E. unfold oid in Hj. lia. }
  split; [unfold seats_for; rewrite length_map; reflexivity|].
  split; [reflexivity|].
  split; [|split].
  - etrans; [apply Permutation_map, order_seats_perm|].
    cbn [set_log set_next_id set_seats db_seats].
    pose proof (insert_seats_filter (fun st => seat_order st = oid) (oid + 1)
                  (seats_for oid None is) (db_seats s) Hnew) as Hp.
    cbv beta in Hp. rewrite Hp.
    rewrite filter_seats_for_all.
    rewrite (filter_none _ (map_to_list (db_seats s))); [cbn; rewrite app_nil_r; reflexivity|].
    intros [k st] Hin. apply list_elem_of_In, elem_of_map_to_list in Hin.
    apply Hfs in Hin. cbn. unfold oid. lia.
  - intros k st Hk. cbn. apply insert_seats_old; [exact Hnew|exact Hk].
  - intros k st Hk. cbn in Hk. apply insert_seats_new in Hk as [Hk|Hk]; [auto|].
    right. unfold seats_for in Hk. apply in_map_iff in Hk as (i & <- & _). reflexivity.
Qed.

(** [seat_count=4] on table 1 of [db_sample]. *)
Lemma start_order_creates_requested_seats_witness :
  ucd_wf ucd0 /\ 7 <> 0 /\ db_tables db_sample !! 1 = Some (mkTable 1 5 None) /\
  7 ∈ db_staff db_sample /\ ids_fresh db_sample /\
  forallb (label_fits db_sample) (seats_for (db_next_id db_sample) None (zrange 1 4)) = true /\
  (let oid := db_next_id db_sample in
   let '(r, s') := start_order ucd0 1 (mkStartPost None None (Some (py_str 4))) (Some 7) db_sample in
   r = inr (Redirect (PTableDetail 1 None) (MsgOrderStarted (length (zrange 1 4)))) /\
   db_orders s' = <[oid := mkOrder 1 (tbl_party (mkTable 1 5 None)) (Some 7) false]>
                    (db_orders db_sample) /\
   map snd (order_seats s' oid) ≡ₚ seats_for oid None (zrange 1 4) /\
   (forall k st, db_seats db_sample !! k = Some st -> db_seats s' !! k = Some st) /\
   (forall k st, db_seats s' !! k = Some st ->
                 db_seats db_sample !! k = Some st \/ seat_order st = oid)).
Proof.
  assert (H1 : 7 <> 0) by lia.
  assert (H2 : db_tables db_sample !! 1 = Some (mkTable 1 5 None)) by reflexivity.
  assert (H3 : 7 ∈ db_staff db_sample) by (cbn; set_solver).
  assert (H4 : ids_fresh db_sample)
    by (split; intros k ? Hk; cbn in Hk; rewrite lookup_empty in Hk; discriminate).
  assert (H5 : forallb (label_fits db_sample)
                 (seats_for (db_next_id db_sample) None (zrange 1 4)) = true)
    by (vm_compute; reflexivity).
  assert (Hreq : ((sp_my_start (mkStartPost None None (Some (py_str 4))) = None \/
                   sp_my_end (mkStartPost None None (Some (py_str 4))) = None) /\
                  ((sp_seat_count (mkStartPost None None (Some (py_str 4))) = None /\
                    zrange 1 4 = zrange 1 12) \/
                   (exists n, sp_seat_count (mkStartPost None None (Some (py_str 4)))
                              = Some (py_str n) /\ zrange 1 4 = zrange 1 n))) \/
                 (exists a b, sp_my_start (mkStartPost None None (Some (py_str 4))) = Some (py_str a) /\
                    sp_my_end (mkStartPost None None (Some (py_str 4))) = Some (py_str b) /\
                    zrange 1 4 = zrange a b /\
                    (sp_seat_count (mkStartPost None None (Some (py_str 4))) = None \/
                     exists n, sp_seat_count (mkStartPost None None (Some (py_str 4)))
                               = Some (py_str n))))
    by (left; split; [left; reflexivity|right; exists 4; split; reflexivity]).
  exact (conj ucd0_wf (conj H1 (conj H2 (conj H3 (conj H4 (conj H5
           (start_order_creates_requested_seats ucd0 1 7 _ db_sample (mkTable 1 5 None)
              (zrange 1 4) ucd0_wf H1 H2 H3 H4 Hreq H5))))))).
Defined.

(** The two requests of the spec, in the label order of [order.seats.all()]:
    [seat_count=4] gives the unassigned seats "1".."4" of order 1000, the
    range 5..7 the seats "5".."7" and no others. *)
Example start_order_seat_count_4 :
  map snd (order_seats (snd (start_order ucd0 1 (mkStartPost None None (Some (s2z "4")))
                               (Some 7) db_sample)) 1000)
  = [mkSeat 1000 (s2z "1") None; mkSeat 1000 (s2z "2") None;
     mkSeat 1000 (s2z "3") None; mkSeat 1000 (s2z "4") None].
Proof. vm_compute. reflexivity. Qed.

Example start_order_range_5_7 :
  map snd (order_seats (snd (start_order ucd0 1
                               (mkStartPost (Some (s2z "5")) (Some (s2z "7")) None)
                               (Some 7) db_sample)) 1000)
  = [mkSeat 1000 (s2z "5") None; mkSeat 1000 (s2z "6") None; mkSeat 1000 (s2z "7") None].
Proof. vm_compute. reflexivity. Qed.

(* ------------------------------------------------------------------ *)
(** ** Unique seat labels *)

Lemma same_slot_sym a b : same_slot a b = same_slot b a.
Proof.
  unfold same_slot. rewrite Z.eqb_sym. f_equal.
  apply bool_decide_ext. split; congruence.
Qed.

Lemma same_slot_true a b : same_slot a b = true <-> seat_order a = seat_order b /\ label a = label b.
Proof.
  unfold same_slot. rewrite andb_true_iff, Z.eqb_eq, bool_decide_eq_true. reflexivity.
Qed.

Lemma NoDup_map_eq {A B} (f : A -> B) l x y :
  NoDup (map f l) -> In x l -> In y l -> f x = f y -> x = y.
Proof.
  induction l as [|a r IH]; cbn; [tauto|].
  intros Hnd Hx Hy Hf. inversion Hnd as [|? ? Hnot Hnd']; subst.
  destruct Hx as [<-|Hx], Hy as [<-|Hy]; auto.
  - exfalso. apply Hnot. apply list_elem_of_In. rewrite Hf. apply in_map, Hy.
  - exfalso. apply Hnot. apply list_elem_of_In. rewrite <- Hf. apply in_map, Hx.
Qed.

Lemma NoDup_map_inj_on {A B} (f : A -> B) l :
  NoDup l -> (forall x y, In x l -> In y l -> f x = f y -> x = y) -> NoDup (map f l).
Proof.
  induction 1 as [|a r Ha Hr IH]; intros Hinj; cbn; constructor.
  - rewrite list_elem_of_In. intros Hin. apply in_map_iff in Hin as (y & Hy & Hin).
    assert (y = a) as -> by (apply Hinj; cbn; auto).
    apply Ha, list_elem_of_In, Hin.
  - apply IH. intros x y Hx Hy. apply Hinj; cbn; auto.
Qed.

Lemma in_order_seats s oid k st :
  In (k, st) (order_seats s oid) <-> db_seats s !! k = Some st /\ seat_order st = oid.
Proof.
  rewrite <- list_elem_of_In, (order_seats_perm s oid), list_elem_of_filter, elem_of_map_to_list.
  cbn. tauto.
Qed.

Lemma labels_unique_slots s : labels_unique s <-> slots_unique (db_seats s).
Proof.
  split.
  - intros Hu k1 k2 st1 st2 H1 H2 Hs. apply same_slot_true in Hs as [Ho Hl].
    assert (Heq : (k1, st1) = (k2, st2)).
    { apply (NoDup_map_eq (fun kv : Z * seat => label kv.2) (order_seats s (seat_order st1))).
      - apply Hu.
      - apply in_order_seats. auto.
      - apply in_order_seats. auto.
      - exact Hl. }
    congruence.
  - intros Hsl oid. unfold order_labels. apply NoDup_map_inj_on.
    + rewrite order_seats_perm. apply NoDup_filter, NoDup_map_to_list.
    + intros [k1 st1] [k2 st2] H1 H2 Hl. cbn in Hl.
      apply in_order_seats in H1 as [H1 Ho1]. apply in_order_seats in H2 as [H2 Ho2].
      assert (k1 = k2) as <-.
      { apply (Hsl k1 k2 st1 st2 H1 H2), same_slot_true. split; congruence. }
      congruence.
Qed.

Lemma slots_unique_insert (m : gmap Z seat) i x :
  slots_unique m ->
  (forall k v, m !! k = Some v -> k <> i -> same_slot v x = false) ->
  slots_unique (<[i := x]> m).
Proof.
  intros Hu Hx k1 k2 st1 st2 H1 H2 Hs.
  destruct (decide (k1 = i)) as [->|N1], (decide (k2 = i)) as [->|N2]; auto.
  - rewrite lookup_insert_eq in H1. rewrite lookup_insert_ne in H2 by congruence.
    injection H1 as <-. rewrite same_slot_sym, (Hx k2 st2 H2 N2) in Hs. discriminate.
  - rewrite lookup_insert_eq in H2. rewrite lookup_insert_ne in H1 by congruence.
    injection H2 as <-. rewrite (Hx k1 st1 H1 N1) in Hs. discriminate.
  - rewrite lookup_insert_ne in H1, H2 by congruence. eauto.
Qed.

Lemma seat_conflicts_false s st :
  seat_conflicts s st = false ->
  forall k v, db_seats s !! k = Some v -> same_slot v st = false.
Proof.
  intros Hc k v Hk. apply not_true_is_false. intros Hs.
  assert (Hex : seat_conflicts s st = true).
  { apply existsb_exists. exists (k, v). split; [|exact Hs].
    apply list_elem_of_In, elem_of_map_to_list, Hk. }
  congruence.
Qed.

Lemma slots_unique_insert_seats next ss m :
  slots_unique m ->
  (forall st, In st ss -> forall k v, m !! k = Some v -> same_slot v st = false) ->
  batch_dup ss = false ->
  slots_unique (insert_seats next ss m).1.
Proof.
  revert next m. induction ss as [|x r IH]; intros next m Hu Hc Hd; cbn; [exact Hu|].
  cbn in Hd. apply orb_false_iff in Hd as [Hx Hr].
  apply IH; [| |exact Hr].
  - apply slots_unique_insert; [exact Hu|]. intros k v Hk _. eapply Hc; [left; reflexivity|exact Hk].
  - intros st Hst k v Hk. destruct (decide (k = next)) as [->|N].
    + rewrite lookup_insert_eq in Hk. injection Hk as <-.
      apply not_true_is_false. intros Hs. assert (Hex : existsb (same_slot x) r = true)
        by (apply existsb_exists; eauto). congruence.
    + rewrite lookup_insert_ne in Hk by congruence. eapply Hc; [right; exact Hst|exact Hk].
Qed.


Lemma keeps_ret {A} (a : A) : keeps (ret a).
Proof. intros s H. exact H. Qed.
Lemma keeps_throw {A} e : keeps (A:=A) (throw e).
Proof. intros s H. exact H. Qed.
Lemma keeps_gets {A} (f : db -> A) : keeps (gets f).
Proof. intros s H. exact H. Qed.
Lemma keeps_get_or_404 {A} (f : db -> gmap Z A) k : keeps (get_or_404 f k).
Proof. intros s H. unfold get_or_404. destruct k; [destruct (f s !! _)|]; exact H. Qed.
Lemma keeps_bind {A B} (m : M A) (k : A -> M B) :
  keeps m -> (forall a, keeps (k a)) -> keeps (bind m k).
Proof.
  intros Hm Hk s H. unfold bind. specialize (Hm s H).
  destruct (m s) as [[e|a] s'] eqn:E; cbn in *; [exact Hm|]. apply Hk, Hm.
Qed.
Lemma keeps_atomic {A} (m : M A) : keeps m -> keeps (atomic m).
Proof.
  intros Hm s H. unfold atomic. specialize (Hm s H).
  destruct (m s) as [[e|a] s'] eqn:E; cbn in *; assumption.
Qed.
Lemma keeps_staff_log sid a : keeps (staff_log sid a).
Proof. intros s H. unfold staff_log. by destruct (bool_decide _). Qed.
Lemma keeps_order_create o : keeps (order_create o).
Proof. intros s H. exact H. Qed.
Lemma keeps_py_int_m u x : keeps (py_int_m u x).
Proof. unfold py_int_m. destruct (py_int u x); [apply keeps_ret|apply keeps_throw]. Qed.
Lemma keeps_numeric_labels u ls : keeps (numeric_labels u ls).
Proof.
  induction ls as [|l r IH]; cbn; [apply keeps_ret|].
  destruct (py_isdigit u l); [|exact IH].
  apply keeps_bind; [apply keeps_py_int_m|intros n].
  apply keeps_bind; [exact IH|intros ns]. apply keeps_ret.
Qed.
Lemma keeps_bulk_create ss : keeps (bulk_create ss).
Proof.
  intros s H. unfold bulk_create.
  destruct (negb (forallb (label_fits s) ss)); [exact H|].
  destruct (existsb (seat_conflicts s) ss || batch_dup ss) eqn:E; [exact H|].
  apply orb_false_iff in E as [Ec Ed].
  destruct (insert_seats (db_next_id s) ss (db_seats s)) as [m n] eqn:Ei. cbn.
  replace m with (insert_seats (db_next_id s) ss (db_seats s)).1 by (rewrite Ei; reflexivity).
  apply slots_unique_insert_seats; [exact H| |exact Ed].
  intros st Hst. apply seat_conflicts_false.
  apply not_true_is_false. intros Hc.
  assert (existsb (seat_conflicts s) ss = true) by (apply existsb_exists; eauto). congruence.
Qed.
Lemma keeps_seat_create st : keeps (seat_create st).
Proof.
  intros s H. unfold seat_create.
  destruct (negb (label_fits s st)); [exact H|].
  destruct (seat_conflicts s st) eqn:E; [exact H|]. cbn.
  apply slots_unique_insert; [exact H|]. intros k v Hk _.
  exact (seat_conflicts_false s st E k v Hk).
Qed.

Create HintDb keeps_db.
#[local] Hint Resolve keeps_ret keeps_throw keeps_gets keeps_get_or_404 keeps_staff_log
  keeps_order_create keeps_py_int_m keeps_numeric_labels keeps_bulk_create
  keeps_seat_create : keeps_db.

Ltac keeps_step :=
  match goal with
  | |- keeps (bind _ _) => apply keeps_bind; [|intros ?]
  | |- keeps (atomic _) => apply keeps_atomic
  | |- keeps (match ?x with _ => _ end) => destruct x
  | |- keeps _ => solve [eauto with keeps_db]
  end.

Lemma start_order_keeps u tid post sess : keeps (start_order u tid post sess).
Proof.
  unfold start_order, staff_required, start_order_view.
  repeat (keeps_step || (progress (cbv beta iota))).
Qed.

Lemma add_seat_keeps u oid sess : keeps (add_seat u oid sess).
Proof.
  unfold add_seat. repeat (keeps_step || (progress (cbv beta iota))).
Qed.

Lemma join_order_with_keeps enl tid form sess :
  match enl with Some h => forall oid, keeps (h oid) | None => True end ->
  keeps (join_order_with enl tid form sess).
Proof.
  intros Henl. unfold join_order_with. cbv zeta.
  repeat (keeps_step || (progress (cbv beta iota))).
  all: destruct enl; [apply Henl|apply keeps_throw].
Qed.

Lemma existing_numeric_labels_spec_keeps u oid : keeps (existing_numeric_labels_spec u oid).
Proof.
  unfold existing_numeric_labels_spec. apply keeps_bind; [apply keeps_gets|intros ls].
  apply keeps_numeric_labels.
Qed.

Lemma lstrip_in c s : In c (lstrip s) -> In c s.
Proof.
  induction s as [|x r IH]; cbn; [tauto|].
  destruct (py_isspace x); [auto|tauto].
Qed.

Lemma py_strip_in c s : In c (py_strip s) -> In c s.
Proof.
  unfold py_strip. intros H.
  apply in_rev, lstrip_in, in_rev, lstrip_in in H. exact H.
Qed.

Lemma parse_digits_nonneg u acc us s n :
  ucd_wf u -> 0 <= acc -> parse_digits u acc us s = Some n -> 0 <= n.
Proof.
  intros [_ [Hdig _]]. revert acc us. induction s as [|c r IH]; intros acc us Ha; cbn.
  - destruct us; congruence.
  - destruct (c =? 95); [destruct us; [discriminate|apply IH; exact Ha]|].
    destruct (ucd_decimal u c) as [d|] eqn:Ed; [|discriminate].
    apply Hdig in Ed as [Hd _]. apply IH. lia.
Qed.

Lemma py_int_isdigit_nonneg u l n :
  ucd_wf u -> py_isdigit u l = true -> py_int u l = Some n -> 0 <= n.
Proof.
  intros Hu Hd. pose proof Hu as [_ [_ Hm]].
  assert (Hall : forall c, In c l -> ucd_isdigit u c = true).
  { intros c Hc. unfold py_isdigit in Hd. destruct l; [contradiction|].
    apply forallb_forall with (x := c) in Hd; assumption. }
  unfold py_int. destruct (py_strip l) as [|c r] eqn:Es; [discriminate|].
  assert (Hc : ucd_isdigit u c = true) by (apply Hall, (py_strip_in c l); rewrite Es; left; reflexivity).
  destruct (Z.eqb_spec c 45) as [->|_]; [congruence|].
  unfold parse_unsigned.
  destruct (c =? 43).
  - destruct r as [|c' r']; [discriminate|].
    destruct (c' =? 95); [discriminate|]. apply parse_digits_nonneg; [exact Hu|lia].
  - destruct (c =? 95); [discriminate|]. apply parse_digits_nonneg; [exact Hu|lia].
Qed.

Lemma numeric_labels_ok u ls s nums s' :
  numeric_labels u ls s = (inr nums, s') ->
  (forall l, In l ls -> py_isdigit u l = true -> exists n, py_int u l = Some n /\ In n nums) /\
  (forall n, In n nums -> exists l, In l ls /\ py_isdigit u l = true /\ py_int u l = Some n).
Proof.
  revert s nums s'. induction ls as [|l r IH]; intros s nums s' H; cbn in H.
  - injection H as <- _. split; cbn; tauto.
  - destruct (py_isdigit u l) eqn:Ed.
    + unfold bind, py_int_m in H. destruct (py_int u l) as [n|] eqn:En; cbn in H; [|discriminate].
      destruct (numeric_labels u r s) as [[e|ns] s''] eqn:Er; [discriminate|].
      cbn in H. injection H as <- _.
      destruct (IH _ _ _ Er) as [IH1 IH2]. split.
      * intros l' [<-|Hl'] Hd'; [exists n; split; [exact En|left; reflexivity]|].
        destruct (IH1 l' Hl' Hd') as (m & Hm & Hin). exists m. split; [exact Hm|right; exact Hin].
      * intros m [<-|Hm]; [exists l; split; [left; reflexivity|auto]|].
        destruct (IH2 m Hm) as (l' & Hl' & Hd' & Hi'). exists l'. split; [right; exact Hl'|auto].
    + destruct (IH _ _ _ H) as [IH1 IH2]. split.
      * intros l' [<-|Hl'] Hd'; [congruence|]. apply IH1; assumption.
      * intros m Hm. destruct (IH2 m Hm) as (l' & Hl' & Hd' & Hi'). exists l'. split; [right; exact Hl'|auto].
Qed.

Lemma max_default_ge nums n : In n nums -> n <= max_default nums.
Proof.
  destruct nums as [|x r]; cbn; [tauto|].
  assert (Hg : forall acc, acc <= fold_left Z.max r acc /\ forall y, In y r -> y <= fold_left Z.max r acc).
  { induction r as [|y r' IH]; intros acc; cbn; [split; [lia|tauto]|].
    destruct (IH (Z.max acc y)) as [H1 H2]. split; [lia|].
    intros z [<-|Hz]; [lia|auto]. }
  intros [<-|Hn]; [apply (proj1 (Hg x))|apply (proj2 (Hg x)), Hn].
Qed.

Lemma max_default_nonneg nums : (forall n, In n nums -> 0 <= n) -> 0 <= max_default nums.
Proof.
  destruct nums as [|x r]; cbn; [lia|]. intros H.
  pose proof (max_default_ge (x :: r) x (or_introl eq_refl)). cbn in H0. specialize (H x (or_introl eq_refl)). lia.
Qed.

Lemma auto_label_fresh u ls s nums s' :
  ucd_wf u -> numeric_labels u ls s = (inr nums, s') ->
  ~ In (py_str (max_default nums + 1)) ls.
Proof.
  intros Hu Hn Hin. destruct (numeric_labels_ok u ls s nums s' Hn) as [H1 H2].
  assert (Hnn : 0 <= max_default nums).
  { apply max_default_nonneg. intros m Hm. destruct (H2 m Hm) as (l & _ & Hd & Hi).
    exact (py_int_isdigit_nonneg u l m Hu Hd Hi). }
  destruct (H1 _ Hin) as (m & Hm & Hmin); [apply py_isdigit_py_str; [exact Hu|lia]|].
  rewrite py_int_py_str in Hm by exact Hu. injection Hm as <-.
  apply max_default_ge in Hmin. lia.
Qed.


Lemma bulk_no_collision s oid staff is :
  existsb (seat_conflicts s) (seats_for oid staff is) = false ->
  forall i, In i is -> ~ In (py_str i) (order_labels s oid).
Proof.
  intros Ec i Hi Hl. unfold order_labels in Hl. apply in_map_iff in Hl as ([k st] & Hlab & Hin).
  apply in_order_seats in Hin as [Hk Ho]. cbn in Hlab.
  assert (Hc : seat_conflicts s (mkSeat oid (py_str i) staff) = true).
  { apply existsb_exists. exists (k, st). split.
    - apply list_elem_of_In, elem_of_map_to_list, Hk.
    - apply same_slot_true. cbn. auto. }
  assert (existsb (seat_conflicts s) (seats_for oid staff is) = true) as Hex.
  { apply existsb_exists. exists (mkSeat oid (py_str i) staff). split; [|exact Hc].
    unfold seats_for. apply in_map_iff. eauto. }
  congruence.
Qed.

Lemma join_explicit_no_collision (h : Z -> M (list Z)) tid form sess s a b n oid o :
  (forall x, read_only (h x)) ->
  first_open_order s tid = Some (oid, o) ->
  fst (join_order_with (Some h) tid form sess s)
    = inr (Redirect (PTableDetail tid (Some (a, b))) (MsgSeatsAdded n)) ->
  forall i, In i (zrange a b) -> ~ In (py_str i) (order_labels s oid).
Proof.
  intros Hro Hopen H.
  unfold join_order_with, bind, get_or_404, gets in H. cbv zeta in H.
  destruct (db_tables s !! tid); [|discriminate]. cbn in H. rewrite Hopen in H.
  destruct (start_order_form_clean form) as [[[count ms] me]|]; [|discriminate].
  unfold ret, throw in H.
  destruct (truthy_id sess); [destruct (bool_decide (default 0 sess ∈ db_staff s))|];
    cbv beta iota in H; try discriminate.
  all: destruct ms as [a0|], me as [b0|];
    try (destruct (h oid s) as [[e|occ] s1]; [discriminate|];
         unfold bulk_create in H;
         repeat match type of H with context [if ?x then _ else _] => destruct x end;
         cbn in H; try discriminate;
         destruct (insert_seats _ _ _); discriminate).
  all: pose proof (Hro oid s) as Hs1.
  all: destruct (h oid s) as [[e|occ] s1]; [discriminate|]; cbn in Hs1; subst s1.
  all: destruct (filter _ (zrange a0 b0)) eqn:Eov; [|discriminate].
  all: unfold bulk_create in H.
  all: destruct (negb (forallb _ _)); [discriminate|].
  all: destruct (existsb _ _ || batch_dup _) eqn:Ec; [discriminate|].
  all: apply orb_false_iff in Ec as [Ec _].
  all: destruct (insert_seats _ _ _); cbn in H; injection H as -> -> _.
  all: eapply bulk_no_collision; exact Ec.
Qed.

Lemma existing_numeric_labels_spec_read_only u oid : read_only (existing_numeric_labels_spec u oid).
Proof.
  intros s. unfold existing_numeric_labels_spec, bind, gets. cbn.
  generalize (order_labels s oid) as ls. induction ls as [|l r IH]; cbn; [reflexivity|].
  destruct (py_isdigit u l); [|apply IH].
  unfold bind, py_int_m. destruct (py_int u l); cbn; [|reflexivity].
  pose proof IH as IH'. destruct (numeric_labels u r s) as [[e|ns] s'] eqn:E; cbn in *; congruence.
Qed.

Lemma keeps_labels_unique {A} (m : M A) s : keeps m -> labels_unique s -> labels_unique (snd (m s)).
Proof. intros Hk Hu. apply labels_unique_slots, Hk, labels_unique_slots, Hu. Qed.

(** C5: the labels of the seats of each order stay pairwise distinct:
    [start_order], [add_seat] and [join_order] (as shipped, and with the
    [existing_numeric_labels] helper the spec describes) keep the
    invariant, whatever the request; the auto-label
    [str(max(numeric labels, default 0) + 1)] of [add_seat] is never an
    existing label of the order; and a successful explicit-range
    [join_order] adds only labels [str(i)], [i] in the range, that no
    seat of the order had. *)
Theorem seat_labels_stay_unique :
  (forall u tid post sess s,
     labels_unique s -> labels_unique (snd (start_order u tid post sess s))) /\
  (forall u oid sess s,
     labels_unique s -> labels_unique (snd (add_seat u oid sess s))) /\
  (forall u oid s nums s', ucd_wf u ->
     numeric_labels u (order_labels s oid) s = (inr nums, s') ->
     ~ In (py_str (max_default nums + 1)) (order_labels s oid)) /\
  (forall tid form sess s,
     labels_unique s -> labels_unique (snd (join_order tid form sess s))) /\
  (forall u tid form sess s, labels_unique s ->
     labels_unique (snd (join_order_with (Some (existing_numeric_labels_spec u)) tid form sess s))) /\
  (forall u tid form sess s a b n oid o,
     first_open_order s tid = Some (oid, o) ->
     fst (join_order_with (Some (existing_numeric_labels_spec u)) tid form sess s)
       = inr (Redirect (PTableDetail tid (Some (a, b))) (MsgSeatsAdded n)) ->
     forall i, In i (zrange a b) -> ~ In (py_str i) (order_labels s oid)).
Proof.
  split; [intros; apply keeps_labels_unique; [apply start_order_keeps|assumption]|].
  split; [intros; apply keeps_labels_unique; [apply add_seat_keeps|assumption]|].
  split; [intros u oid s nums s' Hu Hn; exact (auto_label_fresh u _ s nums s' Hu Hn)|].
  split; [intros; apply keeps_labels_unique; [apply join_order_with_keeps; exact I|assumption]|].
  split.
  - intros. apply keeps_labels_unique; [|assumption].
    apply join_order_with_keeps. apply existing_numeric_labels_spec_keeps.
  - intros u tid form sess s a b n oid o Hopen Hres.
    exact (join_explicit_no_collision _ tid form sess s a b n oid o
             (existing_numeric_labels_spec_read_only u) Hopen Hres).
Qed.

(** On order 1000 with seats "1", "3", "5" the auto-label is "6", not an
    existing label; joining seats 3..4 of the order with seats "1", "2"
    adds labels the order did not have. *)
Lemma seat_labels_stay_unique_witness :
  numeric_labels ucd0 (order_labels (db_order_with [s2z "1"; s2z "3"; s2z "5"]) 1000)
    (db_order_with [s2z "1"; s2z "3"; s2z "5"])
  = (inr [1; 3; 5], db_order_with [s2z "1"; s2z "3"; s2z "5"]) /\
  ~ In (py_str (max_default [1; 3; 5] + 1))
       (order_labels (db_order_with [s2z "1"; s2z "3"; s2z "5"]) 1000) /\
  first_open_order (db_order_with [s2z "1"; s2z "2"]) 1 = Some (1000, mkOrder 1 None (Some 7) false) /\
  fst (join_order_with (Some (existing_numeric_labels_spec ucd0)) 1
         (mkStartOrderForm FieldEmpty (FieldInt 3) (FieldInt 4)) (Some 7)
         (db_order_with [s2z "1"; s2z "2"]))
  = inr (Redirect (PTableDetail 1 (Some (3, 4))) (MsgSeatsAdded 2)) /\
  (forall i, In i (zrange 3 4) ->
     ~ In (py_str i) (order_labels (db_order_with [s2z "1"; s2z "2"]) 1000)).
Proof.
  assert (H1 : numeric_labels ucd0 (order_labels (db_order_with [s2z "1"; s2z "3"; s2z "5"]) 1000)
                 (db_order_with [s2z "1"; s2z "3"; s2z "5"])
               = (inr [1; 3; 5], db_order_with [s2z "1"; s2z "3"; s2z "5"]))
    by (vm_compute; reflexivity).
  assert (H2 : first_open_order (db_order_with [s2z "1"; s2z "2"]) 1
               = Some (1000, mkOrder 1 None (Some 7) false))
    by (vm_compute; reflexivity).
  assert (H3 : fst (join_order_with (Some (existing_numeric_labels_spec ucd0)) 1
                      (mkStartOrderForm FieldEmpty (FieldInt 3) (FieldInt 4)) (Some 7)
                      (db_order_with [s2z "1"; s2z "2"]))
               = inr (Redirect (PTableDetail 1 (Some (3, 4))) (MsgSeatsAdded 2)))
    by (vm_compute; reflexivity).
  destruct seat_labels_stay_unique as (_ & _ & P3 & _ & _ & P6).
  exact (conj H1 (conj (P3 ucd0 1000 _ [1; 3; 5] _ ucd0_wf H1)
           (conj H2 (conj H3 (P6 ucd0 1 _ (Some 7) _ 3 4 2%nat 1000 _ H2 H3))))).
Defined.

(* ================================================================== *)
(** * Further properties of the views, forms and login *)

Lemma refs_okb_sound s : refs_okb s = true -> refs_ok s.
Proof.
  unfold refs_okb. intros H. apply andb_true_iff in H as [H H3]. apply andb_true_iff in H as [H1 H2].
  rewrite forallb_forall in H1, H2, H3.
  repeat split.
  - intros k sel Hk. apply (bool_decide_eq_true_1 _ (H1 (k, sel) (proj1 (list_elem_of_In _ _) (proj2 (elem_of_map_to_list _ _ _) Hk)))).
  - intros k st Hk. apply (bool_decide_eq_true_1 _ (H2 (k, st) (proj1 (list_elem_of_In _ _) (proj2 (elem_of_map_to_list _ _ _) Hk)))).
  - intros k o Hk. apply (bool_decide_eq_true_1 _ (H3 (k, o) (proj1 (list_elem_of_In _ _) (proj2 (elem_of_map_to_list _ _ _) Hk)))).
Qed.

Lemma wp_bind {A B} E (m : M A) (k : A -> M B) Q s :
  wp E (bind m k) Q s = wp E m (fun a s' => wp E (k a) Q s') s.
Proof. unfold wp, bind. destruct (m s) as [[e|a] s']; reflexivity. Qed.

Lemma wp_ret {A} E (a : A) Q s : wp E (ret a) Q s = Q a s.
Proof. reflexivity. Qed.

Lemma wp_throw {A} E e (Q : A -> db -> Prop) s : wp E (throw e) Q s = E s.
Proof. reflexivity. Qed.

Lemma wp_gets {A} E (f : db -> A) Q s : wp E (gets f) Q s = Q (f s) s.
Proof. reflexivity. Qed.

Lemma wp_modify E f Q s : wp E (modify f) Q s = Q tt (f s).
Proof. reflexivity. Qed.

Lemma wp_get_or_404 {A} E (f : db -> gmap Z A) k Q s :
  E s -> (forall k' a, k = Some k' -> f s !! k' = Some a -> Q (k', a) s) ->
  wp E (get_or_404 f k) Q s.
Proof.
  intros HE HQ. unfold wp, get_or_404. destruct k as [k'|]; [|exact HE].
  destruct (f s !! k') eqn:Hk; [apply HQ; auto | exact HE].
Qed.

Lemma wp_mono {A} E (m : M A) (Q Q' : A -> db -> Prop) s :
  (forall a s', Q a s' -> Q' a s') -> wp E m Q s -> wp E m Q' s.
Proof. unfold wp. destruct (m s) as [[e|a] s']; auto. Qed.

Lemma wp_atomic {A} E (m : M A) Q s :
  E s -> wp E m Q s -> wp E (atomic m) Q s.
Proof. unfold wp, atomic. destruct (m s) as [[e|a] s']; auto. Qed.

Lemma wp_snd {A} E (m : M A) s : wp E m (fun _ => E) s -> E (snd (m s)).
Proof. unfold wp. destruct (m s) as [[e|a] s']; auto. Qed.

Lemma wp_bind_inv {A B} E (m : M A) (k : A -> M B) Q s :
  E (snd (m s)) -> (forall a s', m s = (inr a, s') -> E s' -> wp E (k a) Q s') ->
  wp E (bind m k) Q s.
Proof.
  intros HE Hk. unfold wp, bind. destruct (m s) as [[e|a] s'] eqn:Hm; cbn in *; [exact HE|].
  exact (Hk a s' eq_refl HE).
Qed.

Lemma wp_get_related {A} E (f : db -> gmap Z A) k Q s :
  E s -> (forall a, f s !! k = Some a -> Q a s) -> wp E (get_related f k) Q s.
Proof. intros HE HQ. unfold wp, get_related. destruct (f s !! k) eqn:Hk; auto. Qed.

Lemma wp_staff_log E sid a Q s :
  E s -> Q tt (set_log (db_log s ++ [(sid, a)]) s) -> wp E (staff_log sid a) Q s.
Proof. intros HE HQ. unfold wp, staff_log. by destruct (bool_decide _). Qed.

Lemma wp_save_selection E k sel Q s :
  E s -> Q tt (set_selections (<[k := sel]> (db_selections s)) s) ->
  wp E (save_selection k sel) Q s.
Proof. intros HE HQ. unfold wp, save_selection. by destruct (fits_max _ _ _). Qed.

(** The lookups, checks and audit entry after the save in [move_selection]. *)
Ltac run_log_block :=
  repeat (match goal with
          | |- context [match ?m !! ?k with _ => _ end] => destruct (m !! k)
          | |- context [if negb ?b then _ else _] => destruct b
          | |- context [if bool_decide ?P then _ else _] => destruct (bool_decide P)
          end; cbn).

Lemma refs_sel_delete s k : refs_ok s -> refs_ok (set_selections (delete k (db_selections s)) s).
Proof.
  intros (H1 & H2 & H3). split; [|split]; cbn; auto.
  intros j sel Hj. apply lookup_delete_Some in Hj as [_ Hj]. eauto.
Qed.

Lemma refs_sel_insert s k sel : refs_ok s -> is_Some (db_seats s !! sel_seat sel) ->
  refs_ok (set_selections (<[k := sel]> (db_selections s)) s).
Proof.
  intros (H1 & H2 & H3) Hs. split; [|split]; cbn; auto.
  intros j sel' Hj. apply lookup_insert_Some in Hj as [[<- <-]|[_ Hj]]; eauto.
Qed.

Lemma refs_sel_alter s k f : refs_ok s -> (forall x, sel_seat (f x) = sel_seat x) ->
  refs_ok (set_selections (alter f k (db_selections s)) s).
Proof.
  intros (H1 & H2 & H3) Hf. split; [|split]; cbn; auto.
  intros j sel' Hj. apply lookup_alter_Some in Hj as [(_ & x & Hx & ->)|[_ Hj]]; [rewrite Hf|]; eauto.
Qed.

Lemma refs_delete_seat s k : refs_ok s -> refs_ok (snd (delete_seat k s)).
Proof.
  intros (H1 & H2 & H3). split; [|split]; cbn; auto.
  - intros j sel Hj. apply map_lookup_filter_Some in Hj as [Hj Hne]. cbn in Hne.
    rewrite lookup_delete_ne by congruence. eauto.
  - intros j st Hj. apply lookup_delete_Some in Hj as [_ Hj]. eauto.
Qed.

Lemma refs_delete_order s k : refs_ok s -> refs_ok (snd (delete_order k s)).
Proof.
  intros (H1 & H2 & H3). split; [|split]; cbn.
  - intros j sel Hj. apply map_lookup_filter_Some in Hj as [Hj Hgone]. cbn in Hgone.
    destruct (H1 _ _ Hj) as [st Hst].
    exists st. apply map_lookup_filter_Some. split; [exact Hst|]. cbn.
    intros Heq. rewrite map_lookup_filter in Hgone. rewrite Hst in Hgone. cbn in Hgone.
    rewrite option_guard_True in Hgone by exact Heq. discriminate.
  - intros j st Hj. apply map_lookup_filter_Some in Hj as [Hj Hne]. cbn in Hne.
    rewrite lookup_delete_ne by congruence. eauto.
  - intros j o Hj. apply lookup_delete_Some in Hj as [_ Hj]. eauto.
Qed.

Lemma insert_seats_keeps next ss m k :
  is_Some (m !! k) -> is_Some ((insert_seats next ss m).1 !! k).
Proof.
  revert next m. induction ss as [|x r IH]; intros next m Hk; cbn; [exact Hk|].
  apply IH. destruct (decide (k = next)) as [->|Hne].
  - rewrite lookup_insert_eq. eauto.
  - rewrite lookup_insert_ne by congruence. exact Hk.
Qed.

Lemma refs_insert_seats s next ss :
  refs_ok s -> Forall (fun st => is_Some (db_orders s !! seat_order st)) ss ->
  refs_ok (set_seats (insert_seats next ss (db_seats s)).1 s).
Proof.
  intros (H1 & H2 & H3) Hss. split; [|split]; cbn; auto.
  - intros j sel Hj. apply insert_seats_keeps. eauto.
  - intros j st Hj. apply insert_seats_new in Hj as [Hj|Hj]; [eauto|].
    rewrite Forall_forall in Hss. apply Hss, list_elem_of_In, Hj.
Qed.

Lemma refs_bulk_create s ss :
  refs_ok s -> Forall (fun st => is_Some (db_orders s !! seat_order st)) ss ->
  refs_ok (snd (bulk_create ss s)).
Proof.
  intros Hs Hss. unfold bulk_create.
  destruct (negb _); [exact Hs|]. destruct (_ || _); [exact Hs|].
  pose proof (refs_insert_seats s (db_next_id s) ss Hs Hss) as Hr.
  destruct (insert_seats _ _ _) as [m n]. exact Hr.
Qed.

Lemma refs_seat_create s st :
  refs_ok s -> is_Some (db_orders s !! seat_order st) -> refs_ok (snd (seat_create st s)).
Proof.
  intros Hs Hst. unfold seat_create.
  destruct (negb _); [exact Hs|]. destruct (seat_conflicts _ _); [exact Hs|].
  apply (refs_insert_seats s (db_next_id s) [st] Hs). constructor; auto.
Qed.

Lemma refs_log s l : refs_ok s -> refs_ok (set_log l s).
Proof. exact id. Qed.

Lemma refs_next s n : refs_ok s -> refs_ok (set_next_id n s).
Proof. exact id. Qed.

Lemma remove_selection_refs k sess s : refs_ok s -> refs_ok (snd (remove_selection k sess s)).
Proof.
  intros Hs. apply wp_snd. unfold remove_selection.
  rewrite wp_bind. apply wp_get_or_404; [exact Hs|]. intros k' sel _ _. cbv beta.
  rewrite wp_bind. apply wp_get_or_404; [exact Hs|]. intros k2 st _ _. cbv beta.
  rewrite wp_bind. apply wp_get_or_404; [exact Hs|]. intros k3 o _ _. cbv beta.
  rewrite wp_bind, wp_modify, wp_ret. by apply refs_sel_delete.
Qed.

Lemma remove_seat_refs k sess s : refs_ok s -> refs_ok (snd (remove_seat k sess s)).
Proof.
  intros Hs. apply wp_snd. unfold remove_seat.
  rewrite wp_bind. apply wp_get_or_404; [exact Hs|]. intros k' st _ _. cbv beta.
  rewrite wp_bind. apply wp_get_or_404; [exact Hs|]. intros k2 o _ _. cbv beta.
  rewrite wp_bind. unfold delete_seat. rewrite wp_modify, wp_ret.
  apply (refs_delete_seat s k' Hs).
Qed.

Lemma close_order_refs k sess s : refs_ok s -> refs_ok (snd (close_order k sess s)).
Proof.
  intros Hs. apply wp_snd. unfold close_order.
  rewrite wp_bind. apply wp_get_or_404; [exact Hs|]. intros k' o _ _. cbv beta.
  rewrite wp_bind. apply wp_get_related; [exact Hs|]. intros tb _. cbv beta.
  rewrite wp_bind.
  destruct sess as [sid|]; [destruct (truthy_id (Some sid))|];
    [apply wp_staff_log; [exact Hs|] | rewrite wp_ret | rewrite wp_ret]; cbv beta;
    unfold delete_order; rewrite wp_bind, wp_modify, wp_ret; exact (refs_delete_order s k' Hs).
Qed.

Lemma move_selection_refs a b sess s : refs_ok s -> refs_ok (snd (move_selection a b sess s)).
Proof.
  intros Hs. unfold move_selection, bind, get_or_404, save_selection, get_related, gets,
    throw, staff_log, ret.
  destruct a as [sk|], b as [tk|]; try exact Hs.
  destruct (db_selections s !! sk) as [sel|]; cbn; [|exact Hs].
  destruct (db_seats s !! tk) as [ts|] eqn:Hts; cbn; [|exact Hs].
  destruct (fits_max s 200 (notes sel)); cbn; [|exact Hs].
  assert (Hs1 : refs_ok (set_selections (<[sk := mkSel tk (sel_item sel) (notes sel)
                   (modifiers sel) (temperatures sel)]> (db_selections s)) s)).
  { apply refs_sel_insert; [exact Hs|]. cbn. rewrite Hts. eauto. }
  destruct sess as [sid|]; [destruct (truthy_id (Some sid))|]; cbn; try exact Hs1.
  run_log_block; exact Hs1.
Qed.

Lemma wp_read_only {A} E (m : M A) Q s :
  read_only m -> E s -> (forall a, Q a s) -> wp E m Q s.
Proof.
  intros Hro HE HQ. unfold wp. specialize (Hro s).
  destruct (m s) as [[e|a] s'] eqn:Hm; cbn in Hro; subst s'; auto.
Qed.

Lemma wp_then_ret {A B} E (m : M A) (f : A -> B) s :
  E (snd (m s)) -> wp E (bind m (fun a => ret (f a))) (fun _ => E) s.
Proof. unfold wp, bind. destruct (m s) as [[e|a] s']; auto. Qed.

Lemma numeric_labels_read_only u ls : read_only (numeric_labels u ls).
Proof.
  intros s. induction ls as [|l r IH]; cbn; [reflexivity|].
  destruct (py_isdigit u l); [|apply IH].
  unfold bind, py_int_m. destruct (py_int u l); cbn; [|reflexivity].
  destruct (numeric_labels u r s) as [[e|ns] s'] eqn:E; cbn in *; congruence.
Qed.

Lemma py_int_m_read_only u x : read_only (py_int_m u x).
Proof. intros s. unfold py_int_m. destruct (py_int u x); reflexivity. Qed.

Lemma add_seat_refs u k sess s : refs_ok s -> refs_ok (snd (add_seat u k sess s)).
Proof.
  intros Hs. apply wp_snd. unfold add_seat.
  rewrite wp_bind. apply wp_get_or_404; [exact Hs|]. intros k' o _ Ho. cbv beta iota.
  rewrite wp_bind, wp_gets, wp_bind.
  apply wp_read_only; [apply numeric_labels_read_only|exact Hs|]. intros nums.
  apply wp_then_ret. apply refs_seat_create; [exact Hs|]. cbn. rewrite Ho. eauto.
Qed.

Lemma get_or_create_selection_refs sid iid nts (Q : (Z * seat_selection) * bool -> db -> Prop) s :
  refs_ok s -> is_Some (db_seats s !! sid) ->
  (forall k sel created s', refs_ok s' -> db_selections s' !! k = Some sel -> Q ((k, sel), created) s') ->
  wp refs_ok (get_or_create_selection sid iid nts) Q s.
Proof.
  intros Hs Hsid HQ. unfold get_or_create_selection.
  rewrite wp_bind, wp_gets.
  destruct (filter _ _) as [|[k sel] [|kv2 r]] eqn:Hf.
  - rewrite wp_bind, wp_gets. destruct (negb _); [rewrite wp_throw; exact Hs|].
    rewrite wp_bind. unfold fresh_id, wp at 1. cbn [fst snd].
    rewrite wp_bind, wp_modify, wp_ret. apply HQ.
    + apply refs_sel_insert; [exact Hs|exact Hsid].
    + cbn. apply lookup_insert_eq.
  - rewrite wp_ret. apply HQ; [exact Hs|].
    assert (Hin : (k, sel) ∈ filter (fun kv : Z * seat_selection => sel_seat kv.2 = sid /\ sel_item kv.2 = iid)
                     (map_to_list (db_selections s))) by (rewrite Hf; left).
    apply list_elem_of_filter in Hin as [_ Hin]. apply elem_of_map_to_list in Hin. exact Hin.
  - rewrite wp_throw. exact Hs.
Qed.

Lemma add_selection_refs post sess s : refs_ok s -> refs_ok (snd (add_selection post sess s)).
Proof.
  intros Hs. apply wp_snd. unfold add_selection.
  rewrite wp_bind. apply wp_get_or_404; [exact Hs|]. intros sk st _ Hst. cbv beta.
  rewrite wp_bind, wp_gets. destruct (negb _); [rewrite wp_throw; exact Hs|].
  rewrite wp_bind. apply get_or_create_selection_refs; [exact Hs|cbn; rewrite Hst; eauto|].
  intros k sel created s1 Hs1 Hk. cbv beta iota.
  apply wp_bind_inv.
  { destruct (negb created && _); [|exact Hs1].
    unfold save_selection. destruct (fits_max _ _ _); [|exact Hs1].
    apply refs_sel_insert; [exact Hs1|].
    cbn. destruct Hs1 as (H1 & _). exact (H1 _ _ Hk). }
  intros [] s2 _ Hs2.
  rewrite wp_bind.
  assert (Hmods : exists s3, refs_ok s3 /\
    (match ap_modifier_ids post with [] => ret tt | ids => add_modifiers k ids end) s2 = (inr tt, s3)).
  { destruct (ap_modifier_ids post); eexists; (split; [|reflexivity]); [exact Hs2|].
    apply refs_sel_alter; [exact Hs2|reflexivity]. }
  destruct Hmods as (s3 & Hs3 & Hrun3). unfold wp at 1. rewrite Hrun3.
  rewrite wp_bind.
  assert (Htemps : exists s4, refs_ok s4 /\
    (match ap_temperature_ids post with [] => ret tt | ids => add_temperatures k ids end) s3 = (inr tt, s4)).
  { destruct (ap_temperature_ids post); eexists; (split; [|reflexivity]); [exact Hs3|].
    apply refs_sel_alter; [exact Hs3|reflexivity]. }
  destruct Htemps as (s4 & Hs4 & Hrun4). unfold wp at 1. rewrite Hrun4.
  rewrite wp_bind. apply wp_get_or_404; [exact Hs4|]. intros ok o _ _. exact Hs4.
Qed.

Lemma refs_staff_log sid a s : refs_ok s -> refs_ok (snd (staff_log sid a s)).
Proof. intros Hs. unfold staff_log. by destruct (bool_decide _). Qed.

Lemma start_order_refs u tid post sess s : refs_ok s -> refs_ok (snd (start_order u tid post sess s)).
Proof.
  intros Hs. apply wp_snd. unfold start_order, staff_required.
  destruct (truthy_id sess); [|exact Hs].
  unfold start_order_view.
  rewrite wp_bind. apply wp_get_or_404; [exact Hs|]. intros t tbl [= <-] Htbl. cbv beta iota.
  destruct sess as [sid|]; [|exact Hs].
  destruct (negb (truthy_id (Some sid))); [exact Hs|].
  rewrite wp_bind, wp_gets. destruct (negb _); [exact Hs|].
  rewrite wp_bind. apply wp_read_only; [destruct (sp_seat_count post); [apply py_int_m_read_only|intros ?; reflexivity]|exact Hs|].
  intros cnt.
  lazymatch goal with |- wp _ (match ?r with inl _ => _ | inr _ => _ end) _ _ =>
    destruct r as [_|rng]; [exact Hs|] end.
  rewrite wp_bind. apply wp_atomic; [exact Hs|].
  rewrite wp_bind. unfold order_create, wp at 1. cbn [fst snd].
  rewrite wp_bind. unfold wp at 1.
  match goal with |- context [bulk_create ?ss ?s1] =>
    assert (Hb : refs_ok (snd (bulk_create ss s1))) end.
  { apply refs_bulk_create.
    - split; [|split]; cbn.
      + destruct Hs as (H1 & _). exact H1.
      + intros k st Hk. destruct Hs as (_ & H2 & _).
        destruct (decide (seat_order st = db_next_id s)) as [->|Hne].
        * rewrite lookup_insert_eq. eauto.
        * rewrite lookup_insert_ne by congruence. eauto.
      + intros k o Hk. destruct Hs as (_ & _ & H3).
        apply lookup_insert_Some in Hk as [[_ <-]|[_ Hk]]; [cbn; rewrite Htbl; eauto|eauto].
    - apply Forall_forall. intros st Hst.
      assert (seat_order st = db_next_id s) as ->.
      { destruct rng as [[a b]|]; unfold seats_for in Hst; apply list_elem_of_In, in_map_iff in Hst as (i & <- & _); reflexivity. }
      cbn. rewrite lookup_insert_eq. eauto. }
  destruct (bulk_create _ _) as [r s2]. destruct r as [e|[]]; [exact Hb|].
  rewrite wp_ret. cbv beta iota. rewrite wp_bind. by apply wp_staff_log.
Qed.

Lemma first_open_order_list (tid : Z) (l : list (Z * order)) :
  match fold_right
    (fun (kv : Z * order) acc =>
       if (ord_table kv.2 =? tid) && negb (printed kv.2) then
         match acc with
         | Some (k', _) => if k' <? kv.1 then Some kv else acc
         | None => Some kv
         end
       else acc) None l with
  | Some (k, o) =>
      In (k, o) l /\ ord_table o = tid /\ printed o = false /\
      forall k' o', In (k', o') l -> ord_table o' = tid -> printed o' = false -> k' <= k
  | None => forall k' o', In (k', o') l -> ord_table o' = tid -> printed o' = true
  end.
Proof.
  induction l as [|[k o] r IH]; cbn; [tauto|].
  destruct ((ord_table o =? tid) && negb (printed o)) eqn:Hm.
  - apply andb_true_iff in Hm as [Ht Hp]. apply Z.eqb_eq in Ht. apply negb_true_iff in Hp.
    destruct (fold_right _ None r) as [[k1 o1]|] eqn:Hf.
    + destruct IH as (Hin & Ht1 & Hp1 & Hmax).
      destruct (Z.ltb_spec k1 k).
      * split; [left; reflexivity|]. split; [exact Ht|]. split; [exact Hp|].
        intros k' o' [[= <- <-]|Hin'] Ht' Hp'; [lia|]. specialize (Hmax _ _ Hin' Ht' Hp'). lia.
      * split; [right; exact Hin|]. split; [exact Ht1|]. split; [exact Hp1|].
        intros k' o' [[= <- <-]|Hin'] Ht' Hp'; [lia|]. exact (Hmax _ _ Hin' Ht' Hp').
    + split; [left; reflexivity|]. split; [exact Ht|]. split; [exact Hp|].
      intros k' o' [[= <- <-]|Hin'] Ht' Hp'; [lia|]. rewrite (IH _ _ Hin' Ht') in Hp'. discriminate.
  - destruct (fold_right _ None r) as [[k1 o1]|] eqn:Hf.
    + destruct IH as (Hin & Ht1 & Hp1 & Hmax).
      split; [right; exact Hin|]. split; [exact Ht1|]. split; [exact Hp1|].
      intros k' o' [[= <- <-]|Hin'] Ht' Hp'.
      * rewrite Ht', Z.eqb_refl, Hp' in Hm. discriminate.
      * exact (Hmax _ _ Hin' Ht' Hp').
    + intros k' o' [[= <- <-]|Hin'] Ht'.
      * rewrite Ht', Z.eqb_refl in Hm. destruct (printed o); [reflexivity|discriminate].
      * exact (IH _ _ Hin' Ht').
Qed.

Lemma first_open_order_spec (s : db) (tid : Z) :
  match first_open_order s tid with
  | Some (k, o) =>
      db_orders s !! k = Some o /\ ord_table o = tid /\ printed o = false /\
      forall k' o', db_orders s !! k' = Some o' -> ord_table o' = tid -> printed o' = false -> k' <= k
  | None => forall k' o', db_orders s !! k' = Some o' -> ord_table o' = tid -> printed o' = true
  end.
Proof.
  pose proof (first_open_order_list tid (map_to_list (db_orders s))) as H.
  unfold first_open_order. destruct (fold_right _ _ _) as [[k o]|].
  - destruct H as (Hin & Ht & Hp & Hmax).
    split; [apply elem_of_map_to_list, list_elem_of_In, Hin|].
    split; [exact Ht|]. split; [exact Hp|].
    intros k' o' Hk'. apply (Hmax k' o'). apply list_elem_of_In, elem_of_map_to_list, Hk'.
  - intros k' o' Hk'. apply (H k' o'). apply list_elem_of_In, elem_of_map_to_list, Hk'.
Qed.

Lemma join_order_with_refs enl tid form sess s :
  (forall h oid, enl = Some h -> read_only (h oid)) -> refs_ok s ->
  refs_ok (snd (join_order_with enl tid form sess s)).
Proof.
  intros Henl Hs. apply wp_snd. unfold join_order_with.
  rewrite wp_bind. apply wp_get_or_404; [exact Hs|]. intros t tbl _ _. cbv beta.
  rewrite wp_bind, wp_gets.
  pose proof (first_open_order_spec s tid) as Hnew.
  destruct (first_open_order s tid) as [[oid o]|]; [|exact Hs].
  destruct Hnew as (Hoid & _).
  destruct (start_order_form_clean form) as [[[count a] b]|]; [|exact Hs].
  assert (Hcall : forall oid', read_only (match enl with Some h => h oid' | None => throw NameError end)).
  { intros oid'. destruct enl as [h|]; [exact (Henl h oid' eq_refl)|intros ?; reflexivity]. }
  rewrite wp_bind. apply wp_read_only; [|exact Hs|].
  { destruct (truthy_id sess); [|intros ?; reflexivity].
    intros s'. unfold bind, gets. cbn. destruct (bool_decide _); reflexivity. }
  intros staff.
  assert (Hbulk : forall is, refs_ok (snd (bulk_create (seats_for oid staff is) s))).
  { intros is. apply refs_bulk_create; [exact Hs|]. apply Forall_forall.
    intros st Hst. unfold seats_for in Hst. apply list_elem_of_In, in_map_iff in Hst as (i & <- & _).
    cbn. rewrite Hoid. eauto. }
  destruct a as [a|], b as [b|];
    rewrite wp_bind; apply wp_read_only; try apply Hcall; try exact Hs; intros occ;
    try (destruct (filter _ _) as [|? ?]; [|exact Hs]);
    apply wp_then_ret; apply Hbulk.
Qed.

Lemma join_order_refs tid form sess s : refs_ok s -> refs_ok (snd (join_order tid form sess s)).
Proof. apply join_order_with_refs. discriminate. Qed.

(** X1: [remove_selection] on a missing id answers 404 and changes
    nothing; on an existing selection it deletes exactly that selection
    (no seat, order, log entry or other selection changes) and redirects
    to the table page of the selection's order. *)
Theorem remove_selection_deletes_only_it (k : Z) (sess : session) (s : db) :
  refs_ok s ->
  match db_selections s !! k with
  | None => remove_selection k sess s = (inl Http404, s)
  | Some sel => exists st o,
      db_seats s !! sel_seat sel = Some st /\ db_orders s !! seat_order st = Some o /\
      remove_selection k sess s =
        (inr (Redirect (PTableDetail (ord_table o) None) MsgSelectionRemoved),
         set_selections (delete k (db_selections s)) s)
  end.
Proof.
  intros (H1 & H2 & _). unfold remove_selection, bind, get_or_404.
  destruct (db_selections s !! k) as [sel|] eqn:Hk; [|reflexivity].
  destruct (H1 _ _ Hk) as [st Hst]. destruct (H2 _ _ Hst) as [o Ho].
  exists st, o. split; [exact Hst|]. split; [exact Ho|].
  cbn. rewrite Hst. cbn. rewrite Ho. reflexivity.
Qed.

(** X2: [remove_seat] on a missing id answers 404 and changes nothing;
    on an existing seat it deletes that seat and, by the [CASCADE] of
    [SeatSelection.seat], exactly the selections of that seat, keeps
    orders, tables and the staff log, and redirects to the table page of
    the seat's order. *)
Theorem remove_seat_cascades (k : Z) (sess : session) (s : db) :
  refs_ok s ->
  match db_seats s !! k with
  | None => remove_seat k sess s = (inl Http404, s)
  | Some st => exists o, db_orders s !! seat_order st = Some o /\
      let '(r, s') := remove_seat k sess s in
      r = inr (Redirect (PTableDetail (ord_table o) None) MsgSeatRemoved) /\
      db_seats s' = delete k (db_seats s) /\
      (forall j sel, db_selections s' !! j = Some sel <->
                     db_selections s !! j = Some sel /\ sel_seat sel <> k) /\
      db_orders s' = db_orders s /\ db_tables s' = db_tables s /\ db_log s' = db_log s
  end.
Proof.
  intros (_ & H2 & _). unfold remove_seat, bind, get_or_404.
  destruct (db_seats s !! k) as [st|] eqn:Hk; [|reflexivity].
  destruct (H2 _ _ Hk) as [o Ho]. exists o. split; [exact Ho|].
  cbn. rewrite Ho. cbn. split; [reflexivity|]. split; [reflexivity|].
  split; [|auto]. intros j sel. apply map_lookup_filter_Some.
Qed.

(** X3: [close_order] on a missing id answers 404 and changes nothing.
    On an existing order whose session holds a truthy staff id naming no
    [StaffMember], the audit entry raises [IntegrityError] before the
    delete and nothing changes.  Otherwise it deletes the order, exactly
    its seats and exactly the selections on those seats, keeps the
    tables, appends one [closed_order] log entry when the session holds a
    truthy staff id, and redirects to the room's table list. *)
Theorem close_order_cascades (k : Z) (sess : session) (s : db) :
  refs_ok s ->
  match db_orders s !! k with
  | None => close_order k sess s = (inl Http404, s)
  | Some o => exists tb, db_tables s !! ord_table o = Some tb /\
      if truthy_id sess && negb (bool_decide (default 0 sess ∈ db_staff s)) then
        close_order k sess s = (inl IntegrityError, s)
      else
      let '(r, s') := close_order k sess s in
      r = inr (Redirect (PRoomTables (tbl_room tb)) MsgOrderClosed) /\
      db_orders s' = delete k (db_orders s) /\
      (forall j st, db_seats s' !! j = Some st <->
                    db_seats s !! j = Some st /\ seat_order st <> k) /\
      (forall j sel, db_selections s' !! j = Some sel <->
         db_selections s !! j = Some sel /\
         forall st, db_seats s !! sel_seat sel = Some st -> seat_order st <> k) /\
      db_tables s' = db_tables s /\
      db_log s' = db_log s ++ (if truthy_id sess then [(default 0 sess, LogClosed k)] else [])
  end.
Proof.
  intros (_ & _ & H3). unfold close_order, bind, get_or_404, get_related, staff_log, ret.
  destruct (db_orders s !! k) as [o|] eqn:Hk; [|reflexivity].
  destruct (H3 _ _ Hk) as [tb Htb]. exists tb. split; [exact Htb|].
  rewrite Htb.
  destruct sess as [sid|]; [destruct (truthy_id (Some sid))|]; cbn [default andb];
    [destruct (decide (sid ∈ db_staff s)) as [Hin|Hin];
       [rewrite !bool_decide_eq_true_2 by exact Hin
       |rewrite !bool_decide_eq_false_2 by exact Hin]|..]; cbn; try reflexivity.
  all: split; [reflexivity|]; split; [reflexivity|].
  all: split; [intros j st; apply map_lookup_filter_Some|].
  all: split; [|split; [reflexivity|rewrite ?app_nil_r; reflexivity]].
  all: intros j sel; rewrite map_lookup_filter_Some; cbn;
    rewrite map_lookup_filter_None; split;
    [ intros [Hj Hn]; split; [exact Hj|]; intros st Hst Heq;
      destruct Hn as [Hn|Hn]; [congruence|]; exact (Hn st Hst Heq)
    | intros [Hj Hn]; split; [exact Hj|]; right; intros st Hst; exact (Hn st Hst) ].
Qed.

(** X6: [move_selection] with a missing or empty [selection_id] or
    [target_seat_id] answers [{"status": "error"}] and changes nothing;
    with both present but the selection or the target seat missing it
    answers 404 and changes nothing. *)
Theorem move_selection_rejects_missing (a b : option Z) (sess : session) (s : db) :
  ((a = None \/ b = None) -> move_selection a b sess s = (inr (Json false), s)) /\
  (forall sk tk, a = Some sk -> b = Some tk ->
     db_selections s !! sk = None \/ db_seats s !! tk = None ->
     move_selection a b sess s = (inl Http404, s)).
Proof.
  split.
  - intros [-> | ->]; [reflexivity|destruct a; reflexivity].
  - intros sk tk -> -> Hmiss. unfold move_selection, bind, get_or_404.
    destruct (db_selections s !! sk) eqn:Hsk; [|reflexivity].
    destruct Hmiss as [Hmiss|Hmiss]; [congruence|]. cbn. rewrite Hmiss. reflexivity.
Qed.

Lemma wp_get_or_create_selection E sid iid nts (Q : (Z * seat_selection) * bool -> db -> Prop) s :
  E s ->
  (forall k sel created s', db_selections s' !! k = Some sel ->
     s' = s \/ s' = set_selections (<[db_next_id s := mkSel sid iid nts ∅ ∅]> (db_selections s))
                      (set_next_id (db_next_id s + 1) s) ->
     Q ((k, sel), created) s') ->
  wp E (get_or_create_selection sid iid nts) Q s.
Proof.
  intros HE HQ. unfold get_or_create_selection.
  rewrite wp_bind, wp_gets.
  destruct (filter _ _) as [|[k sel] [|kv2 r]] eqn:Hf.
  - rewrite wp_bind, wp_gets. destruct (negb _); [rewrite wp_throw; exact HE|].
    rewrite wp_bind. unfold fresh_id, wp at 1. cbn [fst snd].
    rewrite wp_bind, wp_modify, wp_ret. apply HQ; [cbn; apply lookup_insert_eq|right; reflexivity].
  - rewrite wp_ret. apply HQ; [|left; reflexivity].
    assert (Hin : (k, sel) ∈ filter (fun kv : Z * seat_selection => sel_seat kv.2 = sid /\ sel_item kv.2 = iid)
                     (map_to_list (db_selections s))) by (rewrite Hf; left).
    apply list_elem_of_filter in Hin as [_ Hin]. apply elem_of_map_to_list in Hin. exact Hin.
  - rewrite wp_throw. exact HE.
Qed.

(** X7: [add_selection] never removes anything from an existing
    selection: after any outcome the selection is still there with the
    same seat and item, its modifier and temperature sets only grow, and
    every modifier or temperature gained is one that exists and was
    posted. *)
Theorem add_selection_only_adds (post : selection_post) (sess : session) (s : db)
  (j : Z) (sel : seat_selection) :
  (forall i, db_next_id s <= i -> db_selections s !! i = None) ->
  db_selections s !! j = Some sel ->
  exists sel', db_selections (snd (add_selection post sess s)) !! j = Some sel' /\
    sel_seat sel' = sel_seat sel /\ sel_item sel' = sel_item sel /\
    modifiers sel ⊆ modifiers sel' /\ temperatures sel ⊆ temperatures sel' /\
    (forall m, m ∈ modifiers sel' -> m ∉ modifiers sel ->
               m ∈ db_modifiers s /\ In m (ap_modifier_ids post)) /\
    (forall t, t ∈ temperatures sel' -> t ∉ temperatures sel ->
               t ∈ db_temperatures s /\ In t (ap_temperature_ids post)).
Proof.
  intros Hfresh Hj.
  assert (Hjlt : j < db_next_id s).
  { destruct (Z.lt_ge_cases j (db_next_id s)) as [H|H]; [exact H|]. rewrite Hfresh in Hj by exact H. discriminate. }
  set (Inv := fun s' : db =>
    db_modifiers s' = db_modifiers s /\ db_temperatures s' = db_temperatures s /\
    exists sel', db_selections s' !! j = Some sel' /\
    sel_seat sel' = sel_seat sel /\ sel_item sel' = sel_item sel /\
    modifiers sel ⊆ modifiers sel' /\ temperatures sel ⊆ temperatures sel' /\
    (forall m, m ∈ modifiers sel' -> m ∉ modifiers sel ->
               m ∈ db_modifiers s /\ In m (ap_modifier_ids post)) /\
    (forall t, t ∈ temperatures sel' -> t ∉ temperatures sel ->
               t ∈ db_temperatures s /\ In t (ap_temperature_ids post))).
  assert (Hs : Inv s).
  { split; [reflexivity|]. split; [reflexivity|]. exists sel. split; [exact Hj|].
    do 4 (split; [reflexivity || set_solver|]). split; intros ? ? ?; contradiction. }
  enough (HI : Inv (snd (add_selection post sess s))) by (destruct HI as (_ & _ & HI); exact HI).
  apply wp_snd. unfold add_selection.
  rewrite wp_bind. apply wp_get_or_404; [exact Hs|]. intros sk st _ _. cbv beta.
  rewrite wp_bind, wp_gets. destruct (negb _); [rewrite wp_throw; exact Hs|].
  assert (Hsave : forall s1 k selk n, Inv s1 -> db_selections s1 !! k = Some selk ->
    Inv (set_selections (<[k := mkSel (sel_seat selk) (sel_item selk) n (modifiers selk)
                                  (temperatures selk)]> (db_selections s1)) s1)).
  { intros s1 k selk n (Hm & Ht & sel' & Hj' & HI) Hk. split; [exact Hm|]. split; [exact Ht|].
    cbn. destruct (decide (k = j)) as [->|Hne].
    - rewrite Hj' in Hk. injection Hk as <-.
      eexists. rewrite lookup_insert_eq. split; [reflexivity|]. exact HI.
    - exists sel'. rewrite lookup_insert_ne by congruence. split; [exact Hj'|]. exact HI. }
  assert (Hmods : forall s1 k ids, Inv s1 -> ids = ap_modifier_ids post ->
    Inv (snd (add_modifiers k ids s1))).
  { intros s1 k ids (Hm & Ht & sel' & Hj' & Hseat & Hitem & Hsub1 & Hsub2 & Hnew1 & Hnew2) Hids.
    split; [exact Hm|]. split; [exact Ht|]. cbn.
    destruct (decide (k = j)) as [->|Hne].
    - eexists. rewrite lookup_alter_eq, Hj'. split; [reflexivity|]. cbn.
      split; [exact Hseat|]. split; [exact Hitem|]. split; [set_solver|]. split; [exact Hsub2|].
      split; [|exact Hnew2].
      intros m Hin Hout. apply elem_of_union in Hin as [Hin|Hin]; [exact (Hnew1 m Hin Hout)|].
      apply elem_of_list_to_set, list_elem_of_filter in Hin as [Hin1 Hin2].
      rewrite Hm in Hin1. split; [exact Hin1|]. subst ids. apply list_elem_of_In, Hin2.
    - exists sel'. rewrite lookup_alter_ne by congruence. split; [exact Hj'|]. auto 7. }
  assert (Htemps : forall s1 k ids, Inv s1 -> ids = ap_temperature_ids post ->
    Inv (snd (add_temperatures k ids s1))).
  { intros s1 k ids (Hm & Ht & sel' & Hj' & Hseat & Hitem & Hsub1 & Hsub2 & Hnew1 & Hnew2) Hids.
    split; [exact Hm|]. split; [exact Ht|]. cbn.
    destruct (decide (k = j)) as [->|Hne].
    - eexists. rewrite lookup_alter_eq, Hj'. split; [reflexivity|]. cbn.
      split; [exact Hseat|]. split; [exact Hitem|]. split; [exact Hsub1|]. split; [set_solver|].
      split; [exact Hnew1|].
      intros m Hin Hout. apply elem_of_union in Hin as [Hin|Hin]; [exact (Hnew2 m Hin Hout)|].
      apply elem_of_list_to_set, list_elem_of_filter in Hin as [Hin1 Hin2].
      rewrite Ht in Hin1. split; [exact Hin1|]. subst ids. apply list_elem_of_In, Hin2.
    - exists sel'. rewrite lookup_alter_ne by congruence. split; [exact Hj'|]. auto 7. }
  assert (Hnew : Inv (set_selections (<[db_next_id s := mkSel sk (default 0 (ap_item_id post))
                        (py_strip (ap_notes post)) ∅ ∅]> (db_selections s))
                       (set_next_id (db_next_id s + 1) s))).
  { destruct Hs as (Hm & Ht & sel' & Hj' & HI). split; [exact Hm|]. split; [exact Ht|].
    exists sel'. cbn. rewrite lookup_insert_ne by lia. split; [exact Hj'|]. exact HI. }
  rewrite wp_bind. apply wp_get_or_create_selection; [exact Hs|].
  intros k selk created s1 Hk Hs1eq.
  assert (Hs1 : Inv s1) by (destruct Hs1eq as [->| ->]; [exact Hs|exact Hnew]).
  clear Hs1eq. cbv beta iota.
  rewrite wp_bind.
  destruct (negb created && _); [apply wp_save_selection; [exact Hs1|] | rewrite wp_ret]; cbv beta.
  all: match goal with |- wp _ _ _ ?s2 => assert (Hs2 : Inv s2) by (exact Hs1 || exact (Hsave _ _ _ _ Hs1 Hk)) end.
  all: clear Hs1 Hk; rewrite wp_bind.
  all: destruct (ap_modifier_ids post) eqn:Hm;
    [rewrite wp_ret | unfold add_modifiers at 1; rewrite wp_modify]; cbv beta.
  all: match goal with |- wp _ _ _ ?s3 =>
         assert (Hs3 : Inv s3) by (exact Hs2 || exact (Hmods _ _ _ Hs2 eq_refl)) end.
  all: clear Hs2; rewrite wp_bind.
  all: destruct (ap_temperature_ids post) eqn:Ht;
    [rewrite wp_ret | unfold add_temperatures at 1; rewrite wp_modify]; cbv beta.
  all: match goal with |- wp _ _ _ ?s4 =>
         assert (Hs4 : Inv s4) by (exact Hs3 || exact (Htemps _ _ _ Hs3 eq_refl)) end.
  all: clear Hs3; rewrite wp_bind.
  all: apply wp_get_or_404; [exact Hs4|]; intros; exact Hs4.
Qed.


Lemma str_leb_total a b : str_leb a b = false -> str_leb b a = true.
Proof.
  revert b; induction a as [|x a IH]; intros [|y b] H; cbn in *; try discriminate; [reflexivity|].
  apply orb_false_iff in H as [Hlt Heq]. apply Z.ltb_ge in Hlt.
  destruct (Z.eqb_spec x y) as [->|Hne].
  - cbn in Heq. rewrite Z.ltb_irrefl, Z.eqb_refl. cbn. apply IH, Heq.
  - apply orb_true_iff. left. apply Z.ltb_lt. lia.
Qed.

Lemma str_leb_trans a b c : str_leb a b = true -> str_leb b c = true -> str_leb a c = true.
Proof.
  revert b c; induction a as [|x a IH]; intros [|y b] [|z c] H1 H2; cbn in *; try discriminate; auto.
  apply orb_true_iff in H1 as [H1|H1], H2 as [H2|H2]; apply orb_true_iff.
  - left. apply Z.ltb_lt in H1, H2. apply Z.ltb_lt. lia.
  - apply andb_true_iff in H2 as [H2 _]. apply Z.eqb_eq in H2. subst. left. exact H1.
  - apply andb_true_iff in H1 as [H1 _]. apply Z.eqb_eq in H1. subst. left. exact H2.
  - apply andb_true_iff in H1 as [H1 H1'], H2 as [H2 H2']. apply Z.eqb_eq in H1, H2. subst.
    right. rewrite Z.eqb_refl. cbn. exact (IH _ _ H1' H2').
Qed.

Lemma key_leb_total a b : key_leb a b = false -> key_leb b a = true.
Proof.
  destruct a as [x|x], b as [y|y]; cbn; try discriminate; try reflexivity.
  - intros H. apply Z.leb_gt in H. apply Z.leb_le. lia.
  - apply str_leb_total.
Qed.

Lemma key_leb_trans a b c : key_leb a b = true -> key_leb b c = true -> key_leb a c = true.
Proof.
  destruct a as [x|x], b as [y|y], c as [z|z]; cbn; try discriminate; auto.
  - intros H1 H2. apply Z.leb_le in H1, H2. apply Z.leb_le. lia.
  - apply str_leb_trans.
Qed.

Lemma insert_by_key_perm {A} k (x : A) l : insert_by_key k x l ≡ₚ (k, x) :: l.
Proof.
  induction l as [|[k' y] r IH]; cbn; [reflexivity|].
  destruct (key_leb k' k); [|reflexivity].
  rewrite IH. apply perm_swap.
Qed.

Lemma insert_by_key_sorted {A} k (x : A) l :
  StronglySorted (fun a b : seat_key * A => key_leb a.1 b.1 = true) l ->
  StronglySorted (fun a b : seat_key * A => key_leb a.1 b.1 = true) (insert_by_key k x l).
Proof.
  induction 1 as [|[k' y] r Hr IH Hall]; cbn.
  - constructor; [constructor|constructor].
  - destruct (key_leb k' k) eqn:Hk.
    + constructor; [exact IH|]. apply Forall_forall. intros z Hz.
      rewrite (insert_by_key_perm k x r) in Hz.
      apply elem_of_cons in Hz as [->|Hz]; [exact Hk|].
      rewrite Forall_forall in Hall. exact (Hall z Hz).
    + apply key_leb_total in Hk.
      constructor; [constructor; [exact Hr|exact Hall]|].
      constructor; [exact Hk|]. rewrite Forall_forall in Hall |- *. intros z Hz.
      exact (key_leb_trans _ _ _ Hk (Hall z Hz)).
Qed.

Lemma keyed_ok {A} (key : A -> exc + seat_key) l ks :
  keyed key l = inr ks -> map snd ks = l /\ Forall (fun kx : seat_key * A => key kx.2 = inr kx.1) ks.
Proof.
  revert ks; induction l as [|x r IH]; intros ks H; cbn in H.
  - injection H as <-. split; constructor.
  - destruct (key x) as [e|k] eqn:Hk; [discriminate|].
    destruct (keyed key r) as [e|r'] eqn:Hr; [discriminate|]. injection H as <-.
    destruct (IH r' eq_refl) as [IH1 IH2]. cbn. split; [congruence|]. constructor; [exact Hk|exact IH2].
Qed.

Lemma fold_insert_ok {A} (P : seat_key * A -> Prop) ks acc :
  Forall P ks -> Forall P acc ->
  StronglySorted (fun a b : seat_key * A => key_leb a.1 b.1 = true) acc ->
  let res := fold_left (fun acc kx => insert_by_key kx.1 kx.2 acc) ks acc in
  res ≡ₚ ks ++ acc /\ Forall P res /\
  StronglySorted (fun a b : seat_key * A => key_leb a.1 b.1 = true) res.
Proof.
  revert acc; induction ks as [|[k x] r IH]; intros acc Hks Hacc Hs; cbn.
  - split; [reflexivity|]. split; [exact Hacc|exact Hs].
  - inversion Hks as [|? ? Hkx Hr]; subst.
    destruct (IH (insert_by_key k x acc) Hr) as (Hp & Hf & Hss).
    + rewrite (insert_by_key_perm k x acc). constructor; assumption.
    + apply insert_by_key_sorted, Hs.
    + split; [|split; assumption].
      rewrite Hp, (insert_by_key_perm k x acc). symmetry. apply Permutation_middle.
Qed.

Lemma sorted_map_snd u (acc : list (seat_key * (Z * seat))) :
  Forall (fun kx : seat_key * (Z * seat) => seat_sort_key u kx.2.2 = inr kx.1) acc ->
  StronglySorted (fun a b : seat_key * (Z * seat) => key_leb a.1 b.1 = true) acc ->
  StronglySorted (fun x y : Z * seat => seat_le u x.2 y.2) (map snd acc).
Proof.
  intros Hf Hs. induction Hs as [|[k x] r Hr IH Hall]; cbn; constructor.
  - inversion Hf; subst. apply IH. assumption.
  - inversion Hf as [|? ? Hx Hrf]; subst. cbn in Hx.
    rewrite Forall_forall in Hall. rewrite Forall_forall in Hrf. apply Forall_forall. intros y Hy.
    apply list_elem_of_fmap in Hy as ([k' y'] & -> & Hy'). cbn.
    specialize (Hall _ Hy'). specialize (Hrf _ Hy'). cbn in Hall, Hrf.
    unfold seat_le. rewrite Hx, Hrf. exact Hall.
Qed.

Lemma sort_seats_ok u l l' :
  sort_seats u l = inr l' ->
  l' ≡ₚ l /\ StronglySorted (fun x y : Z * seat => seat_le u x.2 y.2) l'.
Proof.
  unfold sort_seats. destruct (keyed _ l) as [e|ks] eqn:Hk; [discriminate|].
  intros [= <-]. destruct (keyed_ok _ _ _ Hk) as [Hl Hf].
  destruct (fold_insert_ok (fun kx : seat_key * (Z * seat) => seat_sort_key u kx.2.2 = inr kx.1)
              ks [] Hf (Forall_nil_2 _) (SSorted_nil _)) as (Hp & Hf' & Hs).
  split.
  - rewrite Hp, app_nil_r. rewrite <- Hl. reflexivity.
  - apply sorted_map_snd; assumption.
Qed.

Lemma filter_exc_ok {A} (p : A -> exc + bool) l l' :
  filter_exc p l = inr l' ->
  (forall x, In x l' <-> In x l /\ p x = inr true) /\ (NoDup l -> NoDup l').
Proof.
  revert l'; induction l as [|x r IH]; intros l' H; cbn in H.
  - injection H as <-. split; [intros y; cbn; tauto|intros _; constructor].
  - destruct (p x) as [e|b] eqn:Hp; [discriminate|].
    destruct (filter_exc p r) as [e|r'] eqn:Hr; [discriminate|]. injection H as <-.
    destruct (IH r' eq_refl) as [IH1 IH2]. split.
    + intros y. destruct b; cbn; rewrite IH1; split.
      * intros [<-|Hy]; [split; [left; reflexivity|exact Hp]|tauto].
      * intros [[<-|Hy] Hpy]; [left; reflexivity|right; tauto].
      * intros [Hy Hpy]. split; [right; exact Hy|exact Hpy].
      * intros [[<-|Hy] Hpy]; [congruence|tauto].
    + intros Hnd. apply NoDup_cons in Hnd as [Hx Hnd]. destruct b; [|exact (IH2 Hnd)].
      constructor; [|exact (IH2 Hnd)]. intros Hin. apply Hx.
      apply list_elem_of_In in Hin. apply IH1 in Hin as [Hin _]. apply list_elem_of_In, Hin.
Qed.

Lemma in_slice_true u lo hi st :
  in_slice u lo hi st = inr true <->
  py_isdigit u (label st) = true /\ exists n, py_int u (label st) = Some n /\ lo <= n <= hi.
Proof.
  unfold in_slice. destruct (py_isdigit u (label st)); [|split; [discriminate|intros [? _]; discriminate]].
  destruct (py_int u (label st)) as [n|]; split.
  - intros [= H]. apply andb_true_iff in H as [H1 H2]. apply Z.leb_le in H1, H2. eauto.
  - intros (_ & m & [= <-] & H1 & H2). f_equal. apply andb_true_iff. split; apply Z.leb_le; lia.
  - discriminate.
  - intros (_ & m & [=] & _).
Qed.

Lemma order_seats_spec s oid k st :
  In (k, st) (order_seats s oid) <-> db_seats s !! k = Some st /\ seat_order st = oid.
Proof.
  rewrite <- list_elem_of_In, (order_seats_perm s oid), list_elem_of_filter, elem_of_map_to_list. cbn. tauto.
Qed.

Lemma order_seats_NoDup s oid : NoDup (order_seats s oid).
Proof. rewrite order_seats_perm. apply NoDup_filter, NoDup_map_to_list. Qed.

(** X9: when [table_detail] renders, its context holds the table's
    newest open order, the range read from [my_start] / [my_end], and the
    seats of that order without repetition, sorted by the seat sort key;
    a seat is listed iff it belongs to the open order and, when a range
    is given, has a numeric label within it. *)
Theorem table_detail_seats (u : ucd) (tid : Z) (q : table_query) (s : db) (c : table_context) :
  fst (table_detail u tid q s) = inr c ->
  ctx_order c = first_open_order s tid /\
  query_range u (q_my_start q) (q_my_end q) = inr (ctx_range c) /\
  NoDup (ctx_seats c) /\
  StronglySorted (fun x y : Z * seat => seat_le u x.2 y.2) (ctx_seats c) /\
  forall k st, In (k, st) (ctx_seats c) <->
    (exists o, first_open_order s tid = Some (seat_order st, o)) /\ db_seats s !! k = Some st /\
    match ctx_range c with
    | None => True
    | Some (lo, hi) => py_isdigit u (label st) = true /\
                       exists n, py_int u (label st) = Some n /\ lo <= n <= hi
    end.
Proof.
  unfold table_detail, bind, get_or_404. destruct (db_tables s !! tid) as [tbl|]; [|discriminate].
  cbn. unfold build_table_context.
  destruct (id_param u (q_new_seat q)) as [e|ns]; [discriminate|].
  destruct (id_param u (q_active_seat q)) as [e|acs]; [discriminate|].
  destruct (query_range u (q_my_start q) (q_my_end q)) as [e|rng] eqn:Hq; [discriminate|].
  destruct (visible_seats u s tid (q_my_start q) (q_my_end q)) as [e|vis] eqn:Hv; [discriminate|].
  cbn. intros [= <-]. cbn.
  split; [reflexivity|]. split; [reflexivity|].
  unfold visible_seats in Hv. rewrite Hq in Hv.
  destruct (first_open_order s tid) as [[oid o]|] eqn:Hopen.
  2:{ injection Hv as <-. split; [constructor|]. split; [constructor|].
      intros k st. split; [intros []|intros ((o & [=]) & _)]. }
  destruct (match rng with Some (lo, hi) => _ | None => _ end) as [e|v] eqn:Hvis; [discriminate|].
  destruct (sort_seats_ok u v vis Hv) as [Hperm Hsorted].
  assert (Hv' : (forall kv, In kv v <-> In kv (order_seats s oid) /\
                   match rng with
                   | None => True
                   | Some (lo, hi) => in_slice u lo hi kv.2 = inr true
                   end) /\ NoDup v).
  { destruct rng as [[lo hi]|].
    - destruct (filter_exc_ok _ _ _ Hvis) as [H1 H2]. split; [exact H1|]. apply H2, order_seats_NoDup.
    - injection Hvis as <-. split; [tauto|apply order_seats_NoDup]. }
  destruct Hv' as [Hin Hnd].
  split; [rewrite Hperm; exact Hnd|]. split; [exact Hsorted|].
  intros k st. rewrite <- list_elem_of_In, Hperm, list_elem_of_In, Hin, order_seats_spec.
  split.
  - intros ([Hk Ho] & Hr). split; [exists o; rewrite Ho; reflexivity|]. split; [exact Hk|].
    destruct rng as [[lo hi]|]; [apply in_slice_true, Hr|exact I].
  - intros ((o' & [= Ho _]) & Hk & Hr). split; [split; [exact Hk|symmetry; exact Ho]|].
    destruct rng as [[lo hi]|]; [apply in_slice_true, Hr|exact I].
Qed.

Lemma py_str_truthy n : 0 <= n -> py_truthy (py_str n) = true.
Proof. intros Hn. destruct (py_str_nonneg_shape n Hn) as (c & r & -> & _). reflexivity. Qed.

Lemma py_str_neg_not_digit u n : ucd_wf u -> n < 0 -> py_isdigit u (py_str n) = false.
Proof.
  intros (_ & _ & Hm) Hn. unfold py_str. replace (n <? 0) with true by (symmetry; apply Z.ltb_lt; lia).
  cbn. rewrite Hm. reflexivity.
Qed.

Lemma id_param_facts (u : ucd) :
  ucd_wf u ->
  (forall n, 0 <= n -> id_param u (Some (py_str n)) = inr (Some n)) /\
  (forall n, n < 0 -> id_param u (Some (py_str n)) = inr None) /\
  (forall v n, id_param u v = inr (Some n) -> 0 <= n) /\
  id_param u None = inr None /\ id_param u (Some []) = inr None.
Proof.
  intros Hu. split; [|split; [|split; [|split; reflexivity]]].
  - intros n Hn. unfold id_param. rewrite py_str_truthy, py_isdigit_py_str, py_int_py_str by assumption.
    reflexivity.
  - intros n Hn. unfold id_param. rewrite py_str_neg_not_digit by assumption.
    rewrite andb_false_r. reflexivity.
  - intros [x|] n; unfold id_param; [|discriminate].
    destruct (py_truthy x && py_isdigit u x) eqn:Hd; [|discriminate].
    destruct (py_int u x) as [m|] eqn:Hm; [|discriminate]. intros [= <-].
    apply andb_true_iff in Hd as [_ Hd]. exact (py_int_isdigit_nonneg u x m Hu Hd Hm).
Qed.

Lemma query_range_py_str u a b :
  ucd_wf u -> 0 <= a <= b -> query_range u (Some (py_str a)) (Some (py_str b)) = inr (Some (a, b)).
Proof.
  intros Hu Hab. unfold query_range.
  rewrite !py_str_truthy, !py_isdigit_py_str, !py_int_py_str by (assumption || lia). cbn.
  replace (b <? a) with false by (symmetry; apply Z.ltb_ge; lia). reflexivity.
Qed.

(** X11: the table-page redirects built by the views round-trip through
    [table_detail]: [?new_seat=n], [?active_seat=n] and
    [?my_start=a&my_end=b] (with non-negative values, [a <= b]) are read
    back as exactly that seat or that range, and the other parameters as
    absent. *)
Theorem redirect_round_trip (u : ucd) (p : page) (tid : Z) (q : table_query) (s : db)
  (c : table_context) :
  ucd_wf u -> follow p = Some (tid, q) ->
  match p with
  | PTableDetail _ (Some (a, b)) => 0 <= a <= b
  | PTableActiveSeat _ sid | PTableNewSeat _ sid => 0 <= sid
  | _ => True
  end ->
  fst (table_detail u tid q s) = inr c ->
  ctx_new_seat c = match p with PTableNewSeat _ sid => Some sid | _ => None end /\
  ctx_active_seat c = match p with PTableActiveSeat _ sid => Some sid | _ => None end /\
  ctx_range c = match p with PTableDetail _ r => r | _ => None end.
Proof.
  intros Hu Hf Hp. unfold table_detail, bind, get_or_404.
  destruct (db_tables s !! tid) as [tbl|]; [|discriminate]. cbn [fst snd gets].
  unfold build_table_context.
  destruct p as [| t [[a b]|] | t sid | t sid | t | r]; cbn in Hf; try discriminate;
    injection Hf as <- <-; cbn [q_new_seat q_active_seat q_my_start q_my_end].
  all: try rewrite query_range_py_str by assumption.
  all: try rewrite (proj1 (id_param_facts u Hu) sid Hp).
  all: cbn [id_param query_range].
  all: destruct (visible_seats _ _ _ _ _); [discriminate|]; intros [= <-]; auto.
Qed.

Lemma seat_labels_loop_iff cd labels fs :
  NoDup labels ->
  seat_labels_loop cd labels fs = true <->
  NoDup (labels ++ filter (fun l => py_truthy l = true)
                    (map sf_label (filter (fun f => cd && sf_delete f = false) fs))).
Proof.
  revert labels; induction fs as [|f r IH]; intros labels Hl; cbn [seat_labels_loop].
  - rewrite filter_nil. cbn. rewrite app_nil_r. tauto.
  - destruct (cd && sf_delete f) eqn:Hd.
    + rewrite filter_cons_False by congruence. apply IH, Hl.
    + rewrite filter_cons_True by done. cbn [map].
      destruct (py_truthy (sf_label f)) eqn:Ht.
      * rewrite filter_cons_True by done.
        case_bool_decide as Hin.
        -- split; [discriminate|]. intros Hn.
           apply NoDup_app in Hn as (_ & Hdis & _). exfalso.
           apply (Hdis _ Hin). left.
        -- rewrite IH.
           ++ rewrite <- app_assoc. reflexivity.
           ++ apply NoDup_app. split; [done|]. split; [|apply NoDup_singleton].
              intros x Hx Hx'. apply list_elem_of_singleton in Hx'. subst. done.
      * rewrite filter_cons_False by congruence. apply IH, Hl.
Qed.

(** X13: [BaseSeatFormSet.clean] (after [super().clean()]) accepts the
    forms exactly when the non-empty labels of the forms not marked for
    deletion (marks count only when [can_delete]) are pairwise distinct. *)
Theorem seat_formset_clean_iff (can_delete : bool) (forms : list seat_form) :
  seat_formset_clean can_delete forms = true <->
  NoDup (filter (fun l => py_truthy l = true)
           (map sf_label (filter (fun f => can_delete && sf_delete f = false) forms))).
Proof. unfold seat_formset_clean. rewrite seat_labels_loop_iff by constructor. reflexivity. Qed.

Lemma lstrip_head s c r : lstrip s = c :: r -> py_isspace c = false.
Proof.
  induction s as [|x s IH]; cbn; [discriminate|].
  destruct (py_isspace x) eqn:Hx; [exact IH|]. intros [= <- _]. exact Hx.
Qed.

Lemma lstrip_suffix s : exists p, s = p ++ lstrip s.
Proof.
  induction s as [|x s [p Hp]]; cbn; [exists []; done|].
  destruct (py_isspace x); [exists (x :: p); cbn; congruence | exists []; done].
Qed.

Lemma lstrip_keep c r : py_isspace c = false -> lstrip (c :: r) = c :: r.
Proof. cbn. intros ->. reflexivity. Qed.

Lemma py_strip_idem s : py_strip (py_strip s) = py_strip s.
Proof.
  unfold py_strip at 2 3.
  set (t := lstrip s). set (u := lstrip (rev t)).
  destruct u as [|x w] eqn:Hu; [reflexivity|].
  destruct (lstrip_suffix (rev t)) as [p Hp]. fold u in Hp. rewrite Hu in Hp.
  assert (Ht : t = rev (x :: w) ++ rev p).
  { rewrite <- rev_app_distr, <- Hp. symmetry. apply rev_involutive. }
  unfold py_strip.
  destruct (rev (x :: w)) as [|y z] eqn:Hr.
  - exfalso. apply (f_equal (@length _)) in Hr. rewrite length_rev in Hr. discriminate.
  - rewrite lstrip_keep.
    + rewrite <- Hr, rev_involutive, lstrip_keep; [reflexivity|].
      apply (lstrip_head (rev t) x w). exact Hu.
    + apply (lstrip_head s y (z ++ rev p)). fold t. rewrite Ht. reflexivity.
Qed.

(** X14: with codes stored by [set_code] and a password hasher whose
    [check_password] accepts exactly the hashed text, a POST to
    [staff_login] logs in the first member (in query order) whose stored
    code, stripped, equals the posted code stripped, storing its id in
    the session; if there is none the session is unchanged and the login
    page is shown again with an error. *)
Theorem staff_login_first_match {hash : Type} (make_password : pystr -> hash)
  (check_password : pystr -> hash -> bool)
  (Hpw : forall raw raw', check_password raw (make_password raw') = bool_decide (raw = raw'))
  (staff : list (Z * @staff_member hash * pystr)) (code : option pystr) (sess : session) :
  staff_login check_password
    (map (fun '(k, m, raw) => (k, set_code make_password m raw)) staff) (LoginPost code) sess =
  match List.find (fun '(k, m, raw) => bool_decide (py_strip raw = py_strip (default [] code))) staff with
  | Some (k, m, _) => (LoginWelcome (staff_name m), Some k)
  | None => (LoginInvalid, sess)
  end.
Proof.
  unfold staff_login. induction staff as [|[[k m] raw] r IH]; [reflexivity|].
  cbn [map first_member List.find]. unfold check_code, set_code. cbn [code_hash staff_name].
  rewrite Hpw, py_strip_idem.
  destruct (bool_decide (py_strip (default [] code) = py_strip raw)) eqn:H1;
  destruct (bool_decide (py_strip raw = py_strip (default [] code))) eqn:H2;
  try reflexivity; [| |exact IH];
  apply bool_decide_eq_true_1 in H1 || apply bool_decide_eq_true_1 in H2;
  [apply bool_decide_eq_false_1 in H2 | apply bool_decide_eq_false_1 in H1]; congruence.
Qed.

(** X4: the order-flow views [start_order], [join_order], [close_order]
    and [add_seat] never leave a dangling foreign key: from a database in
    which every selection's seat, every seat's order and every order's
    table exists, every outcome (success or error) leaves a database with
    the same property. *)
Theorem order_views_keep_foreign_keys (u : ucd) (s : db) :
  refs_ok s ->
  (forall tid post sess, refs_ok (snd (start_order u tid post sess s))) /\
  (forall tid form sess, refs_ok (snd (join_order tid form sess s))) /\
  (forall k sess, refs_ok (snd (close_order k sess s))) /\
  (forall k sess, refs_ok (snd (add_seat u k sess s))).
Proof.
  intros Hs. split; [|split; [|split]]; intros.
  - apply start_order_refs, Hs.
  - apply join_order_refs, Hs.
  - apply close_order_refs, Hs.
  - apply add_seat_refs, Hs.
Qed.

(** X5: the seat and selection views [remove_seat], [add_selection],
    [remove_selection] and [move_selection] never leave a dangling foreign
    key: every outcome of each of them keeps every selection's seat, every
    seat's order and every order's table in the database. *)
Theorem selection_views_keep_foreign_keys (s : db) :
  refs_ok s ->
  (forall k sess, refs_ok (snd (remove_seat k sess s))) /\
  (forall post sess, refs_ok (snd (add_selection post sess s))) /\
  (forall k sess, refs_ok (snd (remove_selection k sess s))) /\
  (forall a b sess, refs_ok (snd (move_selection a b sess s))).
Proof.
  intros Hs. split; [|split; [|split]]; intros.
  - apply remove_seat_refs, Hs.
  - apply add_selection_refs, Hs.
  - apply remove_selection_refs, Hs.
  - apply move_selection_refs, Hs.
Qed.

(** X10: the [new_seat] and [active_seat] query parameters of
    [_build_table_context]: [str(n)] reads back as [n] for [n >= 0]; a
    negative number, an empty or a missing parameter gives [None]; an id
    that is read is never negative. *)
Theorem id_param_spec (u : ucd) :
  ucd_wf u ->
  (forall n, 0 <= n -> id_param u (Some (py_str n)) = inr (Some n)) /\
  (forall n, n < 0 -> id_param u (Some (py_str n)) = inr None) /\
  (forall v n, id_param u v = inr (Some n) -> 0 <= n) /\
  id_param u None = inr None /\ id_param u (Some []) = inr None.
Proof. exact (id_param_facts u). Qed.

(* ------------------------------------------------------------------ *)
(** ** Witnesses of the properties above *)

Lemma remove_selection_deletes_only_it_witness :
  refs_ok db_selection_sample /\
  match db_selections db_selection_sample !! 5 with
  | None => remove_selection 5 (Some 7) db_selection_sample = (inl Http404, db_selection_sample)
  | Some sel => exists st o,
      db_seats db_selection_sample !! sel_seat sel = Some st /\
      db_orders db_selection_sample !! seat_order st = Some o /\
      remove_selection 5 (Some 7) db_selection_sample =
        (inr (Redirect (PTableDetail (ord_table o) None) MsgSelectionRemoved),
         set_selections (delete 5 (db_selections db_selection_sample)) db_selection_sample)
  end.
Proof.
  assert (Hs : refs_ok db_selection_sample) by (apply refs_okb_sound; vm_compute; reflexivity).
  split; [exact Hs|]. exact (remove_selection_deletes_only_it 5 (Some 7) db_selection_sample Hs).
Defined.

Lemma remove_seat_cascades_witness :
  refs_ok db_selection_sample /\
  match db_seats db_selection_sample !! 1001 with
  | None => remove_seat 1001 None db_selection_sample = (inl Http404, db_selection_sample)
  | Some st => exists o, db_orders db_selection_sample !! seat_order st = Some o /\
      let '(r, s') := remove_seat 1001 None db_selection_sample in
      r = inr (Redirect (PTableDetail (ord_table o) None) MsgSeatRemoved) /\
      db_seats s' = delete 1001 (db_seats db_selection_sample) /\
      (forall j sel, db_selections s' !! j = Some sel <->
                     db_selections db_selection_sample !! j = Some sel /\ sel_seat sel <> 1001) /\
      db_orders s' = db_orders db_selection_sample /\
      db_tables s' = db_tables db_selection_sample /\
      db_log s' = db_log db_selection_sample
  end.
Proof.
  assert (Hs : refs_ok db_selection_sample) by (apply refs_okb_sound; vm_compute; reflexivity).
  split; [exact Hs|]. exact (remove_seat_cascades 1001 None db_selection_sample Hs).
Defined.

Lemma close_order_cascades_witness :
  refs_ok db_selection_sample /\
  match db_orders db_selection_sample !! 1000 with
  | None => close_order 1000 (Some 7) db_selection_sample = (inl Http404, db_selection_sample)
  | Some o => exists tb, db_tables db_selection_sample !! ord_table o = Some tb /\
      if truthy_id (Some 7) && negb (bool_decide (default 0 (Some 7) ∈ db_staff db_selection_sample))
      then close_order 1000 (Some 7) db_selection_sample = (inl IntegrityError, db_selection_sample)
      else
      let '(r, s') := close_order 1000 (Some 7) db_selection_sample in
      r = inr (Redirect (PRoomTables (tbl_room tb)) MsgOrderClosed) /\
      db_orders s' = delete 1000 (db_orders db_selection_sample) /\
      (forall j st, db_seats s' !! j = Some st <->
                    db_seats db_selection_sample !! j = Some st /\ seat_order st <> 1000) /\
      (forall j sel, db_selections s' !! j = Some sel <->
         db_selections db_selection_sample !! j = Some sel /\
         forall st, db_seats db_selection_sample !! sel_seat sel = Some st -> seat_order st <> 1000) /\
      db_tables s' = db_tables db_selection_sample /\
      db_log s' = db_log db_selection_sample ++
                  (if truthy_id (Some 7) then [(default 0 (Some 7), LogClosed 1000)] else [])
  end.
Proof.
  assert (Hs : refs_ok db_selection_sample) by (apply refs_okb_sound; vm_compute; reflexivity).
  split; [exact Hs|]. exact (close_order_cascades 1000 (Some 7) db_selection_sample Hs).
Defined.

Lemma order_views_keep_foreign_keys_witness :
  refs_ok db_selection_sample /\
  (forall tid post sess, refs_ok (snd (start_order ucd0 tid post sess db_selection_sample))) /\
  (forall tid form sess, refs_ok (snd (join_order tid form sess db_selection_sample))) /\
  (forall k sess, refs_ok (snd (close_order k sess db_selection_sample))) /\
  (forall k sess, refs_ok (snd (add_seat ucd0 k sess db_selection_sample))).
Proof.
  assert (Hs : refs_ok db_selection_sample) by (apply refs_okb_sound; vm_compute; reflexivity).
  split; [exact Hs|]. exact (order_views_keep_foreign_keys ucd0 db_selection_sample Hs).
Defined.

Lemma selection_views_keep_foreign_keys_witness :
  refs_ok db_selection_sample /\
  (forall k sess, refs_ok (snd (remove_seat k sess db_selection_sample))) /\
  (forall post sess, refs_ok (snd (add_selection post sess db_selection_sample))) /\
  (forall k sess, refs_ok (snd (remove_selection k sess db_selection_sample))) /\
  (forall a b sess, refs_ok (snd (move_selection a b sess db_selection_sample))).
Proof.
  assert (Hs : refs_ok db_selection_sample) by (apply refs_okb_sound; vm_compute; reflexivity).
  split; [exact Hs|]. exact (selection_views_keep_foreign_keys db_selection_sample Hs).
Defined.

Lemma move_selection_rejects_missing_witness :
  move_selection None (Some 1001) None db_selection_sample = (inr (Json false), db_selection_sample) /\
  move_selection (Some 9) (Some 1001) None db_selection_sample = (inl Http404, db_selection_sample).
Proof.
  split.
  - apply (proj1 (move_selection_rejects_missing None (Some 1001) None db_selection_sample)).
    left. reflexivity.
  - apply (proj2 (move_selection_rejects_missing (Some 9) (Some 1001) None db_selection_sample)
             9 1001 eq_refl eq_refl).
    left. vm_compute. reflexivity.
Defined.

Lemma add_selection_only_adds_witness :
  (forall i, db_next_id db_selection_sample <= i -> db_selections db_selection_sample !! i = None) /\
  db_selections db_selection_sample !! 5 = Some sel_sample /\
  exists sel', db_selections (snd (add_selection
                 (mkSelectionPost (Some 1001) (Some 100) (s2z "no salt") [201; 999] [301])
                 None db_selection_sample)) !! 5 = Some sel' /\
    sel_seat sel' = sel_seat sel_sample /\ sel_item sel' = sel_item sel_sample /\
    modifiers sel_sample ⊆ modifiers sel' /\ temperatures sel_sample ⊆ temperatures sel' /\
    (forall m, m ∈ modifiers sel' -> m ∉ modifiers sel_sample ->
               m ∈ db_modifiers db_selection_sample /\ In m [201; 999]) /\
    (forall t, t ∈ temperatures sel' -> t ∉ temperatures sel_sample ->
               t ∈ db_temperatures db_selection_sample /\ In t [301]).
Proof.
  assert (Hf : forall i, db_next_id db_selection_sample <= i ->
                         db_selections db_selection_sample !! i = None).
  { intros i Hi.
    assert (E : db_next_id db_selection_sample = 1003) by (vm_compute; reflexivity).
    rewrite E in Hi. cbn. apply lookup_singleton_ne. lia. }
  assert (Hj : db_selections db_selection_sample !! 5 = Some sel_sample) by reflexivity.
  split; [exact Hf|]. split; [exact Hj|].
  exact (add_selection_only_adds
           (mkSelectionPost (Some 1001) (Some 100) (s2z "no salt") [201; 999] [301])
           None db_selection_sample 5 sel_sample Hf Hj).
Defined.

Lemma table_detail_seats_witness :
  exists c, fst (table_detail ucd0 1 (mkTableQuery None None (Some (s2z "2")) (Some (s2z "3")))
                   (db_order_with [s2z "3"; s2z "1"; s2z "2"; s2z "x"])) = inr c /\
  ctx_order c = first_open_order (db_order_with [s2z "3"; s2z "1"; s2z "2"; s2z "x"]) 1 /\
  query_range ucd0 (Some (s2z "2")) (Some (s2z "3")) = inr (ctx_range c) /\
  NoDup (ctx_seats c) /\
  StronglySorted (fun x y : Z * seat => seat_le ucd0 x.2 y.2) (ctx_seats c) /\
  forall k st, In (k, st) (ctx_seats c) <->
    (exists o, first_open_order (db_order_with [s2z "3"; s2z "1"; s2z "2"; s2z "x"]) 1
               = Some (seat_order st, o)) /\
    db_seats (db_order_with [s2z "3"; s2z "1"; s2z "2"; s2z "x"]) !! k = Some st /\
    match ctx_range c with
    | None => True
    | Some (lo, hi) => py_isdigit ucd0 (label st) = true /\
                       exists n, py_int ucd0 (label st) = Some n /\ lo <= n <= hi
    end.
Proof.
  destruct (fst (table_detail ucd0 1 (mkTableQuery None None (Some (s2z "2")) (Some (s2z "3")))
                   (db_order_with [s2z "3"; s2z "1"; s2z "2"; s2z "x"]))) as [e|c] eqn:E.
  - vm_compute in E. discriminate E.
  - exists c. split; [reflexivity|]. exact (table_detail_seats ucd0 1 _ _ c E).
Defined.

Lemma id_param_spec_witness :
  ucd_wf ucd0 /\
  (forall n, 0 <= n -> id_param ucd0 (Some (py_str n)) = inr (Some n)) /\
  (forall n, n < 0 -> id_param ucd0 (Some (py_str n)) = inr None) /\
  (forall v n, id_param ucd0 v = inr (Some n) -> 0 <= n) /\
  id_param ucd0 None = inr None /\ id_param ucd0 (Some []) = inr None.
Proof. split; [exact ucd0_wf|]. exact (id_param_spec ucd0 ucd0_wf). Defined.

Lemma redirect_round_trip_witness :
  exists c,
  ucd_wf ucd0 /\
  follow (PTableActiveSeat 1 1002) = Some (1, mkTableQuery None (Some (py_str 1002)) None None) /\
  0 <= 1002 /\
  fst (table_detail ucd0 1 (mkTableQuery None (Some (py_str 1002)) None None)
         (db_order_with [s2z "1"; s2z "2"])) = inr c /\
  ctx_new_seat c = None /\ ctx_active_seat c = Some 1002 /\ ctx_range c = None.
Proof.
  destruct (fst (table_detail ucd0 1 (mkTableQuery None (Some (py_str 1002)) None None)
                   (db_order_with [s2z "1"; s2z "2"]))) as [e|c] eqn:E.
  - vm_compute in E. discriminate E.
  - exists c. split; [exact ucd0_wf|]. split; [reflexivity|]. split; [lia|].
    split; [reflexivity|].
    exact (redirect_round_trip ucd0 (PTableActiveSeat 1 1002) 1 _ _ c ucd0_wf eq_refl
             ltac:(cbn; lia) E).
Defined.

Lemma staff_login_first_match_witness :
  (forall raw raw' : pystr, bool_decide (raw = id raw') = bool_decide (raw = raw')) /\
  staff_login (fun raw h : pystr => bool_decide (raw = h))
    (map (fun '(k, m, raw) => (k, set_code id m raw))
       [(3, mkStaffMember (s2z "ann") [], s2z "1234 "); (4, mkStaffMember (s2z "bob") [], s2z " 42")])
    (LoginPost (Some (s2z " 42  "))) None
  = (LoginWelcome (s2z "bob"), Some 4).
Proof.
  assert (Hpw : forall raw raw' : pystr, bool_decide (raw = id raw') = bool_decide (raw = raw'))
    by reflexivity.
  split; [exact Hpw|].
  rewrite (staff_login_first_match id (fun raw h : pystr => bool_decide (raw = h)) Hpw).
  vm_compute. reflexivity.
Defined.
